(** * RealtimeAIVoiceChat: the streaming voice pipeline

    A shallow embedding of [core/pipeline.py], [core/vad.py] and
    [core/stt.py], and the properties of the five-stage pipeline that the
    specification states about them.

    Conventions.
    - A Python [int] is a [Z]; an [np.int16] sample is a [Z] in
      [-32768, 32767]; [bytes] is a [list byte].
    - A Python [str] is a [string] whose characters are code points below
      256; every character the code inspects is ASCII.
    - A raised exception is the [Raise] case of [result]; a function that
      mutates [self] returns the new state next to its result, also when it
      raises.
    - An async generator is a [gen]: the chunks it yields, ending in a
      normal return or in a raised exception.
    - Library calls whose result is not computed by this repository
      (scipy's polyphase filter, the Silero VAD model, [json.loads], the
      STT, TTS and agent providers) are Section variables.
    - Log messages are kept without their pictographs. *)

From Stdlib Require Import ZArith List Strings.String Strings.Ascii Strings.Byte QArith Qround Lia Bool.
Import ListNotations.
Local Open Scope string_scope.
Local Open Scope list_scope.
Local Open Scope Z_scope.

Set Implicit Arguments.

(** ** Exceptions and results *)

Inductive exn : Type :=
| ValueError
| ZeroDivisionError
| TypeError
| KeyError
| StructError
| JSONDecodeError
| OverflowError
| QueueFull
| QueueEmpty
| RuntimeError
| AttributeError
| ProviderError (detail : string).

Inductive result (A : Type) : Type :=
| Ok (a : A)
| Raise (e : exn).
Arguments Ok {A} a.
Arguments Raise {A} e.

Definition is_ok {A} (r : result A) : bool :=
  match r with Ok _ => true | Raise _ => false end.

(** [loguru] records, in the order they are written. *)
Inductive log_entry : Type :=
| LogDebug (msg : string)
| LogInfo (msg : string)
| LogWarning (msg : string)
| LogException (msg : string) (e : exn).

(** How a pipeline task leaves its [while not self.shutdown_event.is_set()]
    loop: the loop condition turned false ([LoopExit]), or an exception
    reached the [except Exception] around the loop, was logged, and the
    coroutine returned ([Caught]). *)
Inductive task_end : Type :=
| LoopExit
| Caught (e : exn).

(** ** Python sequences *)

Definition len {A} (l : list A) : Z := Z.of_nat (List.length l).

(** [l[start:stop]] for a list, with Python's treatment of negative and
    out-of-range bounds. *)
Definition py_index_clamp (n i : Z) : Z :=
  if i <? 0 then Z.max 0 (i + n) else Z.min i n.

Definition py_slice {A} (l : list A) (start stop : Z) : list A :=
  let n := len l in
  let lo := py_index_clamp n start in
  let hi := py_index_clamp n stop in
  firstn (Z.to_nat (hi - lo)) (skipn (Z.to_nat lo) l).

(** [l[start:]] *)
Definition py_slice_from {A} (l : list A) (start : Z) : list A :=
  py_slice l start (len l).

(** [l[:stop]] *)
Definition py_slice_to {A} (l : list A) (stop : Z) : list A :=
  py_slice l 0 stop.

(** ** Async generators *)

(** What iterating an async generator to its end observes: each yielded
    chunk, then either the normal end or the exception it raised. *)
Inductive gen (A : Type) : Type :=
| Return
| Throw (e : exn)
| Yield (a : A) (rest : gen A).
Arguments Return {A}.
Arguments Throw {A} e.

(** The body [g1] followed by the body [g2]; an exception in [g1] ends
    the generator. *)
Fixpoint gen_seq {A} (g1 g2 : gen A) : gen A :=
  match g1 with
  | Return => g2
  | Throw e => Throw e
  | Yield a rest => Yield a (gen_seq rest g2)
  end.

Fixpoint yielded {A} (g : gen A) : list A :=
  match g with
  | Return | Throw _ => []
  | Yield a rest => a :: yielded rest
  end.

Fixpoint raised {A} (g : gen A) : option exn :=
  match g with
  | Return => None
  | Throw e => Some e
  | Yield _ rest => raised rest
  end.

(** The generator that yields the elements of [l] and returns. *)
Definition yields {A} (l : list A) : gen A := fold_right (@Yield A) Return l.

(** ** [core/typing.py] *)

Record PipelineConfig : Type := {
  header_bytes : Z;
  received_audio_sample_rate : Z;
  audio_sample_rate : Z;
  speech_pad_samples_ms : Z;
  min_silence_duration_ms : Z;
  min_continuous_speech_s : Q;
  max_continuous_speech_s : Z
}.

(** [PipelineConfig()], the configuration [main.py] builds. *)
Definition default_config : PipelineConfig := {|
  header_bytes := 10;
  received_audio_sample_rate := 48000;
  audio_sample_rate := 16000;
  speech_pad_samples_ms := 100;
  min_silence_duration_ms := 500;
  min_continuous_speech_s := 1 # 2;
  max_continuous_speech_s := 20
|}.

(** [AudioChunk.audio] is [bytes | NDArray[np.int16]]. *)
Inductive audio_data : Type :=
| AudioBytes (raw : list byte)
| AudioSamples (samples : list Z).

Record AudioChunk : Type := {
  flag : Z;
  timestamp : Q;
  audio : audio_data;
  transcript : option string
}.

(** ** [asyncio.Queue] *)

Module Queue.

Record t (A : Type) : Type := {
  maxsize : Z;
  items : list A
}.

Definition create (A : Type) (maxsize : Z) : t A :=
  {| maxsize := maxsize; items := [] |}.

Definition qsize {A} (q : t A) : Z := len (items q).

Definition empty {A} (q : t A) : bool :=
  match items q with [] => true | _ :: _ => false end.

(** [full]: a queue made with [maxsize <= 0] is never full. *)
Definition full {A} (q : t A) : bool :=
  if maxsize q <=? 0 then false else maxsize q <=? qsize q.

Definition put_nowait {A} (q : t A) (item : A) : result (t A) :=
  if full q then Raise QueueFull
  else Ok {| maxsize := maxsize q; items := items q ++ [item] |}.

Definition get_nowait {A} (q : t A) : result (A * t A) :=
  match items q with
  | [] => Raise QueueEmpty
  | x :: rest => Ok (x, {| maxsize := maxsize q; items := rest |})
  end.

End Queue.

(** ** [core/vad.py] *)

Module VADProcessor.

(** One entry of [get_speech_timestamps]: [{"start": s, "end": e}]. *)
Record speech_timestamp : Type := {
  ts_start : Z;
  ts_end : Z
}.

(** *** numpy on int16 buffers *)

Definition byte_val (b : byte) : Z := Z.of_N (Byte.to_N b).

Definition int16_of_bytes (lo hi : byte) : Z :=
  let u := Z.lor (byte_val lo) (Z.shiftl (byte_val hi) 8) in
  if u <? 32768 then u else u - 65536.

(** [np.frombuffer(audio_bytes, dtype=np.int16)]: little-endian pairs; an
    odd number of bytes is a [ValueError]. *)
Fixpoint frombuffer_int16 (bs : list byte) : result (list Z) :=
  match bs with
  | [] => Ok []
  | [_] => Raise ValueError
  | lo :: hi :: rest =>
      match frombuffer_int16 rest with
      | Ok samples => Ok (int16_of_bytes lo hi :: samples)
      | Raise e => Raise e
      end
  end.

Definition byte_of_Z (x : Z) : byte :=
  match Byte.of_N (Z.to_N (x mod 256)) with
  | Some b => b
  | None => x00
  end.

(** [ndarray.tobytes()] of an int16 array (little-endian). *)
Definition int16_tobytes (samples : list Z) : list byte :=
  flat_map (fun x => [byte_of_Z x; byte_of_Z (Z.shiftr (x mod 65536) 8)]) samples.

(** [np.abs] on int16 wraps at the minimum: [abs(-32768) = -32768]. *)
Definition np_abs_int16 (x : Z) : Z :=
  if x =? -32768 then -32768 else Z.abs x.

(** [np.max]: a [ValueError] on a zero-size array. *)
Definition np_max (a : list Z) : result Z :=
  match a with
  | [] => Raise ValueError
  | x :: rest => Ok (fold_left Z.max rest x)
  end.

(** [np.clip(x, -32768, 32767).astype(np.int16)] on one value: clamp, then
    truncate toward zero. *)
Definition clip_astype_int16 (x : Q) : Z :=
  let c := if Qle_bool x (-32768 # 1) then (-32768 # 1)
           else if Qle_bool (32767 # 1) x then (32767 # 1) else x in
  if Qle_bool 0 c then Qfloor c else Qceiling c.

Section Resampler.

(** [scipy.signal.resample_poly(audio_float32, 1, resample_ratio)]: the
    filtered samples, as the real numbers the floats stand for. *)
Variable resample_poly : list Z -> Z -> result (list Q).

(** [audio_resampler]. The silent branch returns
    [int(np.ceil(len / ratio))] zeros; the float quotient is exact enough
    for the ceiling to be the integer one for every buffer that fits in
    memory. *)
Definition audio_resampler (audio_bytes : list byte) (resample_ratio : Z)
  : result (list Z) :=
  match frombuffer_int16 audio_bytes with
  | Raise e => Raise e
  | Ok audio_int16 =>
      match np_max (map np_abs_int16 audio_int16) with
      | Raise e => Raise e
      | Ok peak =>
          if peak =? 0 then
            if resample_ratio =? 0 then Raise ZeroDivisionError
            else
              let expect_len := - ((- len audio_int16) / resample_ratio) in
              if expect_len <? 0 then Raise ValueError
              else Ok (repeat 0 (Z.to_nat expect_len))
          else
            match resample_poly audio_int16 resample_ratio with
            | Raise e => Raise e
            | Ok resampled_audio => Ok (map clip_astype_int16 resampled_audio)
            end
      end
  end.

End Resampler.

(** *** The processor *)

Record t : Type := {
  original_audio_sample_rate : Z;
  audio_sample_rate : Z;
  max_continuous_speech_s : Z;
  min_continuous_speech_s : Q;
  min_silence_duration_ms : Z;
  speech_pad_samples_ms : Z;
  _audio_buffer : list Z;
  _max_audio_buffer : Z;
  _min_audio_samples : Q;
  _min_silence_samples : Z;
  _resample_ratio : Z
}.

(** [__init__]; the only step that can raise is the integer division by
    [audio_sample_rate]. *)
Definition init (original_audio_sample_rate audio_sample_rate
                 max_continuous_speech_s : Z) (min_continuous_speech_s : Q)
                (min_silence_duration_ms speech_pad_samples_ms : Z) : result t :=
  if audio_sample_rate =? 0 then Raise ZeroDivisionError
  else Ok {|
    original_audio_sample_rate := original_audio_sample_rate;
    audio_sample_rate := audio_sample_rate;
    max_continuous_speech_s := max_continuous_speech_s;
    min_continuous_speech_s := min_continuous_speech_s;
    min_silence_duration_ms := min_silence_duration_ms;
    speech_pad_samples_ms := speech_pad_samples_ms;
    _audio_buffer := [];
    _max_audio_buffer := max_continuous_speech_s * audio_sample_rate;
    _min_audio_samples := min_continuous_speech_s * inject_Z audio_sample_rate;
    _min_silence_samples := min_silence_duration_ms * (audio_sample_rate / 1000);
    _resample_ratio := original_audio_sample_rate / audio_sample_rate
  |}.

Definition set_audio_buffer (self : t) (buffer : list Z) : t := {|
  original_audio_sample_rate := original_audio_sample_rate self;
  audio_sample_rate := audio_sample_rate self;
  max_continuous_speech_s := max_continuous_speech_s self;
  min_continuous_speech_s := min_continuous_speech_s self;
  min_silence_duration_ms := min_silence_duration_ms self;
  speech_pad_samples_ms := speech_pad_samples_ms self;
  _audio_buffer := buffer;
  _max_audio_buffer := _max_audio_buffer self;
  _min_audio_samples := _min_audio_samples self;
  _min_silence_samples := _min_silence_samples self;
  _resample_ratio := _resample_ratio self
|}.

Definition set_audio (c : AudioChunk) (a : audio_data) : AudioChunk := {|
  flag := flag c;
  timestamp := timestamp c;
  audio := a;
  transcript := transcript c
|}.

(** The bytes [np.frombuffer] reads from [audio_chunk.audio]. *)
Definition audio_bytes_of (c : AudioChunk) : list byte :=
  match audio c with
  | AudioBytes raw => raw
  | AudioSamples samples => int16_tobytes samples
  end.

Section Processor.

Variable resample_poly : list Z -> Z -> result (list Q).

(** [silero_vad.get_speech_timestamps(audio, model, sampling_rate,
    speech_pad_ms)] on the buffer (the code hands it the samples divided
    by 32768 as float32, which loses nothing). *)
Variable get_speech_timestamps :
  list Z -> Z -> Z -> result (list speech_timestamp).

Definition _resample_audio (self : t) (audio_bytes : list byte)
  : result (list Z) :=
  audio_resampler resample_poly audio_bytes (_resample_ratio self).

Definition _get_speech_timestamps (self : t) : result (list speech_timestamp) :=
  get_speech_timestamps (_audio_buffer self) (audio_sample_rate self)
                        (speech_pad_samples_ms self).

(** [int(self._audio_buffer.size * 0.9)]: the double nearest to 0.9 is
    slightly above it, so the product truncates to [9 * size / 10] for
    every size below 2^50. *)
Definition samples_to_keep_of (size : Z) : Z := 9 * size / 10.

(** [process_audio_chunk]: the processor after the call and what the call
    returns ([Ok None] for [return None], [Ok (Some c)] for a returned
    chunk, [Raise e] when the [except] branch has emptied the buffer and
    re-raised). *)
Definition process_audio_chunk (self : t) (audio_chunk : AudioChunk)
  : t * result (option AudioChunk) :=
  match _resample_audio self (audio_bytes_of audio_chunk) with
  | Raise e => (set_audio_buffer self [], Raise e)
  | Ok audio_int16 =>
      let buffer := _audio_buffer self ++ audio_int16 in
      let self := set_audio_buffer self buffer in
      if negb (Qle_bool (_min_audio_samples self) (inject_Z (len buffer)))
      then (self, Ok None)
      else
        match _get_speech_timestamps self with
        | Raise e => (set_audio_buffer self [], Raise e)
        | Ok speech_timestamps =>
            let buffer_is_full := _max_audio_buffer self <=? len buffer in
            match speech_timestamps with
            | [] =>
                if buffer_is_full then
                  let samples_to_keep := samples_to_keep_of (len buffer) in
                  (set_audio_buffer self (py_slice_from buffer (- samples_to_keep)),
                   Ok None)
                else (self, Ok None)
            | first :: _ =>
                let speech_start_sample := ts_start first in
                let speech_end_sample := ts_end (last speech_timestamps first) in
                let speech_samples :=
                  map (fun s => py_slice buffer (ts_start s) (ts_end s))
                      speech_timestamps in
                let silence_samples := len buffer - speech_end_sample in
                if _min_silence_samples self <=? silence_samples then
                  (set_audio_buffer self (py_slice_from buffer speech_end_sample),
                   Ok (Some (set_audio audio_chunk
                               (AudioSamples (List.concat speech_samples)))))
                else if buffer_is_full then
                  let prev_length := len buffer in
                  let trimmed := py_slice_from buffer speech_start_sample in
                  if prev_length =? len trimmed then
                    (set_audio_buffer self [],
                     Ok (Some (set_audio audio_chunk
                                 (AudioSamples (List.concat speech_samples)))))
                  else (set_audio_buffer self trimmed, Ok None)
                else (self, Ok None)
            end
        end
  end.

End Processor.

End VADProcessor.

(** ** [core/utils.py] and [core/stt.py] *)

Module STT.

(** The WAV file [create_wav_buffer_from_bytes] writes, by what was set on
    the writer. *)
Record wav_buffer : Type := {
  nchannels : Z;
  sampwidth : Z;
  framerate : Z;
  frames : list byte;
  name : string
}.

Definition create_wav_buffer_from_bytes (audio_bytes : list byte)
                                        (sample_rate : Z) : wav_buffer := {|
  nchannels := 1;
  sampwidth := 2;
  framerate := sample_rate;
  frames := audio_bytes;
  name := "audio.wav"
|}.

(** The provider SDK's [client.audio.transcriptions.create], called with
    [file], [model] and [language]: without [stream] it returns the
    transcription's text; with [stream=True] it returns an async iterator
    of events, each with or without a [delta] attribute. Either call may
    raise (the code sets a 3 second timeout). *)
Record AsyncClient : Type := {
  transcriptions_create : wav_buffer -> string -> string -> result string;
  transcriptions_create_stream :
    wav_buffer -> string -> string -> result (gen (option string))
}.

Record t : Type := {
  language : string;
  model : string;
  client : AsyncClient
}.

(** [stt], the same code in [OpenAISTT] and [GroqSTT]. [config] is
    [kwargs.get("config")]. *)
Definition stt (self : t) (audio : list Z) (config : option PipelineConfig)
  : result string :=
  let audio_bytes := VADProcessor.int16_tobytes audio in
  match config with
  | None => Raise AttributeError
  | Some config =>
      let wav_buffer :=
        create_wav_buffer_from_bytes audio_bytes (audio_sample_rate config) in
      transcriptions_create (client self) wav_buffer (model self) (language self)
  end.

(** [async for chunk in transcription: if hasattr(chunk, "delta"): yield
    chunk.delta] *)
Fixpoint yield_deltas (events : gen (option string)) : gen string :=
  match events with
  | Return => Return
  | Throw e => Throw e
  | Yield (Some delta) rest => Yield delta (yield_deltas rest)
  | Yield None rest => yield_deltas rest
  end.

Definition yield_result (r : result string) : gen string :=
  match r with
  | Ok text => Yield text Return
  | Raise e => Throw e
  end.

Module OpenAISTT.

Definition init (client : AsyncClient) : t :=
  {| language := "en"; model := "whisper-1"; client := client |}.

(** [OpenAISTT.stt_stream]. The [if self.model == "whisper-1"] block
    yields the full transcription and has no [return]: control falls
    through to the streaming request. *)
Definition stt_stream (self : t) (audio : list Z)
                      (config : option PipelineConfig) : gen string :=
  gen_seq
    (if String.eqb (model self) "whisper-1"
     then yield_result (stt self audio config)
     else Return)
    (let audio_bytes := VADProcessor.int16_tobytes audio in
     match config with
     | None => Throw AttributeError
     | Some config =>
         let wav_buffer :=
           create_wav_buffer_from_bytes audio_bytes (audio_sample_rate config) in
         match transcriptions_create_stream (client self) wav_buffer
                 (model self) (language self) with
         | Raise e => Throw e
         | Ok transcription => yield_deltas transcription
         end
     end).

End OpenAISTT.

Module GroqSTT.

Definition init (client : AsyncClient) : t :=
  {| language := "en"; model := "whisper-large-v3-turbo"; client := client |}.

(** [GroqSTT.stt_stream]: the full transcription, yielded at once. *)
Definition stt_stream (self : t) (audio : list Z)
                      (config : option PipelineConfig) : gen string :=
  yield_result (stt self audio config).

End GroqSTT.

End STT.

(** ** Library values used by [core/pipeline.py] *)

Unset Elimination Schemes.

(** What [json.loads] returns. An object is the list of its members, each
    key once (where the text repeats a key, [json.loads] keeps the last
    value). *)
Inductive json : Type :=
| JNull
| JBool (b : bool)
| JInt (n : Z)
| JFloat (literal : string)
| JStr (s : string)
| JArr (elements : list json)
| JObj (members : list (string * json)).
Set Elimination Schemes.

Fixpoint assoc_lookup {V} (key : string) (members : list (string * V)) : option V :=
  match members with
  | [] => None
  | (k, v) :: rest => if String.eqb k key then Some v else assoc_lookup key rest
  end.

(** [data[key]] for a string key: only a dict can be indexed by a string. *)
Definition json_getitem (data : json) (key : string) : result json :=
  match data with
  | JObj members =>
      match assoc_lookup key members with
      | Some v => Ok v
      | None => Raise KeyError
      end
  | _ => Raise TypeError
  end.

(** [value == s] for a string literal [s]. *)
Definition json_eq_str (value : json) (s : string) : bool :=
  match value with
  | JStr v => String.eqb v s
  | _ => false
  end.

(** Big-endian unsigned integer of a byte string. *)
Definition be_uint (bs : list byte) : Z :=
  fold_left (fun acc b => acc * 256 + VADProcessor.byte_val b) bs 0.

(** [struct.unpack("!HQ", data)]: network byte order, no padding, so
    exactly 10 bytes; any other length is a [struct.error]. *)
Definition struct_unpack_HQ (data : list byte) : result (Z * Z) :=
  if len data =? 10 then Ok (be_uint (firstn 2 data), be_uint (skipn 2 data))
  else Raise StructError.

(** [struct.pack("!HQ", flag, timestamp_ms)], the header a client writes:
    the most significant byte first. *)
Fixpoint be_bytes (width : nat) (v : Z) : list byte :=
  match width with
  | O => []
  | S w => VADProcessor.byte_of_Z (v / 256 ^ Z.of_nat w) :: be_bytes w v
  end.

Definition struct_pack_HQ (flag timestamp_ms : Z) : list byte :=
  be_bytes 2 flag ++ be_bytes 8 timestamp_ms.

(** [base64.b64encode(data).decode("utf-8")] *)
Definition b64_alphabet : string :=
  "ABCDEFGHIJKLMNOPQRSTUVWXYZabcdefghijklmnopqrstuvwxyz0123456789+/".

Definition b64_char (i : Z) : ascii :=
  match String.get (Z.to_nat (Z.land i 63)) b64_alphabet with
  | Some c => c
  | None => "="%char
  end.

Fixpoint b64encode (data : list byte) : string :=
  match data with
  | [] => EmptyString
  | [a] =>
      let n := Z.shiftl (VADProcessor.byte_val a) 16 in
      String (b64_char (Z.shiftr n 18)) (String (b64_char (Z.shiftr n 12)) "==")
  | [a; b] =>
      let n := Z.lor (Z.shiftl (VADProcessor.byte_val a) 16)
                     (Z.shiftl (VADProcessor.byte_val b) 8) in
      String (b64_char (Z.shiftr n 18)) (String (b64_char (Z.shiftr n 12))
        (String (b64_char (Z.shiftr n 6)) "="))
  | a :: b :: c :: rest =>
      let n := Z.lor (Z.lor (Z.shiftl (VADProcessor.byte_val a) 16)
                            (Z.shiftl (VADProcessor.byte_val b) 8))
                     (VADProcessor.byte_val c) in
      String (b64_char (Z.shiftr n 18)) (String (b64_char (Z.shiftr n 12))
        (String (b64_char (Z.shiftr n 6)) (String (b64_char n)
          (b64encode rest))))
  end.

(** *** Python [str] operations *)

Fixpoint str_take (n : nat) (s : string) : string :=
  match n, s with
  | S n', String c rest => String c (str_take n' rest)
  | _, _ => EmptyString
  end.

Fixpoint str_drop (n : nat) (s : string) : string :=
  match n, s with
  | S n', String _ rest => str_drop n' rest
  | _, _ => s
  end.

(** [s.rfind(c)] for a one-character [c]: the highest index of [c], or -1. *)
Fixpoint rfind_from (c : ascii) (s : string) (i best : Z) : Z :=
  match s with
  | EmptyString => best
  | String a rest => rfind_from c rest (i + 1) (if Ascii.eqb a c then i else best)
  end.

Definition rfind (s : string) (c : ascii) : Z := rfind_from c s 0 (-1).

(** [c in s] for a one-character [c]. *)
Fixpoint str_contains (c : ascii) (s : string) : bool :=
  match s with
  | EmptyString => false
  | String a rest => Ascii.eqb a c || str_contains c rest
  end.

(** [str.isspace] on the code points below 256. *)
Definition is_space (c : ascii) : bool :=
  let n := Z.of_nat (nat_of_ascii c) in
  ((9 <=? n) && (n <=? 13)) || ((28 <=? n) && (n <=? 32))
  || (n =? 133) || (n =? 160).

(** [bool(s.strip())]: some character of [s] is not whitespace. *)
Fixpoint strip_nonempty (s : string) : bool :=
  match s with
  | EmptyString => false
  | String a rest => negb (is_space a) || strip_nonempty rest
  end.

Definition str_nonempty (s : string) : bool :=
  match s with EmptyString => false | String _ _ => true end.

(** ** [core/pipeline.py] *)

Module VoicePipeline.

Inductive ResponseEventType : Type :=
| TRANSCRIPTION_START
| TRANSCRIPTION_TEXT
| TRANSCRIPTION_TEXT_DELTA
| TRANSCRIPTION_END
| AI_RESPONSE_TEXT_START
| AI_RESPONSE_TEXT_DELTA
| AI_RESPONSE_TEXT_END
| AI_RESPONSE_SPEECH_START
| AI_RESPONSE_SPEECH_DELTA
| AI_RESPONSE_SPEECH_END.

Definition event_value (t : ResponseEventType) : string :=
  match t with
  | TRANSCRIPTION_START => "user.transcript.start"
  | TRANSCRIPTION_TEXT => "user.transcript.text"
  | TRANSCRIPTION_TEXT_DELTA => "user.transcript.text.delta"
  | TRANSCRIPTION_END => "user.transcript.end"
  | AI_RESPONSE_TEXT_START => "ai.response.text.start"
  | AI_RESPONSE_TEXT_DELTA => "ai.response.text.delta"
  | AI_RESPONSE_TEXT_END => "ai.response.text.end"
  | AI_RESPONSE_SPEECH_START => "ai.response.speech.start"
  | AI_RESPONSE_SPEECH_DELTA => "ai.response.speech.delta"
  | AI_RESPONSE_SPEECH_END => "ai.response.speech.end"
  end.

Definition event_eqb (a b : ResponseEventType) : bool :=
  String.eqb (event_value a) (event_value b).

(** The ["timestamp"] of a message: a supplied value, or the server clock
    read when the message is created. *)
Inductive stamp : Type :=
| At (seconds : Q)
| ServerNow.

(** The dict [_create_event_message] builds; [m_content = None] when the
    ["content"] key is absent. *)
Record message : Type := {
  m_type : ResponseEventType;
  m_timestamp : stamp;
  m_content : option string
}.

Definition _create_event_message (type : ResponseEventType)
    (content : option string) (timestamp : option Q) : message := {|
  m_type := type;
  m_timestamp :=
    match timestamp with
    | Some t => if Qeq_bool t 0 then ServerNow else At t
    | None => ServerNow
    end;
  m_content :=
    match content with
    | Some c => if str_nonempty c then Some c else None
    | None => None
    end
|}.

Definition _MAX_QUEUE_SIZE : Z := 60.

Definition queue_full_warning : log_entry :=
  LogWarning "Queue is full, dropping audio chunk".

(** [_add_queue_no_wait]: the queue after the call and what was logged.
    The [QueueFull] of [put_nowait] is caught here, so the caller sees no
    exception. *)
Definition _add_queue_no_wait {A} (queue : Queue.t A) (item : A)
  : Queue.t A * list log_entry :=
  match Queue.put_nowait queue item with
  | Ok queue' => (queue', [])
  | Raise _ => (queue, [queue_full_warning])
  end.

(** What a stage does that another party can observe, in order: a log
    record, a message handed to [_add_event_message], and calls of the
    collaborators. *)
Inductive effect : Type :=
| Log (entry : log_entry)
| Event (m : message)
| CallSTT (audio : audio_data)
| CallAgent (transcript : option string)
| CallTTS (text : string).

Record t : Type := {
  config : PipelineConfig;
  incoming_queue : Queue.t AudioChunk;
  processed_audio_queue : Queue.t AudioChunk;
  transcription_queue : Queue.t AudioChunk;
  response_queue : Queue.t message;
  vad_processor : VADProcessor.t;
  is_tts_playing : bool;
  trace : list effect
}.

(** [__init__]: four empty queues of capacity [_MAX_QUEUE_SIZE], the VAD
    processor built from the configuration, the TTS flag clear. *)
Definition init (config : PipelineConfig) : result t :=
  match VADProcessor.init (received_audio_sample_rate config)
          (audio_sample_rate config) (max_continuous_speech_s config)
          (min_continuous_speech_s config) (min_silence_duration_ms config)
          (speech_pad_samples_ms config) with
  | Raise e => Raise e
  | Ok vad => Ok {|
      config := config;
      incoming_queue := Queue.create AudioChunk _MAX_QUEUE_SIZE;
      processed_audio_queue := Queue.create AudioChunk _MAX_QUEUE_SIZE;
      transcription_queue := Queue.create AudioChunk _MAX_QUEUE_SIZE;
      response_queue := Queue.create message _MAX_QUEUE_SIZE;
      vad_processor := vad;
      is_tts_playing := false;
      trace := []
    |}
  end.

Definition set_incoming_queue (self : t) (q : Queue.t AudioChunk) : t := {|
  config := config self; incoming_queue := q;
  processed_audio_queue := processed_audio_queue self;
  transcription_queue := transcription_queue self;
  response_queue := response_queue self; vad_processor := vad_processor self;
  is_tts_playing := is_tts_playing self; trace := trace self |}.

Definition set_processed_audio_queue (self : t) (q : Queue.t AudioChunk) : t := {|
  config := config self; incoming_queue := incoming_queue self;
  processed_audio_queue := q;
  transcription_queue := transcription_queue self;
  response_queue := response_queue self; vad_processor := vad_processor self;
  is_tts_playing := is_tts_playing self; trace := trace self |}.

Definition set_transcription_queue (self : t) (q : Queue.t AudioChunk) : t := {|
  config := config self; incoming_queue := incoming_queue self;
  processed_audio_queue := processed_audio_queue self;
  transcription_queue := q;
  response_queue := response_queue self; vad_processor := vad_processor self;
  is_tts_playing := is_tts_playing self; trace := trace self |}.

Definition set_response_queue (self : t) (q : Queue.t message) : t := {|
  config := config self; incoming_queue := incoming_queue self;
  processed_audio_queue := processed_audio_queue self;
  transcription_queue := transcription_queue self;
  response_queue := q; vad_processor := vad_processor self;
  is_tts_playing := is_tts_playing self; trace := trace self |}.

Definition set_vad_processor (self : t) (v : VADProcessor.t) : t := {|
  config := config self; incoming_queue := incoming_queue self;
  processed_audio_queue := processed_audio_queue self;
  transcription_queue := transcription_queue self;
  response_queue := response_queue self; vad_processor := v;
  is_tts_playing := is_tts_playing self; trace := trace self |}.

Definition set_is_tts_playing (self : t) (b : bool) : t := {|
  config := config self; incoming_queue := incoming_queue self;
  processed_audio_queue := processed_audio_queue self;
  transcription_queue := transcription_queue self;
  response_queue := response_queue self; vad_processor := vad_processor self;
  is_tts_playing := b; trace := trace self |}.

Definition add_trace (self : t) (effects : list effect) : t := {|
  config := config self; incoming_queue := incoming_queue self;
  processed_audio_queue := processed_audio_queue self;
  transcription_queue := transcription_queue self;
  response_queue := response_queue self; vad_processor := vad_processor self;
  is_tts_playing := is_tts_playing self; trace := trace self ++ effects |}.

Definition logged (self : t) (entries : list log_entry) : t :=
  add_trace self (map Log entries).

(** *** Stage bodies as effect writers

    The body of one loop iteration reads no pipeline state after it has
    taken its input, so it is written as the list of effects it performs
    and how it ends; [perform] then runs the effects on the pipeline. *)

Definition W (A : Type) : Type := (list effect * result A)%type.

Definition ret {A} (a : A) : W A := ([], Ok a).

Definition bind {A B} (m : W A) (k : A -> W B) : W B :=
  match m with
  | (w, Ok a) => let '(w', r) := k a in (w ++ w', r)
  | (w, Raise e) => (w, Raise e)
  end.

Definition tell (effects : list effect) : W unit := (effects, Ok tt).

Definition throw {A} (e : exn) : W A := ([], Raise e).

Definition lift {A} (r : result A) : W A := ([], r).

Notation "x <- m ;; k" := (bind m (fun x => k))
  (at level 100, m at next level, right associativity).
Notation "m ;; k" := (bind m (fun _ => k))
  (at level 100, right associativity).

(** [_add_event_message]: build the message and hand it to
    [_add_queue_no_wait(self.response_queue, message)]. *)
Definition _add_event_message (type : ResponseEventType)
    (content : option string) (timestamp : option Q) : W unit :=
  tell [Event (_create_event_message type content timestamp)].

Definition perform1 (self : t) (e : effect) : t :=
  match e with
  | Event message =>
      let '(q, warnings) := _add_queue_no_wait (response_queue self) message in
      logged (add_trace (set_response_queue self q) [e]) warnings
  | _ => add_trace self [e]
  end.

Definition perform (self : t) (effects : list effect) : t :=
  fold_left perform1 effects self.

(** *** Ingest: [process_incoming_data] *)

(** The dict [websocket.receive()] returns, by its ["bytes"] and ["text"]
    keys ([None]: the key is absent). *)
Record ws_data : Type := {
  ws_bytes : option (list byte);
  ws_text : option string
}.

(** One [await asyncio.wait_for(self.websocket.receive(), timeout=1.0)]. *)
Inductive receive_result : Type :=
| ReceiveTimeout
| Received (data : ws_data)
| ReceiveRaised (e : exn).

Section Ingest.

Variable json_loads : string -> result json.

(** The largest epoch second [datetime.fromtimestamp] accepts on the
    platform (the last second of year 9999, in local time). *)
Variable datetime_max_timestamp : Z.

(** [datetime.fromtimestamp(seconds).timestamp()] for the unsigned
    [seconds] of a header: the same instant as a float, or the
    [ValueError] of a year that is out of range. *)
Definition datetime_roundtrip (seconds : Z) : result Q :=
  if seconds <=? datetime_max_timestamp then Ok (inject_Z seconds)
  else Raise ValueError.

(** The body of the loop for one received message. *)
Definition on_receive (self : t) (data : ws_data) : t * result unit :=
  match ws_bytes data, is_tts_playing self with
  | Some raw_bytes, false =>
      if len raw_bytes <? header_bytes (config self) then
        (logged self [LogDebug "Received invalid audio bytes"], Ok tt)
      else
        match struct_unpack_HQ (py_slice_to raw_bytes 10) with
        | Raise e => (self, Raise e)
        | Ok (flag, timestamp_ms) =>
            let pcm := py_slice_from raw_bytes 10 in
            match datetime_roundtrip (timestamp_ms / 1000) with
            | Raise e => (self, Raise e)
            | Ok ts =>
                let audio_chunk := {| flag := flag; timestamp := ts;
                                      audio := AudioBytes pcm;
                                      transcript := None |} in
                let '(q, warnings) :=
                  _add_queue_no_wait (incoming_queue self) audio_chunk in
                (logged (set_incoming_queue self q) warnings, Ok tt)
            end
        end
  | _, _ =>
      match ws_text data with
      | Some text =>
          match json_loads text with
          | Raise e => (self, Raise e)
          | Ok data =>
              match json_getitem data "type" with
              | Raise e => (self, Raise e)
              | Ok type =>
                  if json_eq_str type "tts_start" then
                    (set_is_tts_playing self true, Ok tt)
                  else if json_eq_str type "tts_end" then
                    (set_is_tts_playing self false, Ok tt)
                  else (self, Ok tt)
              end
          end
      | None => (self, Ok tt)
      end
  end.

(** The [while] loop over what [receive] delivers until the shutdown event
    is seen set (the end of [received]). *)
Fixpoint incoming_loop (self : t) (received : list receive_result)
  : t * task_end :=
  match received with
  | [] => (self, LoopExit)
  | ReceiveTimeout :: rest => incoming_loop self rest
  | ReceiveRaised e :: _ =>
      (logged self [LogException "Exception at process_incoming_data" e],
       Caught e)
  | Received data :: rest =>
      match on_receive self data with
      | (self', Ok _) => incoming_loop self' rest
      | (self', Raise e) =>
          (logged self' [LogException "Exception at process_incoming_data" e],
           Caught e)
      end
  end.

Definition process_incoming_data (self : t) (received : list receive_result)
  : t * task_end :=
  incoming_loop (logged self [LogDebug "process_incoming_data task started"])
                received.

End Ingest.

(** *** VADSegmenter stage: [process_audio_chunk] *)

Section Stages.

Variable resample_poly : list Z -> Z -> result (list Q).
Variable get_speech_timestamps :
  list Z -> Z -> Z -> result (list VADProcessor.speech_timestamp).

(** The collaborators, by protocol ([core/protocols.py]). *)
Variable stt_stream : audio_data -> option PipelineConfig -> gen string.
Variable generate_stream : option string -> gen string.
Variable tts_stream : string -> gen (list Z).

(** [iterations] counts the passes through the loop before the shutdown
    event is seen set; a [queue.get()] that times out on an empty queue is
    a pass that does nothing. *)
Fixpoint process_audio_chunk (self : t) (iterations : nat) : t * task_end :=
  match iterations with
  | O => (self, LoopExit)
  | S n =>
      match Queue.get_nowait (incoming_queue self) with
      | Raise _ => process_audio_chunk self n
      | Ok (audio_chunk, q) =>
          let self := set_incoming_queue self q in
          match VADProcessor.process_audio_chunk resample_poly
                  get_speech_timestamps (vad_processor self) audio_chunk with
          | (vad, Raise e) =>
              (logged (set_vad_processor self vad)
                 [LogException "Error in processing audio chunk" e;
                  LogException "Exception at process_audio_chunk" e],
               Caught e)
          | (vad, Ok None) => process_audio_chunk (set_vad_processor self vad) n
          | (vad, Ok (Some processed_audio_chunk)) =>
              let self := set_vad_processor self vad in
              let '(q2, warnings) :=
                _add_queue_no_wait (processed_audio_queue self)
                                   processed_audio_chunk in
              process_audio_chunk
                (logged (set_processed_audio_queue self q2) warnings) n
          end
      end
  end.

(** *** Transcriber stage: [transcribe_audio_chunk] *)

Fixpoint stream_transcript (chunks : gen string) (transcript : string)
  : W string :=
  match chunks with
  | Return => ret transcript
  | Throw e => throw e
  | Yield chunk rest =>
      _add_event_message TRANSCRIPTION_TEXT_DELTA (Some chunk) None ;;
      stream_transcript rest (append transcript chunk)
  end.

Definition audio_len (a : audio_data) : Z :=
  match a with AudioBytes raw => len raw | AudioSamples s => len s end.

(** One pass of the loop body after the chunk was taken from the queue:
    the chunk that goes to the transcription queue. *)
Definition transcribe_turn (config : PipelineConfig) (audio_chunk : AudioChunk)
  : W AudioChunk :=
  let audio_int16 := audio audio_chunk in
  tell [Log (LogDebug "Transcribing bytes of detected speech")] ;;
  _add_event_message TRANSCRIPTION_START None (Some (timestamp audio_chunk)) ;;
  tell [CallSTT audio_int16] ;;
  transcript <- stream_transcript (stt_stream audio_int16 (Some config)) "" ;;
  _add_event_message TRANSCRIPTION_END None None ;;
  ret {| flag := flag audio_chunk; timestamp := timestamp audio_chunk;
         audio := AudioBytes []; transcript := Some transcript |}.


(** *** AgentDriver stage: [generate_agent_response] *)

Definition sentence_endings : list ascii := ["."; "!"; "?"; "010"]%char.

(** [any(ending in text_buffer for ending in sentence_endings)] *)
Definition has_sentence_ending (text_buffer : string) : bool :=
  existsb (fun ending => str_contains ending text_buffer) sentence_endings.

(** [max(...)] of a sequence; a [ValueError] when it is empty. *)
Definition py_max (values : list Z) : result Z :=
  match values with
  | [] => Raise ValueError
  | x :: rest => Ok (fold_left Z.max rest x)
  end.

(** [max(text_buffer.rfind(ending) for ending in sentence_endings if
    ending in text_buffer)] *)
Definition last_ending_idx_of (text_buffer : string) : result Z :=
  py_max (map (rfind text_buffer)
              (filter (fun ending => str_contains ending text_buffer)
                      sentence_endings)).

(** [async for chunk in self.tts.tts_stream(text)]: one speech delta per
    chunk. *)
Fixpoint stream_speech (chunks : gen (list Z)) : W unit :=
  match chunks with
  | Return => ret tt
  | Throw e => throw e
  | Yield chunk rest =>
      let array_bytes := VADProcessor.int16_tobytes chunk in
      let base64_string := b64encode array_bytes in
      _add_event_message AI_RESPONSE_SPEECH_DELTA (Some base64_string) None ;;
      stream_speech rest
  end.

Definition speak (text : string) : W unit :=
  tell [CallTTS text] ;;
  stream_speech (tts_stream text).

(** [async for chunk in self.agent.generate_stream(transcript)]: the text
    buffer left when the stream ends. *)
Fixpoint consume_agent_stream (chunks : gen string) (text_buffer : string)
    (first_response_chunk first_speech_chunk : bool) : W string :=
  match chunks with
  | Return => ret text_buffer
  | Throw e => throw e
  | Yield chunk rest =>
      let text_buffer := append text_buffer chunk in
      (if first_response_chunk
       then _add_event_message AI_RESPONSE_TEXT_START None None
       else ret tt) ;;
      if has_sentence_ending text_buffer then
        last_ending_idx <- lift (last_ending_idx_of text_buffer) ;;
        let complete_text := str_take (Z.to_nat (last_ending_idx + 1)) text_buffer in
        let text_buffer := str_drop (Z.to_nat (last_ending_idx + 1)) text_buffer in
        if str_nonempty complete_text then
          (if first_speech_chunk
           then _add_event_message AI_RESPONSE_SPEECH_START None None
           else ret tt) ;;
          _add_event_message AI_RESPONSE_TEXT_DELTA (Some complete_text) None ;;
          speak complete_text ;;
          consume_agent_stream rest text_buffer false false
        else consume_agent_stream rest text_buffer false first_speech_chunk
      else consume_agent_stream rest text_buffer false first_speech_chunk
  end.

(** One pass of the loop body after the chunk was taken from the queue. *)
Definition agent_turn (audio_chunk : AudioChunk) : W unit :=
  let transcript := transcript audio_chunk in
  tell [Log (LogInfo "Processing transcript")] ;;
  _add_event_message TRANSCRIPTION_TEXT transcript (Some (timestamp audio_chunk)) ;;
  tell [CallAgent transcript] ;;
  text_buffer <- consume_agent_stream (generate_stream transcript) "" true true ;;
  (if strip_nonempty text_buffer then
     _add_event_message AI_RESPONSE_TEXT_DELTA (Some text_buffer) None ;;
     speak text_buffer
   else ret tt) ;;
  _add_event_message AI_RESPONSE_TEXT_END None None ;;
  _add_event_message AI_RESPONSE_SPEECH_END None None.

Fixpoint generate_agent_response (self : t) (iterations : nat) : t * task_end :=
  match iterations with
  | O => (self, LoopExit)
  | S n =>
      match Queue.get_nowait (transcription_queue self) with
      | Raise _ => generate_agent_response self n
      | Ok (audio_chunk, q) =>
          let self := set_transcription_queue self q in
          match agent_turn audio_chunk with
          | (effects, Raise e) =>
              (perform self
                 (effects ++
                  [Log (LogException "Exception at send_llm_response" e)]),
               Caught e)
          | (effects, Ok _) => generate_agent_response (perform self effects) n
          end
      end
  end.

End Stages.

End VoicePipeline.

(** ** A producer and a consumer on one queue *)

(** The producer offers items through [_add_queue_no_wait]; the consumer
    takes the head when there is one ([queue.get()] on an empty queue
    waits, which leaves the queue as it is). *)
Inductive queue_op (A : Type) : Type :=
| Offer (item : A)
| Take.
Arguments Take {A}.

Inductive queue_obs (A : Type) : Type :=
| Enqueued (item : A)
| Dropped (item : A)
| Taken (item : A)
| Waited.
Arguments Waited {A}.

Definition queue_step {A} (q : Queue.t A) (op : queue_op A)
  : Queue.t A * queue_obs A :=
  match op with
  | Offer x =>
      match VoicePipeline._add_queue_no_wait q x with
      | (q', []) => (q', Enqueued x)
      | (q', _ :: _) => (q', Dropped x)
      end
  | Take =>
      match Queue.get_nowait q with
      | Ok (x, q') => (q', Taken x)
      | Raise _ => (q, Waited)
      end
  end.

Fixpoint queue_run {A} (q : Queue.t A) (ops : list (queue_op A))
  : Queue.t A * list (queue_obs A) :=
  match ops with
  | [] => (q, [])
  | op :: rest =>
      let '(q1, o) := queue_step q op in
      let '(q2, os) := queue_run q1 rest in
      (q2, o :: os)
  end.

Definition offered {A} (ops : list (queue_op A)) : list A :=
  flat_map (fun op => match op with Offer x => [x] | Take => [] end) ops.

Definition accepted {A} (obs : list (queue_obs A)) : list A :=
  flat_map (fun o => match o with Enqueued x => [x] | _ => [] end) obs.

Definition consumed {A} (obs : list (queue_obs A)) : list A :=
  flat_map (fun o => match o with Taken x => [x] | _ => [] end) obs.

(** [subsequence sub l]: [sub] is [l] with some elements left out, the
    order kept. *)
Inductive subsequence {A} : list A -> list A -> Prop :=
| sub_nil : subsequence [] []
| sub_keep x sub l : subsequence sub l -> subsequence (x :: sub) (x :: l)
| sub_skip x sub l : subsequence sub l -> subsequence sub (x :: l).

(** A queue of the pipeline: capacity [_MAX_QUEUE_SIZE], any contents. *)
Definition pipeline_queue {A} (contents : list A) : Queue.t A :=
  {| Queue.maxsize := VoicePipeline._MAX_QUEUE_SIZE; Queue.items := contents |}.

(** ** Concrete collaborators for closed runs *)

(** The double quote, and the text of a control message as
    [json.dumps({"type": type})] writes it. *)
Definition dquote : string := String (ascii_of_nat 34) EmptyString.

Definition control_message (type : string) : string :=
  append "{" (append dquote (append "type" (append dquote (append ": "
    (append dquote (append type (append dquote "}"))))))).

Definition is_json_ws (c : ascii) : bool :=
  let n := nat_of_ascii c in
  Nat.eqb n 32 || Nat.eqb n 9 || Nat.eqb n 10 || Nat.eqb n 13.

Fixpoint skip_ws (s : string) : string :=
  match s with
  | String c rest => if is_json_ws c then skip_ws rest else s
  | EmptyString => s
  end.

(** The characters up to the closing quote of a JSON string without
    escapes, and the text after that quote. *)
Fixpoint read_plain_string (s : string) : option (string * string) :=
  match s with
  | EmptyString => None
  | String c rest =>
      let n := nat_of_ascii c in
      if Nat.eqb n 34 then Some (EmptyString, rest)
      else if Nat.eqb n 92 || Nat.ltb n 32 then None
      else
        match read_plain_string rest with
        | Some (v, rest') => Some (String c v, rest')
        | None => None
        end
  end.

Definition expect (c : ascii) (s : string) : option string :=
  match skip_ws s with
  | String a rest => if Ascii.eqb a c then Some rest else None
  | EmptyString => None
  end.

(** A decoder for the closed runs of this file. It reads an object with
    one member whose value is a string without escapes, the form of the
    protocol's control messages, and raises on every other text, as
    [json.loads] does on text that is not JSON. The closed runs use it on
    such objects and on text that is not JSON; the general theorems are
    stated for every decoder. *)
Definition json_loads_ctl (text : string) : result json :=
  let quote := ascii_of_nat 34 in
  match expect "{" text with
  | None => Raise JSONDecodeError
  | Some s1 =>
  match expect quote s1 with
  | None => Raise JSONDecodeError
  | Some s2 =>
  match read_plain_string s2 with
  | None => Raise JSONDecodeError
  | Some (key, s3) =>
  match expect ":" s3 with
  | None => Raise JSONDecodeError
  | Some s4 =>
  match expect quote s4 with
  | None => Raise JSONDecodeError
  | Some s5 =>
  match read_plain_string s5 with
  | None => Raise JSONDecodeError
  | Some (value, s6) =>
  match expect "}" s6 with
  | None => Raise JSONDecodeError
  | Some s7 =>
  match skip_ws s7 with
  | EmptyString => Ok (JObj [(key, JStr value)])
  | String _ _ => Raise JSONDecodeError
  end end end end end end end end.

(** 9999-12-31T23:59:59Z, the last second [datetime] can hold. *)
Definition datetime_max_utc : Z := 253402300799.

(** [VADProcessor] and [VoicePipeline] as [main.py] constructs them, from
    [PipelineConfig()]. *)
Definition default_vad : VADProcessor.t := {|
  VADProcessor.original_audio_sample_rate := 48000;
  VADProcessor.audio_sample_rate := 16000;
  VADProcessor.max_continuous_speech_s := 20;
  VADProcessor.min_continuous_speech_s := 1 # 2;
  VADProcessor.min_silence_duration_ms := 500;
  VADProcessor.speech_pad_samples_ms := 100;
  VADProcessor._audio_buffer := [];
  VADProcessor._max_audio_buffer := 320000;
  VADProcessor._min_audio_samples := 16000 # 2;
  VADProcessor._min_silence_samples := 8000;
  VADProcessor._resample_ratio := 3
|}.

Definition default_pipeline : VoicePipeline.t := {|
  VoicePipeline.config := default_config;
  VoicePipeline.incoming_queue := pipeline_queue [];
  VoicePipeline.processed_audio_queue := pipeline_queue [];
  VoicePipeline.transcription_queue := pipeline_queue [];
  VoicePipeline.response_queue := pipeline_queue [];
  VoicePipeline.vad_processor := default_vad;
  VoicePipeline.is_tts_playing := false;
  VoicePipeline.trace := []
|}.

(** A binary message and a text message, as [receive] delivers them. *)
Definition binary_message (raw : list byte) : VoicePipeline.ws_data :=
  {| VoicePipeline.ws_bytes := Some raw; VoicePipeline.ws_text := None |}.

Definition text_message (text : string) : VoicePipeline.ws_data :=
  {| VoicePipeline.ws_bytes := None; VoicePipeline.ws_text := Some text |}.

(** The frame Ingest builds from a header's fields and the payload. *)
Definition frame_of (flag timestamp_ms : Z) (pcm : list byte) : AudioChunk :=
  {| flag := flag; timestamp := inject_Z (timestamp_ms / 1000);
     audio := AudioBytes pcm; transcript := None |}.

(** [data] is a message that clears the TTS flag when Ingest reaches its
    text branch. *)
Definition is_tts_end (json_loads : string -> result json)
                      (data : VoicePipeline.ws_data) : bool :=
  match VoicePipeline.ws_text data with
  | Some text =>
      match json_loads text with
      | Ok value =>
          match json_getitem value "type" with
          | Ok type => json_eq_str type "tts_end"
          | Raise _ => false
          end
      | Raise _ => false
      end
  | None => false
  end.


(** [data] is a control message that sets the TTS flag: a text message
    whose JSON object has ["type": "tts_start"]. *)
Definition is_tts_start (json_loads : string -> result json)
                        (data : VoicePipeline.ws_data) : bool :=
  match VoicePipeline.ws_bytes data, VoicePipeline.ws_text data with
  | None, Some text =>
      match json_loads text with
      | Ok value =>
          match json_getitem value "type" with
          | Ok type => json_eq_str type "tts_start"
          | Raise _ => false
          end
      | Raise _ => false
      end
  | _, _ => false
  end.

(** A 10-byte binary message: flag 0, timestamp 1500 ms, no payload. *)
Definition header_only_message : VoicePipeline.ws_data :=
  binary_message (struct_pack_HQ 0 1500).


(** Stand-ins for the two models, for closed runs: a resampler that keeps
    every [ratio]-th sample (the polyphase resampler without its filter;
    frames of zeros never reach it), and a VAD that reports the given
    ranges whatever the buffer. *)
Fixpoint every_nth (skip ratio : nat) (samples : list Z) : list Q :=
  match samples with
  | [] => []
  | x :: rest =>
      match skip with
      | O => inject_Z x :: every_nth (Nat.pred ratio) ratio rest
      | S k => every_nth k ratio rest
      end
  end.

Definition resample_decimate (samples : list Z) (ratio : Z)
  : result (list Q) :=
  if ratio <? 1 then Raise ValueError
  else Ok (every_nth 0 (Z.to_nat ratio) samples).

Definition vad_reports (ranges : list VADProcessor.speech_timestamp)
  : list Z -> Z -> Z -> result (list VADProcessor.speech_timestamp) :=
  fun _ _ _ => Ok ranges.

Definition speech_range (s e : Z) : VADProcessor.speech_timestamp :=
  {| VADProcessor.ts_start := s; VADProcessor.ts_end := e |}.

(** The default processor holding [n] samples of value [v]. *)
Definition vad_holding (n v : Z) : VADProcessor.t :=
  VADProcessor.set_audio_buffer default_vad (repeat v (Z.to_nat n)).

(** A frame of [n] zero bytes. *)
Definition silent_frame (n : Z) : AudioChunk :=
  {| flag := 0; timestamp := inject_Z 1;
     audio := AudioBytes (repeat x00 (Z.to_nat n)); transcript := None |}.

Definition segment_samples (r : result (option AudioChunk)) : option (list Z) :=
  match r with
  | Ok (Some segment) =>
      match audio segment with
      | AudioSamples samples => Some samples
      | AudioBytes _ => None
      end
  | _ => None
  end.

(** The VAD ranges lie in the buffer, in order and without overlap:
    [lo <= start_1 <= end_1 <= start_2 <= ... <= end_k <= n]. *)
Fixpoint ranges_within (lo : Z) (ranges : list VADProcessor.speech_timestamp)
                       (n : Z) : Prop :=
  match ranges with
  | [] => lo <= n
  | r :: rest =>
      lo <= VADProcessor.ts_start r
      /\ VADProcessor.ts_start r <= VADProcessor.ts_end r
      /\ ranges_within (VADProcessor.ts_end r) rest n
  end.

(** [np.concatenate(speech_samples)] for the ranges of a buffer. *)
Definition speech_of (buffer : list Z)
                     (ranges : list VADProcessor.speech_timestamp) : list Z :=
  List.concat
    (map (fun s => py_slice buffer (VADProcessor.ts_start s)
                            (VADProcessor.ts_end s)) ranges).


(** A short utterance: the processor holds 12680 samples, a 20 ms frame
    of silence brings the buffer to 13000, and VAD reports speech in the
    first 5000 samples, so 8000 samples of silence follow it. *)
Definition short_utterance_call
  : VADProcessor.t * result (option AudioChunk) :=
  VADProcessor.process_audio_chunk resample_decimate
    (vad_reports [speech_range 0 5000])
    (vad_holding 12680 1000) (silent_frame 1920).

Definition short_utterance_segment : AudioChunk :=
  VADProcessor.set_audio (silent_frame 1920)
    (AudioSamples (repeat 1000 (Z.to_nat 5000))).

Definition short_utterance_rest : VADProcessor.t :=
  VADProcessor.set_audio_buffer default_vad
    (repeat 1000 (Z.to_nat 7680) ++ repeat 0 (Z.to_nat 320)).


(** A provider for closed runs: the plain request returns the text
    ["hello world"], the streaming request returns it in two delta
    events. *)
Definition two_delta_client : STT.AsyncClient := {|
  STT.transcriptions_create := fun _ _ _ => Ok "hello world";
  STT.transcriptions_create_stream :=
    fun _ _ _ => Ok (yields [Some "hello"; Some " world"])
|}.

(** A provider whose plain request succeeds and whose streaming request
    times out. *)
Definition stream_timeout_client : STT.AsyncClient := {|
  STT.transcriptions_create := fun _ _ _ => Ok "hello world";
  STT.transcriptions_create_stream :=
    fun _ _ _ => Raise (ProviderError "timeout")
|}.


(** ** Reading a stage's effects *)

Definition is_end_event (e : VoicePipeline.effect) : bool :=
  match e with
  | VoicePipeline.Event m =>
      match VoicePipeline.m_type m with
      | VoicePipeline.AI_RESPONSE_TEXT_END
      | VoicePipeline.AI_RESPONSE_SPEECH_END => true
      | _ => false
      end
  | _ => false
  end.

(** No end event among the effects. *)
Definition no_end (effects : list VoicePipeline.effect) : bool :=
  forallb (fun e => negb (is_end_event e)) effects.

(** The contents of the [ai.response.text.delta] events, in order. *)
Definition text_deltas (effects : list VoicePipeline.effect) : list string :=
  flat_map (fun e =>
    match e with
    | VoicePipeline.Event m =>
        match VoicePipeline.m_type m, VoicePipeline.m_content m with
        | VoicePipeline.AI_RESPONSE_TEXT_DELTA, Some text => [text]
        | _, _ => []
        end
    | _ => []
    end) effects.

(** The texts [tts_stream] was called with, in order. *)
Definition tts_calls (effects : list VoicePipeline.effect) : list string :=
  flat_map (fun e =>
    match e with VoicePipeline.CallTTS text => [text] | _ => [] end) effects.

(** The types of the events, in order. *)
Definition event_types (effects : list VoicePipeline.effect)
  : list VoicePipeline.ResponseEventType :=
  flat_map (fun e =>
    match e with
    | VoicePipeline.Event m => [VoicePipeline.m_type m]
    | _ => []
    end) effects.

(** An agent whose stream fails after one chunk on the prompt
    ["Hello."] and answers every other prompt with ["Ok."]; a TTS that
    returns one chunk of two samples. *)
Definition failing_agent (transcript : option string) : gen string :=
  match transcript with
  | Some prompt =>
      if String.eqb prompt "Hello."
      then Yield "Hi" (Throw (ProviderError "agent"))
      else yields ["Ok."]
  | None => Throw AttributeError
  end.

Definition tone_tts (text : string) : gen (list Z) := yields [[1; 2]].

Definition transcribed (text : string) : AudioChunk :=
  {| flag := 0; timestamp := inject_Z 1; audio := AudioBytes [];
     transcript := Some text |}.

(** The default pipeline with two transcribed Segments waiting in q3. *)
Definition pipeline_two_turns : VoicePipeline.t :=
  VoicePipeline.set_transcription_queue default_pipeline
    (pipeline_queue [transcribed "Hello."; transcribed "Next."]).


(** The prompts [generate_stream] was called with, in order. *)
Definition agent_calls (effects : list VoicePipeline.effect)
  : list (option string) :=
  flat_map (fun e =>
    match e with VoicePipeline.CallAgent prompt => [prompt] | _ => [] end)
    effects.


(** The speech delta event for one TTS chunk. *)
Definition speech_delta_event (chunk : list Z) : VoicePipeline.effect :=
  VoicePipeline.Event
    (VoicePipeline._create_event_message VoicePipeline.AI_RESPONSE_SPEECH_DELTA
       (Some (b64encode (VADProcessor.int16_tobytes chunk))) None).

(** An event with no content and the server's timestamp, and a text
    delta. *)
Definition bare_event (type : VoicePipeline.ResponseEventType)
  : VoicePipeline.effect :=
  VoicePipeline.Event (VoicePipeline._create_event_message type None None).

Definition text_delta_event (text : string) : VoicePipeline.effect :=
  VoicePipeline.Event
    (VoicePipeline._create_event_message VoicePipeline.AI_RESPONSE_TEXT_DELTA
       (Some text) None).

(** The agent of the specification's scenario. *)
Definition greeting_agent (transcript : option string) : gen string :=
  yields ["Hi"; " there"; "! How"; " are"; " you?"].


(** ** Reading a stream of received messages *)

(** [data] carries bytes that pass the length check of Ingest. *)
Definition carries_frame (header_len : Z) (data : VoicePipeline.ws_data) : bool :=
  match VoicePipeline.ws_bytes data with
  | Some raw_bytes => negb (len raw_bytes <? header_len)
  | None => false
  end.

Definition count_frames (header_len : Z)
    (received : list VoicePipeline.receive_result) : nat :=
  List.length
    (filter (fun r =>
       match r with
       | VoicePipeline.Received data => carries_frame header_len data
       | _ => false
       end) received).

(** A frame as Ingest builds it: raw bytes, no transcript yet. *)
Definition is_raw_frame (c : AudioChunk) : Prop :=
  transcript c = None /\ exists pcm, audio c = AudioBytes pcm.

(** What Ingest passes over: a timeout, a message with neither bytes nor
    text, and a text message without bytes whose JSON object has a
    ["type"] other than ["tts_start"] and ["tts_end"]. *)
Definition passed_over (json_loads : string -> result json)
    (r : VoicePipeline.receive_result) : bool :=
  match r with
  | VoicePipeline.ReceiveTimeout => true
  | VoicePipeline.ReceiveRaised _ => false
  | VoicePipeline.Received data =>
      match VoicePipeline.ws_bytes data, VoicePipeline.ws_text data with
      | None, None => true
      | None, Some text =>
          match json_loads text with
          | Ok value =>
              match json_getitem value "type" with
              | Ok type =>
                  negb (json_eq_str type "tts_start")
                  && negb (json_eq_str type "tts_end")
              | Raise _ => false
              end
          | Raise _ => false
          end
      | Some _, _ => false
      end
  end.


(** The text of a JSON object with one string member, as [json.dumps]
    writes it. *)
Definition single_member_text (key value : string) : string :=
  append "{" (append dquote (append key (append dquote (append ": "
    (append dquote (append value (append dquote "}"))))))).

(** The exception [data["type"]] raises for a decoded value it cannot
    index: [KeyError] for an object, [TypeError] for anything else. *)
Definition getitem_error (value : json) : exn :=
  match value with
  | JObj _ => KeyError
  | _ => TypeError
  end.

Definition lacks_type (value : json) : bool :=
  match value with
  | JObj members =>
      match assoc_lookup "type" members with
      | Some _ => false
      | None => true
      end
  | _ => true
  end.


(** A value an [np.int16] can hold. *)
Definition is_int16 (x : Z) : Prop := -32768 <= x <= 32767.


(** ["".join(chunks)], what [transcript += chunk] accumulates. *)
Fixpoint join (chunks : list string) : string :=
  match chunks with
  | [] => EmptyString
  | c :: rest => append c (join rest)
  end.

Definition transcript_delta_event (chunk : string) : VoicePipeline.effect :=
  VoicePipeline.Event
    (VoicePipeline._create_event_message VoicePipeline.TRANSCRIPTION_TEXT_DELTA
       (Some chunk) None).



Definition detected_segment : AudioChunk :=
  {| flag := 0; timestamp := inject_Z 7; audio := AudioSamples [1; 2; 3];
     transcript := None |}.



(** The default pipeline with two frames waiting in q1: one with an odd
    number of bytes, then a silent frame. *)
Definition pipeline_two_frames : VoicePipeline.t :=
  VoicePipeline.set_incoming_queue default_pipeline
    (pipeline_queue [silent_frame 3; silent_frame 1920]).

Definition is_speech_start (e : VoicePipeline.effect) : bool :=
  match e with
  | VoicePipeline.Event m =>
      match VoicePipeline.m_type m with
      | VoicePipeline.AI_RESPONSE_SPEECH_START => true
      | _ => false
      end
  | _ => false
  end.

(** An agent that answers with two chunks and no sentence ending. *)
Definition terse_agent (transcript : option string) : gen string :=
  yields ["Sure"; " thing"].

(** ** [core/pipeline.py]: the sender task and the cleanup *)

Section Sender.

(** [websocket.send_json(response)]: whether a send succeeds may depend on
    what the socket has carried so far. *)
Variable send_json :
  list VoicePipeline.message -> VoicePipeline.message -> result unit.

(** The [while] loop of [send_json_response]; [sent] is what the socket
    has carried, [iterations] counts the passes as in the other tasks. *)
Fixpoint send_json_loop (self : VoicePipeline.t)
  (sent : list VoicePipeline.message) (iterations : nat)
  : VoicePipeline.t * list VoicePipeline.message * task_end :=
  match iterations with
  | O => (self, sent, LoopExit)
  | S n =>
      match Queue.get_nowait (VoicePipeline.response_queue self) with
      | Raise _ => send_json_loop self sent n
      | Ok (response, q) =>
          let self := VoicePipeline.set_response_queue self q in
          match send_json sent response with
          | Raise e =>
              (VoicePipeline.logged self
                 [LogException "Exception at send_json_response" e],
               sent, Caught e)
          | Ok _ => send_json_loop self (sent ++ [response]) n
          end
      end
  end.

Definition send_json_response (self : VoicePipeline.t)
  (sent : list VoicePipeline.message) (iterations : nat)
  : VoicePipeline.t * list VoicePipeline.message * task_end :=
  send_json_loop
    (VoicePipeline.logged self [LogDebug "send_json_response task started"])
    sent iterations.

End Sender.

(** [while not queue.empty(): queue.get_nowait()], with [passes] bounding
    the number of times the condition is tested. *)
Fixpoint drain_queue {A} (passes : nat) (queue : Queue.t A) : Queue.t A :=
  match passes with
  | O => queue
  | S n =>
      if Queue.empty queue then queue
      else match Queue.get_nowait queue with
           | Ok (_, q) => drain_queue n q
           | Raise _ => queue
           end
  end.

(** [_clear_queues]: the loop over [incoming_queue],
    [processed_audio_queue] and [transcription_queue]; a queue of [n]
    items is empty at the [n+1]-th test of the condition. *)
Definition _clear_queues (self : VoicePipeline.t) : VoicePipeline.t :=
  let clear {A} (queue : Queue.t A) :=
    drain_queue (S (List.length (Queue.items queue))) queue in
  let self :=
    VoicePipeline.set_incoming_queue self
      (clear (VoicePipeline.incoming_queue self)) in
  let self :=
    VoicePipeline.set_processed_audio_queue self
      (clear (VoicePipeline.processed_audio_queue self)) in
  VoicePipeline.set_transcription_queue self
    (clear (VoicePipeline.transcription_queue self)).

(** ** [core/agents/airline_agent.py] *)

Module AirlineAgent.

Definition apology : string :=
  "I apologize, but I'm experiencing technical difficulties. Please try again or contact Emirates customer service at +971-4-214-4444.".

(** The body of [generate_stream] over what [self.agent.astream] delivers:
    for each item, the [content] of [message_chunk[0]] ([None] when it has
    no such attribute or the attribute is [None]). An exception of the
    underlying stream is answered with the apology, after which the
    generator returns. *)
Fixpoint relay (message_chunks : gen (option string)) : gen string :=
  match message_chunks with
  | Return => Return
  | Throw _ => Yield apology Return
  | Yield (Some content) rest =>
      if str_nonempty content then Yield content (relay rest) else relay rest
  | Yield None rest => relay rest
  end.

Definition generate_stream (astream : option string -> gen (option string))
  (message : option string) : gen string :=
  relay (astream message).

End AirlineAgent.

(** ** [core/tts.py] *)

Module OpenAITTS.

Section Client.

(** [response.iter_bytes()] of the streaming speech request for a text;
    a request that fails on entry is a stream that raises at once. *)
Variable iter_bytes : string -> gen (list byte).

(** The inner [while len(buffer) >= 2] loop, followed by [k] on the bytes
    left over; [passes] bounds the number of times the condition is
    tested. One pass leaves fewer than two bytes, so two tests are
    enough. *)
Fixpoint emit_complete (passes : nat) (buffer : list byte)
  (k : list byte -> gen (list Z)) : gen (list Z) :=
  match passes with
  | O => k buffer
  | S n =>
      if 2 <=? len buffer then
        let complete_samples := len buffer / 2 in
        let bytes_to_process := complete_samples * 2 in
        let complete_data := py_slice_to buffer bytes_to_process in
        let buffer := py_slice_from buffer bytes_to_process in
        match complete_data with
        | [] => emit_complete n buffer k
        | _ :: _ =>
            match VADProcessor.frombuffer_int16 complete_data with
            | Ok samples => Yield samples (emit_complete n buffer k)
            | Raise e => Throw e
            end
        end
      else k buffer
  end.

(** The [async for] over the byte chunks, then the handling of what is
    left in the buffer. *)
Fixpoint receive_chunks (chunks : gen (list byte)) (buffer : list byte)
  : gen (list Z) :=
  match chunks with
  | Yield chunk rest => emit_complete 2 (buffer ++ chunk) (receive_chunks rest)
  | Throw e => Throw e
  | Return =>
      match buffer with
      | [] => Return
      | _ :: _ =>
          let buffer :=
            if len buffer mod 2 =? 1 then buffer ++ [x00] else buffer in
          match VADProcessor.frombuffer_int16 buffer with
          | Ok samples => Yield samples Return
          | Raise e => Throw e
          end
      end
  end.

Definition tts_stream (text : string) : gen (list Z) :=
  receive_chunks (iter_bytes text) [].

End Client.

End OpenAITTS.

(** ** [core/llm_agent.py] *)

(** [s.strip()] *)
Fixpoint lstrip (s : string) : string :=
  match s with
  | EmptyString => EmptyString
  | String c rest => if is_space c then lstrip rest else s
  end.

Fixpoint rstrip (s : string) : string :=
  match s with
  | EmptyString => EmptyString
  | String c rest =>
      match rstrip rest with
      | EmptyString => if is_space c then EmptyString else String c EmptyString
      | String _ _ as kept => String c kept
      end
  end.

Definition strip (s : string) : string := lstrip (rstrip s).

Module LLM.

Inductive AnyMessage : Type :=
| SystemMessage (content : string)
| HumanMessage (content : string)
| AIMessage (content : string).

(** The part of the object the chat methods read and write. *)
Record t : Type := {
  messages : list AnyMessage
}.

(** [__init__], once [init_chat_model] has returned the client. *)
Definition init (system_prompt : string) : t :=
  {| messages := [SystemMessage (strip system_prompt)] |}.

(** [_create_messages]: the new state and the list handed to the model
    (the same list object). A [None] message has no [strip]. *)
Definition _create_messages (self : t) (human_message : option string)
  : result (t * list AnyMessage) :=
  match human_message with
  | None => Raise AttributeError
  | Some human_message =>
      let messages := messages self ++ [HumanMessage (strip human_message)] in
      let messages := py_slice_from messages (-40) in
      Ok ({| messages := messages |}, messages)
  end.

Section Model.

(** [self.llm.astream(messages)]: the [content] of each chunk. *)
Variable astream : list AnyMessage -> gen string.

(** [generate_stream], driven to its end by the consumer: what it yields,
    and the object afterwards. The reply is recorded only when the
    model's stream ends normally. *)
Definition generate_stream (self : t) (message : option string)
  : gen string * t :=
  match _create_messages self message with
  | Raise e => (Throw e, self)
  | Ok (self, messages) =>
      let response_chunks := astream messages in
      (response_chunks,
       match raised response_chunks with
       | None =>
           {| messages :=
                LLM.messages self
                ++ [AIMessage (strip (join (yielded response_chunks)))] |}
       | Some _ => self
       end)
  end.

(** A conversation: one [generate_stream] per user message, each driven
    to its end. *)
Definition converse (self : t) (user_messages : list string) : t :=
  fold_left (fun self message => snd (generate_stream self (Some message)))
            user_messages self.

End Model.

End LLM.


(** A socket whose sends succeed, and the default pipeline with two
    events waiting for the sender. *)
Definition open_socket (history : list VoicePipeline.message)
  (response : VoicePipeline.message) : result unit := Ok tt.

Definition pipeline_two_events : VoicePipeline.t :=
  VoicePipeline.set_response_queue default_pipeline
    (pipeline_queue
       [VoicePipeline._create_event_message
          VoicePipeline.AI_RESPONSE_TEXT_DELTA (Some "Hi there!") None;
        VoicePipeline._create_event_message
          VoicePipeline.AI_RESPONSE_TEXT_END None None]).


(** The contents [AirlineAgent.generate_stream] passes on: those that are
    present and not empty. *)
Definition kept_contents (message_chunks : list (option string)) : list string :=
  flat_map (fun content =>
    match content with
    | Some c => if str_nonempty c then [c] else []
    | None => []
    end) message_chunks.

(** An agent graph that streams one sentence, a chunk without content and
    an empty chunk, and then fails. *)
Definition breaking_graph (message : option string) : gen (option string) :=
  Yield (Some "One moment.")
    (Yield None (Yield (Some "") (Throw (ProviderError "connection reset")))).


(** What the bytes received so far amount to as int16 audio: with a zero
    byte added when their number is odd, and cut to whole samples. *)
Definition padded (received : list byte) : list byte :=
  if Z.odd (len received) then received ++ [x00] else received.

Definition whole_samples (received : list byte) : list byte :=
  py_slice_to received (2 * (len received / 2)).

(** A speech response that arrives in chunks cutting through samples, and
    one that breaks off. *)
Definition pcm_in_chunks (text : string) : gen (list byte) :=
  yields [[x01]; [x02; x03]; []; [x04; x05]].

Definition pcm_breaking_off (text : string) : gen (list byte) :=
  Yield [x01] (Yield [x02; x03] (Throw (ProviderError "stream closed"))).


Definition is_system_message (m : LLM.AnyMessage) : bool :=
  match m with LLM.SystemMessage _ => true | _ => false end.

(** A model that answers every request with the same two chunks. *)
Definition curt_model (messages : list LLM.AnyMessage) : gen string :=
  yields ["Sure"; "."].


(** What holds of the chat history after [k] exchanges that ran to their
    end: its length, that only its first message can be a system
    message, and that the system prompt is still first up to the
    twentieth exchange. *)
Definition history_after (system_prompt : string) (k : nat)
  (history : list LLM.AnyMessage) : Prop :=
  List.length history = Nat.min (2 * k + 1) 41
  /\ existsb is_system_message (tl history) = false
  /\ ((k <= 20)%nat ->
      hd_error history = Some (LLM.SystemMessage (strip system_prompt))).


(** ** Failures inside an AgentDriver turn *)

(** A TTS whose stream breaks off after one chunk. *)
Definition failing_tts (text : string) : gen (list Z) :=
  Yield [1; 2] (Throw (ProviderError "tts")).

(** Every TTS stream requested in [effects] ran to its end. *)
Definition tts_streams_ended (tts_stream : string -> gen (list Z))
  (effects : list VoicePipeline.effect) : Prop :=
  forall text, In text (tts_calls effects) -> raised (tts_stream text) = None.

(** [m] ends with the exception of any TTS stream it requested that
    raises. *)
Definition tts_failure_ends {A} (tts_stream : string -> gen (list Z))
  (m : VoicePipeline.W A) : Prop :=
  forall text e,
    In text (tts_calls (fst m)) -> raised (tts_stream text) = Some e ->
    snd m = Raise e.

(** [m] completes when the TTS streams it requested ran to their end. *)
Definition fails_only_by_tts {A} (tts_stream : string -> gen (list Z))
  (m : VoicePipeline.W A) : Prop :=
  tts_streams_ended tts_stream (fst m) -> exists a, snd m = Ok a.

(** [m] ends with the exception of the agent stream [chunks] when the TTS
    streams it requested ran to their end. *)
Definition agent_failure_ends {A} (tts_stream : string -> gen (list Z))
  (chunks : gen string) (m : VoicePipeline.W A) : Prop :=
  tts_streams_ended tts_stream (fst m) ->
  forall e, raised chunks = Some e -> snd m = Raise e.


(** * Properties *)

Unset Implicit Arguments.

(** ** Queues *)

Lemma full_pipeline_queue {A} (contents : list A) :
  Queue.full (pipeline_queue contents) = (60 <=? len contents).
Proof. reflexivity. Qed.

Lemma queue_step_maxsize {A} (q : Queue.t A) op :
  Queue.maxsize (fst (queue_step q op)) = Queue.maxsize q.
Proof.
  destruct op as [x|]; cbn.
  - unfold VoicePipeline._add_queue_no_wait, Queue.put_nowait.
    destruct (Queue.full q); reflexivity.
  - unfold Queue.get_nowait. destruct (Queue.items q); reflexivity.
Qed.

(** What was taken, followed by what is still queued, is what was there
    followed by what was accepted: nothing is reordered, duplicated or
    lost once accepted. *)
Lemma queue_run_fifo {A} (ops : list (queue_op A)) :
  forall q : Queue.t A,
    consumed (snd (queue_run q ops)) ++ Queue.items (fst (queue_run q ops))
    = Queue.items q ++ accepted (snd (queue_run q ops)).
Proof.
  induction ops as [|op rest IH]; intros q; cbn [queue_run].
  - cbn. now rewrite app_nil_r.
  - destruct (queue_step q op) as [q1 o] eqn:Hstep.
    specialize (IH q1). destruct (queue_run q1 rest) as [q2 os].
    cbn [fst snd] in *.
    destruct op as [x|]; cbn in Hstep.
    + unfold VoicePipeline._add_queue_no_wait, Queue.put_nowait in Hstep.
      destruct (Queue.full q); inversion Hstep; subst.
      * exact IH.
      * change (consumed os ++ Queue.items q2
                = Queue.items q ++ [x] ++ accepted os).
        rewrite app_assoc. exact IH.
    + unfold Queue.get_nowait in Hstep.
      destruct (Queue.items q) as [|y ys] eqn:Hitems;
        inversion Hstep; subst.
      * rewrite <- Hitems. exact IH.
      * change ((y :: consumed os) ++ Queue.items q2
                = (y :: ys) ++ accepted os).
        cbn [app]. f_equal. exact IH.
Qed.

Lemma queue_run_accepts_offered {A} (ops : list (queue_op A)) :
  forall q : Queue.t A,
    subsequence (accepted (snd (queue_run q ops))) (offered ops).
Proof.
  induction ops as [|op rest IH]; intros q; cbn [queue_run].
  - constructor.
  - destruct (queue_step q op) as [q1 o] eqn:Hstep.
    specialize (IH q1). destruct (queue_run q1 rest) as [q2 os].
    cbn [fst snd] in *.
    destruct op as [x|]; cbn in Hstep.
    + unfold VoicePipeline._add_queue_no_wait, Queue.put_nowait in Hstep.
      destruct (Queue.full q); inversion Hstep; subst; cbn.
      * now apply sub_skip.
      * now apply sub_keep.
    + unfold Queue.get_nowait in Hstep.
      destruct (Queue.items q); inversion Hstep; subst; cbn; exact IH.
Qed.

(** C9. Every queue of the pipeline has capacity 60. An attempt to add an
    item to a full queue leaves the queue as it was and logs the warning;
    the attempt returns normally (the result is a queue, never an
    exception). Otherwise the item goes to the tail. Over any interleaving
    of offers and takes, the items taken followed by the items still
    queued are the initial contents followed by the accepted items, in
    the order they were offered. *)
Theorem add_queue_no_wait_drop_newest :
  forall (A : Type) (contents : list A) (item : A),
    VoicePipeline._add_queue_no_wait (pipeline_queue contents) item
    = (if 60 <=? len contents
       then (pipeline_queue contents, [VoicePipeline.queue_full_warning])
       else (pipeline_queue (contents ++ [item]), []))
    /\ (forall ops : list (queue_op A),
          let run := queue_run (pipeline_queue contents) ops in
          consumed (snd run) ++ Queue.items (fst run)
          = contents ++ accepted (snd run)
          /\ subsequence (accepted (snd run)) (offered ops)).
Proof.
  intros A contents item. split.
  - unfold VoicePipeline._add_queue_no_wait, Queue.put_nowait.
    rewrite full_pipeline_queue.
    destruct (60 <=? len contents); reflexivity.
  - intros ops run. subst run. split.
    + apply (queue_run_fifo ops (pipeline_queue contents)).
    + apply queue_run_accepts_offered.
Qed.

(** ** Ingest *)

Example init_default_pipeline :
  VoicePipeline.init default_config = Ok default_pipeline.
Proof. reflexivity. Qed.

Example json_loads_ctl_tts_start :
  json_loads_ctl (control_message "tts_start")
  = Ok (JObj [("type", JStr "tts_start")]).
Proof. reflexivity. Qed.

Example json_loads_ctl_not_json :
  json_loads_ctl "hello" = Raise JSONDecodeError.
Proof. reflexivity. Qed.

(** *** Slices with bounds inside the sequence *)

Lemma py_slice_to_firstn {A} (l : list A) (k : Z) :
  0 <= k -> py_slice_to l k = firstn (Z.to_nat k) l.
Proof.
  intros Hk. unfold py_slice_to, py_slice, py_index_clamp, len.
  replace (0 <? 0) with false by reflexivity.
  destruct (k <? 0) eqn:E; [apply Z.ltb_lt in E; lia|].
  rewrite (Z.min_l 0) by lia. cbn [Z.to_nat skipn]. rewrite Z.sub_0_r.
  destruct (Z.le_ge_cases k (Z.of_nat (List.length l))) as [H|H].
  - now rewrite Z.min_l.
  - rewrite Z.min_r by lia. rewrite Nat2Z.id.
    rewrite !firstn_all2 by lia. reflexivity.
Qed.

Lemma py_slice_from_skipn {A} (l : list A) (k : Z) :
  0 <= k -> py_slice_from l k = skipn (Z.to_nat k) l.
Proof.
  intros Hk. unfold py_slice_from, py_slice, py_index_clamp, len.
  destruct (k <? 0) eqn:E; [apply Z.ltb_lt in E; lia|].
  destruct (Z.of_nat (List.length l) <? 0) eqn:E2; [apply Z.ltb_lt in E2; lia|].
  rewrite Z.min_id.
  destruct (Z.le_ge_cases k (Z.of_nat (List.length l))) as [H|H].
  - rewrite Z.min_l by lia. apply firstn_all2. rewrite length_skipn. lia.
  - rewrite Z.min_r by lia. rewrite Nat2Z.id.
    rewrite !skipn_all2 by lia. now rewrite firstn_nil.
Qed.

(** *** The header *)

Lemma byte_val_of_Z (x : Z) :
  VADProcessor.byte_val (VADProcessor.byte_of_Z x) = x mod 256.
Proof.
  unfold VADProcessor.byte_val, VADProcessor.byte_of_Z.
  assert (Hr : 0 <= x mod 256 < 256) by (apply Z.mod_pos_bound; lia).
  destruct (Byte.of_N (Z.to_N (x mod 256))) as [b|] eqn:E.
  - apply Byte.to_of_N in E. rewrite E. apply Z2N.id. lia.
  - apply Byte.of_N_None_iff in E. lia.
Qed.

Lemma fold_be_bytes (w : nat) (v : Z) :
  forall acc,
    fold_left (fun a b => a * 256 + VADProcessor.byte_val b) (be_bytes w v) acc
    = acc * 256 ^ Z.of_nat w + v mod 256 ^ Z.of_nat w.
Proof.
  induction w as [|w IH]; intros acc.
  - cbn [be_bytes fold_left]. change (256 ^ Z.of_nat 0) with 1.
    rewrite Z.mod_1_r. lia.
  - cbn [be_bytes fold_left]. rewrite IH, byte_val_of_Z.
    rewrite Nat2Z.inj_succ, Z.pow_succ_r by lia.
    assert (Hp : 0 < 256 ^ Z.of_nat w) by (apply Z.pow_pos_nonneg; lia).
    rewrite (Z.mul_comm 256 (256 ^ Z.of_nat w)).
    rewrite (Z.rem_mul_r v (256 ^ Z.of_nat w) 256) by lia.
    ring.
Qed.

Lemma be_uint_be_bytes (w : nat) (v : Z) :
  0 <= v < 256 ^ Z.of_nat w -> be_uint (be_bytes w v) = v.
Proof.
  intros Hv. unfold be_uint. rewrite fold_be_bytes.
  rewrite Z.mod_small by exact Hv. lia.
Qed.

Lemma length_be_bytes (w : nat) (v : Z) : List.length (be_bytes w v) = w.
Proof. induction w; cbn [be_bytes List.length]; congruence. Qed.

(** [struct.unpack] reads back what [struct.pack] wrote. *)
Lemma struct_unpack_pack_HQ (flag timestamp_ms : Z) :
  0 <= flag < 2 ^ 16 -> 0 <= timestamp_ms < 2 ^ 64 ->
  struct_unpack_HQ (struct_pack_HQ flag timestamp_ms) = Ok (flag, timestamp_ms).
Proof.
  intros Hf Ht. unfold struct_unpack_HQ, struct_pack_HQ, len.
  rewrite length_app, !length_be_bytes. cbn [Nat.add Z.of_nat Z.eqb Pos.eqb Pos.of_succ_nat Pos.succ].
  rewrite firstn_app, skipn_app, !length_be_bytes.
  rewrite firstn_all2 by (rewrite length_be_bytes; lia).
  rewrite skipn_all2 by (rewrite length_be_bytes; lia).
  cbn [Nat.sub firstn skipn app]. rewrite app_nil_r.
  rewrite (be_uint_be_bytes 2) by (change (256 ^ Z.of_nat 2) with (2 ^ 16); lia).
  rewrite (be_uint_be_bytes 8) by (change (256 ^ Z.of_nat 8) with (2 ^ 64); lia).
  reflexivity.
Qed.

(** *** Binary messages *)

(** C4 (amended). With the TTS flag clear and [header_bytes = 10], a binary
    message made of the big-endian header of [(flag, timestamp_ms)] and a
    payload is handed to [_add_queue_no_wait] as the frame with that flag,
    that payload and the timestamp [timestamp_ms // 1000] in whole
    seconds, provided this second is one [datetime] can hold; the frame
    is appended to q1 when q1 is not full. *)
Theorem ingest_binary_frame_whole_seconds :
  forall (json_loads : string -> result json) (datetime_max : Z)
         (self : VoicePipeline.t) (flag timestamp_ms : Z) (pcm : list byte),
    VoicePipeline.is_tts_playing self = false ->
    header_bytes (VoicePipeline.config self) = 10 ->
    0 <= flag < 2 ^ 16 ->
    0 <= timestamp_ms < 2 ^ 64 ->
    timestamp_ms / 1000 <= datetime_max ->
    exists self',
      VoicePipeline.on_receive json_loads datetime_max self
        (binary_message (struct_pack_HQ flag timestamp_ms ++ pcm))
      = (self', Ok tt)
      /\ VoicePipeline.incoming_queue self'
         = fst (VoicePipeline._add_queue_no_wait
                  (VoicePipeline.incoming_queue self)
                  (frame_of flag timestamp_ms pcm))
      /\ (Queue.full (VoicePipeline.incoming_queue self) = false ->
          Queue.items (VoicePipeline.incoming_queue self')
          = Queue.items (VoicePipeline.incoming_queue self)
            ++ [frame_of flag timestamp_ms pcm])
      /\ VoicePipeline.is_tts_playing self' = false.
Proof.
  intros json_loads dmax self flag ts pcm Hflag Hhdr Hf Ht Hmax.
  unfold VoicePipeline.on_receive, binary_message.
  cbn [VoicePipeline.ws_bytes VoicePipeline.ws_text]. rewrite Hflag, Hhdr.
  assert (Hlen : len (struct_pack_HQ flag ts ++ pcm) = 10 + len pcm).
  { unfold len, struct_pack_HQ. rewrite !length_app, !length_be_bytes. lia. }
  assert (Hlp : 0 <= len pcm) by (unfold len; lia).
  destruct (len (struct_pack_HQ flag ts ++ pcm) <? 10) eqn:E;
    [apply Z.ltb_lt in E; lia|].
  assert (Hpack : List.length (struct_pack_HQ flag ts) = 10%nat).
  { unfold struct_pack_HQ. now rewrite length_app, !length_be_bytes. }
  rewrite py_slice_to_firstn by lia.
  rewrite py_slice_from_skipn by lia.
  change (Z.to_nat 10) with 10%nat.
  rewrite firstn_app, skipn_app, Hpack.
  rewrite firstn_all2 by lia. rewrite skipn_all2 by lia.
  cbn [Nat.sub firstn skipn app]. rewrite app_nil_r.
  rewrite struct_unpack_pack_HQ by assumption.
  unfold VoicePipeline.datetime_roundtrip.
  destruct (ts / 1000 <=? dmax) eqn:E2; [|apply Z.leb_gt in E2; lia].
  fold (frame_of flag ts pcm).
  unfold VoicePipeline._add_queue_no_wait, Queue.put_nowait.
  destruct (Queue.full (VoicePipeline.incoming_queue self)) eqn:Hfull;
    eexists; (split; [reflexivity|]); cbn; repeat split; auto; discriminate.
Qed.

Lemma ingest_binary_frame_whole_seconds_witness :
  exists self',
    VoicePipeline.on_receive json_loads_ctl datetime_max_utc default_pipeline
      (binary_message (struct_pack_HQ 7 1700000000123 ++ [x01; x02]))
    = (self', Ok tt)
    /\ VoicePipeline.incoming_queue self'
       = fst (VoicePipeline._add_queue_no_wait
                (VoicePipeline.incoming_queue default_pipeline)
                (frame_of 7 1700000000123 [x01; x02]))
    /\ (Queue.full (VoicePipeline.incoming_queue default_pipeline) = false ->
        Queue.items (VoicePipeline.incoming_queue self')
        = Queue.items (VoicePipeline.incoming_queue default_pipeline)
          ++ [frame_of 7 1700000000123 [x01; x02]])
    /\ VoicePipeline.is_tts_playing self' = false.
Proof.
  apply (ingest_binary_frame_whole_seconds json_loads_ctl datetime_max_utc
           default_pipeline 7 1700000000123 [x01; x02]).
  - reflexivity.
  - reflexivity.
  - lia.
  - lia.
  - vm_compute. discriminate.
Defined.

(** C4, as stated, fails: the header timestamp 1500 ms gives a frame whose
    timestamp is 1 second, not 1.5. *)
Lemma ingest_timestamp_loses_milliseconds :
  exists self' frame,
    VoicePipeline.on_receive json_loads_ctl datetime_max_utc default_pipeline
      header_only_message = (self', Ok tt)
    /\ Queue.items (VoicePipeline.incoming_queue self') = [frame]
    /\ timestamp frame = inject_Z 1
    /\ ~ (timestamp frame == 1500 # 1000)%Q.
Proof.
  eexists. eexists. split; [vm_compute; reflexivity|].
  split; [reflexivity|]. split; [reflexivity|].
  cbn. unfold Qeq. cbn. discriminate.
Qed.

(** A header whose second count [datetime] cannot hold ends the task. *)
Lemma ingest_timestamp_out_of_range :
  snd (VoicePipeline.process_incoming_data json_loads_ctl datetime_max_utc
         default_pipeline
         [VoicePipeline.Received
            (binary_message (struct_pack_HQ 0 (2 ^ 64 - 1)))])
  = Caught ValueError.
Proof. vm_compute. reflexivity. Qed.

(** *** Text messages *)

(** C5 (amended). A text message that [json.loads] rejects ends Ingest:
    the exception reaches the handler around the loop, is logged, and the
    task returns. The message changes neither q1 nor the TTS flag, and
    nothing that follows it on the channel is read. *)
Theorem ingest_malformed_json_ends_task :
  forall (json_loads : string -> result json) (datetime_max : Z)
         (self : VoicePipeline.t) (text : string) (e : exn)
         (rest : list VoicePipeline.receive_result),
    json_loads text = Raise e ->
    VoicePipeline.incoming_loop json_loads datetime_max self
      (VoicePipeline.Received (text_message text) :: rest)
    = (VoicePipeline.logged self
         [LogException "Exception at process_incoming_data" e],
       Caught e).
Proof.
  intros json_loads dmax self text e rest Hbad.
  cbn [VoicePipeline.incoming_loop].
  unfold VoicePipeline.on_receive, text_message.
  cbn [VoicePipeline.ws_bytes VoicePipeline.ws_text].
  rewrite Hbad. reflexivity.
Qed.

Lemma ingest_malformed_json_ends_task_witness :
  VoicePipeline.incoming_loop json_loads_ctl datetime_max_utc default_pipeline
    [VoicePipeline.Received (text_message "hello");
     VoicePipeline.Received header_only_message]
  = (VoicePipeline.logged default_pipeline
       [LogException "Exception at process_incoming_data" JSONDecodeError],
     Caught JSONDecodeError).
Proof.
  apply (ingest_malformed_json_ends_task json_loads_ctl datetime_max_utc
           default_pipeline "hello" JSONDecodeError
           [VoicePipeline.Received header_only_message]).
  reflexivity.
Defined.

(** C5, as stated, fails: after the text ["hello"] the task has returned
    and the frame that follows is never read, while the same frame alone
    is enqueued. *)
Lemma ingest_stops_reading_after_malformed_json :
  (let run := VoicePipeline.process_incoming_data json_loads_ctl
                datetime_max_utc default_pipeline
                [VoicePipeline.Received (text_message "hello");
                 VoicePipeline.Received header_only_message] in
   snd run = Caught JSONDecodeError
   /\ Queue.items (VoicePipeline.incoming_queue (fst run)) = [])
  /\ (let run := VoicePipeline.process_incoming_data json_loads_ctl
                   datetime_max_utc default_pipeline
                   [VoicePipeline.Received header_only_message] in
      snd run = LoopExit
      /\ Queue.items (VoicePipeline.incoming_queue (fst run))
         = [frame_of 0 1500 []]).
Proof. vm_compute. repeat split. Qed.

(** *** The TTS-playing window *)

Lemma on_receive_while_tts_playing
    (json_loads : string -> result json) (datetime_max : Z)
    (self : VoicePipeline.t) (data : VoicePipeline.ws_data) :
  VoicePipeline.is_tts_playing self = true ->
  let self' := fst (VoicePipeline.on_receive json_loads datetime_max self data) in
  VoicePipeline.incoming_queue self' = VoicePipeline.incoming_queue self
  /\ (is_tts_end json_loads data = false ->
      VoicePipeline.is_tts_playing self' = true).
Proof.
  intros Hflag. unfold VoicePipeline.on_receive, is_tts_end.
  rewrite Hflag.
  assert (Hbody :
    let self' := fst
      match VoicePipeline.ws_text data with
      | Some text =>
          match json_loads text with
          | Raise e => (self, Raise e)
          | Ok data0 =>
              match json_getitem data0 "type" with
              | Raise e => (self, Raise e)
              | Ok type =>
                  if json_eq_str type "tts_start"
                  then (VoicePipeline.set_is_tts_playing self true, Ok tt)
                  else if json_eq_str type "tts_end"
                       then (VoicePipeline.set_is_tts_playing self false, Ok tt)
                       else (self, Ok tt)
              end
          end
      | None => (self, Ok tt)
      end in
    VoicePipeline.incoming_queue self' = VoicePipeline.incoming_queue self
    /\ (match VoicePipeline.ws_text data with
        | Some text =>
            match json_loads text with
            | Ok value =>
                match json_getitem value "type" with
                | Ok type => json_eq_str type "tts_end"
                | Raise _ => false
                end
            | Raise _ => false
            end
        | None => false
        end = false -> VoicePipeline.is_tts_playing self' = true)).
  { destruct (VoicePipeline.ws_text data) as [text|]; [|now split].
    destruct (json_loads text) as [value|e]; [|now split].
    destruct (json_getitem value "type") as [type|e]; [|now split].
    destruct (json_eq_str type "tts_start"); [now split|].
    destruct (json_eq_str type "tts_end"); cbn; split; auto; discriminate. }
  destruct (VoicePipeline.ws_bytes data); exact Hbody.
Qed.

Lemma incoming_loop_while_tts_playing
    (json_loads : string -> result json) (datetime_max : Z)
    (received : list VoicePipeline.receive_result) :
  forall self : VoicePipeline.t,
    VoicePipeline.is_tts_playing self = true ->
    (forall data, In (VoicePipeline.Received data) received ->
                  is_tts_end json_loads data = false) ->
    let self' :=
      fst (VoicePipeline.incoming_loop json_loads datetime_max self received) in
    VoicePipeline.incoming_queue self' = VoicePipeline.incoming_queue self
    /\ VoicePipeline.is_tts_playing self' = true.
Proof.
  induction received as [|r rest IH]; intros self Hflag Hwin.
  - now split.
  - cbn [VoicePipeline.incoming_loop].
    destruct r as [|data|e].
    + apply IH; [exact Hflag|]. intros d Hd. apply Hwin. now right.
    + pose proof (on_receive_while_tts_playing json_loads datetime_max
                    self data Hflag) as [Hq Hf].
      specialize (Hf (Hwin data (or_introl eq_refl))).
      destruct (VoicePipeline.on_receive json_loads datetime_max self data)
        as [self1 [u|e]]; cbn [fst] in Hq, Hf.
      * destruct (IH self1 Hf) as [Hq' Hf'].
        { intros d Hd. apply Hwin. now right. }
        split; [now rewrite Hq'|exact Hf'].
      * cbn. now split.
    + cbn. now split.
Qed.

Lemma on_receive_tts_start
    (json_loads : string -> result json) (datetime_max : Z)
    (self : VoicePipeline.t) (start : VoicePipeline.ws_data) :
  is_tts_start json_loads start = true ->
  VoicePipeline.on_receive json_loads datetime_max self start
  = (VoicePipeline.set_is_tts_playing self true, Ok tt).
Proof.
  unfold is_tts_start, VoicePipeline.on_receive.
  destruct (VoicePipeline.ws_bytes start); [discriminate|].
  destruct (VoicePipeline.ws_text start) as [text|]; [|discriminate].
  destruct (json_loads text) as [value|e]; [|discriminate].
  destruct (json_getitem value "type") as [type|e]; [|discriminate].
  intros ->. reflexivity.
Qed.

(** C6. From a [tts_start] control message on, and as long as no message
    clears the flag, nothing is added to q1, whatever binary and text
    messages and timeouts arrive in between; and with the flag set a
    binary message leaves the whole pipeline state as it was (no frame, no
    log record). *)
Theorem tts_playing_drops_binary_messages :
  forall (json_loads : string -> result json) (datetime_max : Z)
         (self : VoicePipeline.t) (start : VoicePipeline.ws_data)
         (window : list VoicePipeline.receive_result),
    is_tts_start json_loads start = true ->
    (forall data, In (VoicePipeline.Received data) window ->
                  is_tts_end json_loads data = false) ->
    VoicePipeline.incoming_queue
      (fst (VoicePipeline.incoming_loop json_loads datetime_max self
              (VoicePipeline.Received start :: window)))
    = VoicePipeline.incoming_queue self
    /\ (forall (playing : VoicePipeline.t) (raw : list byte),
          VoicePipeline.is_tts_playing playing = true ->
          VoicePipeline.on_receive json_loads datetime_max playing
            (binary_message raw)
          = (playing, Ok tt)).
Proof.
  intros json_loads dmax self start window Hstart Hwin. split.
  - cbn [VoicePipeline.incoming_loop].
    rewrite (on_receive_tts_start json_loads dmax self start Hstart).
    destruct (incoming_loop_while_tts_playing json_loads dmax window
                (VoicePipeline.set_is_tts_playing self true) eq_refl Hwin)
      as [Hq _].
    exact Hq.
  - intros playing raw Hflag. unfold VoicePipeline.on_receive, binary_message.
    cbn [VoicePipeline.ws_bytes VoicePipeline.ws_text].
    now rewrite Hflag.
Qed.

Lemma tts_playing_drops_binary_messages_witness :
  VoicePipeline.incoming_queue
    (fst (VoicePipeline.incoming_loop json_loads_ctl datetime_max_utc
            default_pipeline
            [VoicePipeline.Received (text_message (control_message "tts_start"));
             VoicePipeline.Received header_only_message;
             VoicePipeline.ReceiveTimeout;
             VoicePipeline.Received (text_message (control_message "tts_start"));
             VoicePipeline.Received header_only_message]))
  = VoicePipeline.incoming_queue default_pipeline
  /\ (forall (playing : VoicePipeline.t) (raw : list byte),
        VoicePipeline.is_tts_playing playing = true ->
        VoicePipeline.on_receive json_loads_ctl datetime_max_utc playing
          (binary_message raw)
        = (playing, Ok tt)).
Proof.
  apply (tts_playing_drops_binary_messages json_loads_ctl datetime_max_utc
           default_pipeline (text_message (control_message "tts_start"))
           [VoicePipeline.Received header_only_message;
            VoicePipeline.ReceiveTimeout;
            VoicePipeline.Received (text_message (control_message "tts_start"));
            VoicePipeline.Received header_only_message]).
  - reflexivity.
  - intros data [H|[H|[H|[H|[]]]]]; inversion H; subst; reflexivity.
Defined.

(** The window ends with [tts_end]: the frame after it is enqueued. *)
Example tts_end_reopens_ingest :
  Queue.items
    (VoicePipeline.incoming_queue
       (fst (VoicePipeline.process_incoming_data json_loads_ctl
               datetime_max_utc default_pipeline
               [VoicePipeline.Received (text_message (control_message "tts_start"));
                VoicePipeline.Received header_only_message;
                VoicePipeline.Received (text_message (control_message "tts_end"));
                VoicePipeline.Received header_only_message])))
  = [frame_of 0 1500 []].
Proof. vm_compute. reflexivity. Qed.

(** ** VADSegmenter *)

(** C10. The resampler raises on an empty payload: [np.max] of the empty
    array comes before the silent-input branch can return. So a frame with
    no PCM bytes takes [process_audio_chunk] to its [except] branch, which
    empties the buffer and re-raises; and such a frame is what Ingest
    enqueues for a binary message of exactly 10 bytes, after which the
    VADSegmenter stage logs the error and returns. *)
Theorem audio_resampler_empty_payload_raises :
  forall (resample_poly : list Z -> Z -> result (list Q))
         (get_speech_timestamps :
            list Z -> Z -> Z -> result (list VADProcessor.speech_timestamp)),
    (forall resample_ratio : Z,
        VADProcessor.audio_resampler resample_poly [] resample_ratio
        = Raise ValueError)
    /\ (forall (self : VADProcessor.t) (flag : Z) (timestamp : Q)
               (transcript : option string),
          VADProcessor.process_audio_chunk resample_poly get_speech_timestamps
            self
            {| flag := flag; timestamp := timestamp; audio := AudioBytes [];
               transcript := transcript |}
          = (VADProcessor.set_audio_buffer self [], Raise ValueError))
    /\ (let ingested :=
          fst (VoicePipeline.process_incoming_data json_loads_ctl
                 datetime_max_utc default_pipeline
                 [VoicePipeline.Received header_only_message]) in
        Queue.items (VoicePipeline.incoming_queue ingested)
        = [{| flag := 0; timestamp := inject_Z 1; audio := AudioBytes [];
              transcript := None |}]
        /\ snd (VoicePipeline.process_audio_chunk resample_poly
                  get_speech_timestamps ingested 1)
           = Caught ValueError).
Proof.
  intros resample_poly get_speech_timestamps. split; [|split].
  - intros ratio. reflexivity.
  - intros self flag timestamp transcript. reflexivity.
  - split; reflexivity.
Qed.

(** *** The speech branch of [process_audio_chunk] *)

Section SpeechBranch.

Variable resample_poly : list Z -> Z -> result (list Q).
Variable get_speech_timestamps :
  list Z -> Z -> Z -> result (list VADProcessor.speech_timestamp).
Variable self : VADProcessor.t.
Variable audio_chunk : AudioChunk.
Variable audio_int16 : list Z.
Variable first : VADProcessor.speech_timestamp.
Variable others : list VADProcessor.speech_timestamp.

Let buffer : list Z := VADProcessor._audio_buffer self ++ audio_int16.
Let ranges : list VADProcessor.speech_timestamp := first :: others.

Hypothesis resampled :
  VADProcessor._resample_audio resample_poly self
    (VADProcessor.audio_bytes_of audio_chunk) = Ok audio_int16.
Hypothesis enough_audio :
  Qle_bool (VADProcessor._min_audio_samples self) (inject_Z (len buffer)) = true.
Hypothesis speech_detected :
  get_speech_timestamps buffer (VADProcessor.audio_sample_rate self)
    (VADProcessor.speech_pad_samples_ms self) = Ok ranges.

(** Enough trailing silence: the utterance is complete. *)
Lemma process_audio_chunk_trailing_silence :
  VADProcessor._min_silence_samples self
  <= len buffer - VADProcessor.ts_end (last ranges first) ->
  VADProcessor.process_audio_chunk resample_poly get_speech_timestamps
    self audio_chunk
  = (VADProcessor.set_audio_buffer self
       (py_slice_from buffer (VADProcessor.ts_end (last ranges first))),
     Ok (Some (VADProcessor.set_audio audio_chunk
                 (AudioSamples (speech_of buffer ranges))))).
Proof.
  intros Hsil. unfold VADProcessor.process_audio_chunk.
  rewrite resampled. fold buffer. cbv zeta.
  cbn [VADProcessor._min_audio_samples VADProcessor.set_audio_buffer].
  rewrite enough_audio. cbn [negb].
  unfold VADProcessor._get_speech_timestamps.
  cbn [VADProcessor._audio_buffer VADProcessor.audio_sample_rate
       VADProcessor.speech_pad_samples_ms VADProcessor.set_audio_buffer].
  rewrite speech_detected. unfold ranges at 1.
  cbn [VADProcessor._min_silence_samples VADProcessor._max_audio_buffer
       VADProcessor.set_audio_buffer].
  fold ranges.
  destruct (VADProcessor._min_silence_samples self
            <=? len buffer - VADProcessor.ts_end (last ranges first)) eqn:E;
    [reflexivity|apply Z.leb_gt in E; lia].
Qed.

Hypothesis still_speaking :
  len buffer - VADProcessor.ts_end (last ranges first)
  < VADProcessor._min_silence_samples self.
Hypothesis buffer_is_full : VADProcessor._max_audio_buffer self <= len buffer.

(** Buffer full, the first range starts at sample 0: trimming removes
    nothing, so the buffer is emptied and the segment is returned. *)
Lemma process_audio_chunk_force_flush_from_zero :
  VADProcessor.ts_start first = 0 ->
  VADProcessor.process_audio_chunk resample_poly get_speech_timestamps
    self audio_chunk
  = (VADProcessor.set_audio_buffer self [],
     Ok (Some (VADProcessor.set_audio audio_chunk
                 (AudioSamples (speech_of buffer ranges))))).
Proof.
  intros Hstart. unfold VADProcessor.process_audio_chunk.
  rewrite resampled. fold buffer. cbv zeta.
  cbn [VADProcessor._min_audio_samples VADProcessor.set_audio_buffer].
  rewrite enough_audio. cbn [negb].
  unfold VADProcessor._get_speech_timestamps.
  cbn [VADProcessor._audio_buffer VADProcessor.audio_sample_rate
       VADProcessor.speech_pad_samples_ms VADProcessor.set_audio_buffer].
  rewrite speech_detected. unfold ranges at 1.
  cbn [VADProcessor._min_silence_samples VADProcessor._max_audio_buffer
       VADProcessor.set_audio_buffer].
  fold ranges.
  destruct (VADProcessor._min_silence_samples self
            <=? len buffer - VADProcessor.ts_end (last ranges first)) eqn:E;
    [apply Z.leb_le in E; lia|].
  destruct (VADProcessor._max_audio_buffer self <=? len buffer) eqn:E2;
    [|apply Z.leb_gt in E2; lia].
  rewrite Hstart, py_slice_from_skipn by lia. cbn [Z.to_nat skipn].
  rewrite Z.eqb_refl. reflexivity.
Qed.

(** Buffer full, the first range starts inside the buffer: the leading
    samples are cut off and the call returns [None]. *)
Lemma process_audio_chunk_force_flush_trims :
  0 < VADProcessor.ts_start first <= len buffer ->
  VADProcessor.process_audio_chunk resample_poly get_speech_timestamps
    self audio_chunk
  = (VADProcessor.set_audio_buffer self
       (skipn (Z.to_nat (VADProcessor.ts_start first)) buffer),
     Ok None).
Proof.
  intros Hstart. unfold VADProcessor.process_audio_chunk.
  rewrite resampled. fold buffer. cbv zeta.
  cbn [VADProcessor._min_audio_samples VADProcessor.set_audio_buffer].
  rewrite enough_audio. cbn [negb].
  unfold VADProcessor._get_speech_timestamps.
  cbn [VADProcessor._audio_buffer VADProcessor.audio_sample_rate
       VADProcessor.speech_pad_samples_ms VADProcessor.set_audio_buffer].
  rewrite speech_detected. unfold ranges at 1.
  cbn [VADProcessor._min_silence_samples VADProcessor._max_audio_buffer
       VADProcessor.set_audio_buffer].
  fold ranges.
  destruct (VADProcessor._min_silence_samples self
            <=? len buffer - VADProcessor.ts_end (last ranges first)) eqn:E;
    [apply Z.leb_le in E; lia|].
  destruct (VADProcessor._max_audio_buffer self <=? len buffer) eqn:E2;
    [|apply Z.leb_gt in E2; lia].
  rewrite py_slice_from_skipn by lia.
  destruct (len buffer
            =? len (skipn (Z.to_nat (VADProcessor.ts_start first)) buffer)) eqn:E3;
    [|reflexivity].
  apply Z.eqb_eq in E3. unfold len in E3, Hstart.
  rewrite length_skipn in E3. lia.
Qed.

End SpeechBranch.

(** C1 (amended). Speech detected, too little silence behind it, and the
    buffer full: the call cuts the buffer at the first speech start. Only
    when that removes nothing (the first range starts at sample 0, so the
    buffer begins with speech) does it empty the buffer and return the
    Segment made of the VAD ranges; when the cut removes samples, the call
    returns [None] and keeps the buffer from the first speech start on. *)
Theorem force_flush_emits_when_cut_removes_nothing :
  forall (resample_poly : list Z -> Z -> result (list Q))
         (get_speech_timestamps :
            list Z -> Z -> Z -> result (list VADProcessor.speech_timestamp))
         (self : VADProcessor.t) (audio_chunk : AudioChunk)
         (audio_int16 : list Z) (first : VADProcessor.speech_timestamp)
         (others : list VADProcessor.speech_timestamp),
    let buffer := VADProcessor._audio_buffer self ++ audio_int16 in
    let ranges := first :: others in
    VADProcessor._resample_audio resample_poly self
      (VADProcessor.audio_bytes_of audio_chunk) = Ok audio_int16 ->
    Qle_bool (VADProcessor._min_audio_samples self) (inject_Z (len buffer))
    = true ->
    get_speech_timestamps buffer (VADProcessor.audio_sample_rate self)
      (VADProcessor.speech_pad_samples_ms self) = Ok ranges ->
    len buffer - VADProcessor.ts_end (last ranges first)
    < VADProcessor._min_silence_samples self ->
    VADProcessor._max_audio_buffer self <= len buffer ->
    0 <= VADProcessor.ts_start first <= len buffer ->
    VADProcessor.process_audio_chunk resample_poly get_speech_timestamps
      self audio_chunk
    = if VADProcessor.ts_start first =? 0
      then (VADProcessor.set_audio_buffer self [],
            Ok (Some (VADProcessor.set_audio audio_chunk
                        (AudioSamples (speech_of buffer ranges)))))
      else (VADProcessor.set_audio_buffer self
              (py_slice_from buffer (VADProcessor.ts_start first)),
            Ok None).
Proof.
  intros resample_poly vad self chunk audio_int16 first others buffer ranges
         Hres Henough Hvad Hsil Hfull Hstart.
  destruct (Z.eqb_spec (VADProcessor.ts_start first) 0) as [Hzero|Hpos].
  - exact (process_audio_chunk_force_flush_from_zero resample_poly vad self
             chunk audio_int16 first others Hres Henough Hvad Hsil Hfull
             Hzero).
  - rewrite py_slice_from_skipn by lia.
    apply (process_audio_chunk_force_flush_trims resample_poly vad self
             chunk audio_int16 first others Hres Henough Hvad Hsil Hfull).
    subst buffer. lia.
Qed.

Lemma force_flush_emits_when_cut_removes_nothing_witness :
  VADProcessor.process_audio_chunk resample_decimate
    (vad_reports [speech_range 0 320160])
    (vad_holding 319840 1000) (silent_frame 1920)
  = (VADProcessor.set_audio_buffer (vad_holding 319840 1000) [],
     Ok (Some (VADProcessor.set_audio (silent_frame 1920)
                 (AudioSamples
                    (speech_of
                       (VADProcessor._audio_buffer (vad_holding 319840 1000)
                        ++ repeat 0 320)
                       [speech_range 0 320160]))))).
Proof.
  apply (force_flush_emits_when_cut_removes_nothing resample_decimate
           (vad_reports [speech_range 0 320160]) (vad_holding 319840 1000)
           (silent_frame 1920) (repeat 0 320) (speech_range 0 320160) []).
  - vm_compute. reflexivity.
  - vm_compute. reflexivity.
  - reflexivity.
  - vm_compute. reflexivity.
  - vm_compute. discriminate.
  - split; vm_compute; discriminate.
Defined.

(** C1, as stated, fails. The buffer is full (320160 samples against the
    cap of 320000) and VAD reports speech from sample 1600 to the end, so
    there is no trailing silence: the claim has this call return a
    Segment. The code cuts the first 1600 samples off the buffer and
    returns [None]: its [return audio_chunk] stands under
    [if prev_length == self._audio_buffer.size], the branch taken only
    when the cut removed nothing. *)
Lemma force_flush_after_leading_samples_emits_nothing :
  let call :=
    VADProcessor.process_audio_chunk resample_decimate
      (vad_reports [speech_range 1600 320160])
      (vad_holding 319840 1000) (silent_frame 1920) in
  snd call = Ok None
  /\ len (VADProcessor._audio_buffer (fst call)) = 320160 - 1600.
Proof. vm_compute. split; reflexivity. Qed.

(** The same call when the speech starts at sample 0: the buffer is
    emptied and the Segment holds every sample of the range. *)
Example force_flush_from_sample_zero_emits :
  let call :=
    VADProcessor.process_audio_chunk resample_decimate
      (vad_reports [speech_range 0 320160])
      (vad_holding 319840 1000) (silent_frame 1920) in
  option_map len (segment_samples (snd call)) = Some 320160
  /\ VADProcessor._audio_buffer (fst call) = [].
Proof. vm_compute. split; reflexivity. Qed.

(** *** Segment lengths *)

Lemma py_slice_length {A} (l : list A) (s e : Z) :
  0 <= s <= e -> e <= len l -> len (py_slice l s e) = e - s.
Proof.
  intros Hse He. unfold py_slice, py_index_clamp.
  destruct (s <? 0) eqn:E1; [apply Z.ltb_lt in E1; lia|].
  destruct (e <? 0) eqn:E2; [apply Z.ltb_lt in E2; lia|].
  rewrite !Z.min_l by lia. unfold len in *.
  rewrite length_firstn, length_skipn. lia.
Qed.

Lemma len_app {A} (l1 l2 : list A) : len (l1 ++ l2) = len l1 + len l2.
Proof. unfold len. rewrite length_app. lia. Qed.

Lemma last_cons_nonempty {A} (x y : A) (l : list A) (d1 d2 : A) :
  last (x :: y :: l) d1 = last (y :: l) d2.
Proof.
  cbn [last]. revert y. induction l as [|z l IH]; intros y; [reflexivity|].
  exact (IH z).
Qed.

(** For ranges in order inside the buffer, the concatenated speech is no
    longer than the span from [lo] to the end of the last range, and that
    end lies in the buffer. *)
Lemma speech_of_length (buffer : list Z) :
  forall (ranges : list VADProcessor.speech_timestamp) (lo : Z)
         (r0 : VADProcessor.speech_timestamp),
    0 <= lo ->
    ranges_within lo (r0 :: ranges) (len buffer) ->
    0 <= len (speech_of buffer (r0 :: ranges))
         <= VADProcessor.ts_end (last (r0 :: ranges) r0) - lo
    /\ VADProcessor.ts_end (last (r0 :: ranges) r0) <= len buffer.
Proof.
  induction ranges as [|r1 rest IH]; intros lo r0 Hlo Hin.
  - cbn [ranges_within] in Hin. destruct Hin as (H1 & H2 & H3).
    unfold speech_of. cbn [map List.concat last]. rewrite app_nil_r.
    rewrite py_slice_length by lia. lia.
  - cbn [ranges_within] in Hin. destruct Hin as (H1 & H2 & H3).
    assert (Hlo' : 0 <= VADProcessor.ts_end r0) by lia.
    destruct (IH (VADProcessor.ts_end r0) r1 Hlo' H3) as [Hlen Hend].
    rewrite (last_cons_nonempty r0 r1 rest r0 r1).
    unfold speech_of in *. cbn [map List.concat] in *.
    rewrite len_app. rewrite py_slice_length by lia. lia.
Qed.

(** C3 (amended). A returned Segment is the concatenation of the VAD
    ranges of a buffer that holds at least [min_speech_s * sr] samples; it
    is returned either with [min_silence] samples of trailing silence
    behind the last range or as a forced flush of a full buffer. For
    ranges in order inside the buffer the Segment is no longer than the
    buffer; on the trailing-silence path it is at least [min_silence]
    samples shorter, hence below [max_speech_s * sr] whenever the buffer
    is not full. No lower bound on the Segment's own length follows. *)
Theorem emitted_segment_length :
  forall (resample_poly : list Z -> Z -> result (list Q))
         (get_speech_timestamps :
            list Z -> Z -> Z -> result (list VADProcessor.speech_timestamp))
         (self : VADProcessor.t) (audio_chunk : AudioChunk)
         (self' : VADProcessor.t) (segment : AudioChunk),
    VADProcessor.process_audio_chunk resample_poly get_speech_timestamps
      self audio_chunk = (self', Ok (Some segment)) ->
    exists (audio_int16 : list Z) (first : VADProcessor.speech_timestamp)
           (others : list VADProcessor.speech_timestamp),
      let buffer := VADProcessor._audio_buffer self ++ audio_int16 in
      let ranges := first :: others in
      let speech_end := VADProcessor.ts_end (last ranges first) in
      let speech := speech_of buffer ranges in
      VADProcessor._resample_audio resample_poly self
        (VADProcessor.audio_bytes_of audio_chunk) = Ok audio_int16
      /\ get_speech_timestamps buffer (VADProcessor.audio_sample_rate self)
           (VADProcessor.speech_pad_samples_ms self) = Ok ranges
      /\ segment = VADProcessor.set_audio audio_chunk (AudioSamples speech)
      /\ (VADProcessor._min_audio_samples self <= inject_Z (len buffer))%Q
      /\ ((VADProcessor._min_silence_samples self <= len buffer - speech_end
           /\ VADProcessor._audio_buffer self' = py_slice_from buffer speech_end)
          \/ (len buffer - speech_end < VADProcessor._min_silence_samples self
              /\ VADProcessor._max_audio_buffer self <= len buffer
              /\ VADProcessor._audio_buffer self' = []))
      /\ (ranges_within 0 ranges (len buffer) ->
          len speech <= len buffer
          /\ (VADProcessor._min_silence_samples self <= len buffer - speech_end ->
              len speech + VADProcessor._min_silence_samples self <= len buffer)
          /\ (len buffer < VADProcessor._max_audio_buffer self ->
              len speech + VADProcessor._min_silence_samples self
              < VADProcessor._max_audio_buffer self)).
Proof.
  intros resample_poly vad self chunk self' segment H.
  unfold VADProcessor.process_audio_chunk in H.
  destruct (VADProcessor._resample_audio resample_poly self
              (VADProcessor.audio_bytes_of chunk)) as [audio_int16|e] eqn:Hres;
    [|discriminate].
  cbv zeta in H.
  cbn [VADProcessor._min_audio_samples VADProcessor._min_silence_samples
       VADProcessor._max_audio_buffer VADProcessor.set_audio_buffer] in H.
  destruct (Qle_bool (VADProcessor._min_audio_samples self)
              (inject_Z (len (VADProcessor._audio_buffer self ++ audio_int16))))
    eqn:Hmin; cbn [negb] in H; [|discriminate].
  unfold VADProcessor._get_speech_timestamps in H.
  cbn [VADProcessor._audio_buffer VADProcessor.audio_sample_rate
       VADProcessor.speech_pad_samples_ms VADProcessor.set_audio_buffer] in H.
  destruct (vad (VADProcessor._audio_buffer self ++ audio_int16)
              (VADProcessor.audio_sample_rate self)
              (VADProcessor.speech_pad_samples_ms self))
    as [ranges|e] eqn:Hvad; [|discriminate].
  destruct ranges as [|first others].
  { destruct (VADProcessor._max_audio_buffer self
              <=? len (VADProcessor._audio_buffer self ++ audio_int16));
      discriminate. }
  exists audio_int16, first, others.
  set (buffer := VADProcessor._audio_buffer self ++ audio_int16) in *.
  set (ranges := first :: others) in *.
  assert (Hbound : ranges_within 0 ranges (len buffer) ->
            0 <= len (speech_of buffer ranges)
                 <= VADProcessor.ts_end (last ranges first)
            /\ VADProcessor.ts_end (last ranges first) <= len buffer).
  { intros Hin.
    destruct (speech_of_length buffer others 0 first (Z.le_refl 0) Hin)
      as [Hlen Hend].
    fold ranges in Hlen, Hend. split; [lia|exact Hend]. }
  cbv zeta. fold (speech_of buffer ranges) in H.
  split; [reflexivity|]. split; [exact Hvad|].
  apply Qle_bool_iff in Hmin.
  destruct (VADProcessor._min_silence_samples self
            <=? len buffer - VADProcessor.ts_end (last ranges first)) eqn:E1.
  - apply Z.leb_le in E1. inversion H; subst self' segment.
    split; [reflexivity|]. split; [exact Hmin|]. split.
    + left. split; [exact E1|reflexivity].
    + intros Hin. destruct (Hbound Hin) as [Hlen Hend]. repeat split; lia.
  - apply Z.leb_gt in E1.
    destruct (VADProcessor._max_audio_buffer self <=? len buffer) eqn:E2;
      [|discriminate].
    apply Z.leb_le in E2.
    destruct (len buffer
              =? len (py_slice_from buffer (VADProcessor.ts_start first)));
      [|discriminate].
    inversion H; subst self' segment.
    split; [reflexivity|]. split; [exact Hmin|]. split.
    + right. repeat split; assumption.
    + intros Hin. destruct (Hbound Hin) as [Hlen Hend]. repeat split; lia.
Qed.

Lemma emitted_segment_length_witness :
  exists (audio_int16 : list Z) (first : VADProcessor.speech_timestamp)
         (others : list VADProcessor.speech_timestamp),
    let self := vad_holding 12680 1000 in
    let buffer := VADProcessor._audio_buffer self ++ audio_int16 in
    let ranges := first :: others in
    let speech_end := VADProcessor.ts_end (last ranges first) in
    let speech := speech_of buffer ranges in
    VADProcessor._resample_audio resample_decimate self
      (VADProcessor.audio_bytes_of (silent_frame 1920)) = Ok audio_int16
    /\ vad_reports [speech_range 0 5000] buffer
         (VADProcessor.audio_sample_rate self)
         (VADProcessor.speech_pad_samples_ms self) = Ok ranges
    /\ short_utterance_segment
       = VADProcessor.set_audio (silent_frame 1920) (AudioSamples speech)
    /\ (VADProcessor._min_audio_samples self <= inject_Z (len buffer))%Q
    /\ ((VADProcessor._min_silence_samples self <= len buffer - speech_end
         /\ VADProcessor._audio_buffer short_utterance_rest
            = py_slice_from buffer speech_end)
        \/ (len buffer - speech_end < VADProcessor._min_silence_samples self
            /\ VADProcessor._max_audio_buffer self <= len buffer
            /\ VADProcessor._audio_buffer short_utterance_rest = []))
    /\ (ranges_within 0 ranges (len buffer) ->
        len speech <= len buffer
        /\ (VADProcessor._min_silence_samples self <= len buffer - speech_end ->
            len speech + VADProcessor._min_silence_samples self <= len buffer)
        /\ (len buffer < VADProcessor._max_audio_buffer self ->
            len speech + VADProcessor._min_silence_samples self
            < VADProcessor._max_audio_buffer self)).
Proof.
  apply (emitted_segment_length resample_decimate
           (vad_reports [speech_range 0 5000]) (vad_holding 12680 1000)
           (silent_frame 1920) short_utterance_rest short_utterance_segment).
  vm_compute. reflexivity.
Defined.

(** C3, as stated, fails: on the trailing-silence path, with the buffer far
    below the cap, the Segment returned has 5000 samples, fewer than
    [min_speech_s * sr = 8000]. *)
Lemma trailing_silence_emits_short_segment :
  short_utterance_call
  = (short_utterance_rest, Ok (Some short_utterance_segment))
  /\ segment_samples (snd short_utterance_call)
     = Some (repeat 1000 (Z.to_nat 5000))
  /\ (inject_Z (len (repeat 1000 (Z.to_nat 5000)))
      < min_continuous_speech_s default_config
        * inject_Z (audio_sample_rate default_config))%Q
  /\ len (VADProcessor._audio_buffer (vad_holding 12680 1000)) + 320
     < VADProcessor._max_audio_buffer default_vad.
Proof.
  split; [vm_compute; reflexivity|].
  split; [vm_compute; reflexivity|].
  split; [vm_compute; reflexivity|].
  vm_compute. reflexivity.
Qed.

(** ** STT adapters *)

(** [GroqSTT.stt_stream] yields the transcription of [stt] and returns. *)
Lemma groq_stt_stream_single_chunk
    (self : STT.t) (audio : list Z) (config : option PipelineConfig)
    (text : string) :
  STT.stt self audio config = Ok text ->
  STT.GroqSTT.stt_stream self audio config = Yield text Return.
Proof. intros H. unfold STT.GroqSTT.stt_stream. now rewrite H. Qed.

(** [OpenAISTT.stt_stream] with [whisper-1] yields the transcription of
    [stt] and then goes on to the streaming request: it yields every delta
    of that request too, and raises if the request does. *)
Lemma openai_whisper_stt_stream_continues
    (self : STT.t) (audio : list Z) (config : PipelineConfig) (text : string) :
  STT.model self = "whisper-1" ->
  STT.stt self audio (Some config) = Ok text ->
  STT.OpenAISTT.stt_stream self audio (Some config)
  = Yield text
      match STT.transcriptions_create_stream (STT.client self)
              (STT.create_wav_buffer_from_bytes
                 (VADProcessor.int16_tobytes audio) (audio_sample_rate config))
              (STT.model self) (STT.language self) with
      | Raise e => Throw e
      | Ok transcription => STT.yield_deltas transcription
      end.
Proof.
  intros Hmodel Hstt. unfold STT.OpenAISTT.stt_stream.
  rewrite Hmodel at 1. cbn [String.eqb Ascii.eqb Bool.eqb].
  rewrite Hstt. reflexivity.
Qed.

(** C8 (code defect). [OpenAISTT] with its default model [whisper-1], the
    model its own comment says does not stream: the claim has [stt_stream]
    yield exactly one chunk, the full transcript. The code yields it and,
    having no [return] after the [yield], issues the streaming request and
    yields its deltas as further chunks. [GroqSTT] on the same provider
    yields the one chunk. *)
Theorem openai_whisper_stt_stream_yields_again :
  yielded (STT.OpenAISTT.stt_stream (STT.OpenAISTT.init two_delta_client)
             [1; 2; 3] (Some default_config))
  = ["hello world"; "hello"; " world"]
  /\ yielded (STT.GroqSTT.stt_stream (STT.GroqSTT.init two_delta_client)
                [1; 2; 3] (Some default_config))
     = ["hello world"].
Proof. split; reflexivity. Qed.

(** With a streaming request that fails, the one chunk is followed by the
    exception, which ends the Transcriber before [user.transcript.end]. *)
Example openai_whisper_stt_stream_raises_after_chunk :
  STT.OpenAISTT.stt_stream (STT.OpenAISTT.init stream_timeout_client)
    [1; 2; 3] (Some default_config)
  = Yield "hello world" (Throw (ProviderError "timeout")).
Proof. reflexivity. Qed.

(** ** AgentDriver *)

Lemma bind_effects {A B} (m : VoicePipeline.W A) (k : A -> VoicePipeline.W B) :
  fst (VoicePipeline.bind m k)
  = fst m ++ match snd m with Ok a => fst (k a) | Raise _ => [] end.
Proof.
  destruct m as [w [a|e]]; cbn.
  - destruct (k a); reflexivity.
  - now rewrite app_nil_r.
Qed.

Lemma bind_result {A B} (m : VoicePipeline.W A) (k : A -> VoicePipeline.W B) :
  snd (VoicePipeline.bind m k)
  = match snd m with Ok a => snd (k a) | Raise e => Raise e end.
Proof.
  destruct m as [w [a|e]]; cbn; [destruct (k a)|]; reflexivity.
Qed.

Lemma perform1_transcription_queue (self : VoicePipeline.t) e :
  VoicePipeline.transcription_queue (VoicePipeline.perform1 self e)
  = VoicePipeline.transcription_queue self.
Proof.
  destruct e; cbn; try reflexivity.
  destruct (VoicePipeline._add_queue_no_wait
              (VoicePipeline.response_queue self) m); reflexivity.
Qed.

Lemma perform_transcription_queue effects :
  forall self : VoicePipeline.t,
    VoicePipeline.transcription_queue (VoicePipeline.perform self effects)
    = VoicePipeline.transcription_queue self.
Proof.
  induction effects as [|e rest IH]; intros self; [reflexivity|].
  cbn [VoicePipeline.perform fold_left].
  change (fold_left VoicePipeline.perform1 rest (VoicePipeline.perform1 self e))
    with (VoicePipeline.perform (VoicePipeline.perform1 self e) rest).
  now rewrite IH, perform1_transcription_queue.
Qed.

(** No end event is among the effects of the speech and agent loops. *)
Lemma stream_speech_no_end (chunks : gen (list Z)) :
  no_end (fst (VoicePipeline.stream_speech chunks)) = true.
Proof.
  induction chunks as [| e | chunk rest IH]; try reflexivity.
  cbn [VoicePipeline.stream_speech]. unfold no_end in *. rewrite bind_effects.
  cbn [VoicePipeline._add_event_message VoicePipeline.tell fst snd].
  rewrite forallb_app, IH. reflexivity.
Qed.

Lemma speak_no_end (tts_stream : string -> gen (list Z)) (text : string) :
  no_end (fst (VoicePipeline.speak tts_stream text)) = true.
Proof.
  unfold VoicePipeline.speak, no_end. rewrite bind_effects.
  cbn [VoicePipeline.tell fst snd].
  rewrite forallb_app. fold (no_end (fst (VoicePipeline.stream_speech (tts_stream text)))).
  rewrite stream_speech_no_end. reflexivity.
Qed.

Lemma bind_no_end {A B} (m : VoicePipeline.W A) (k : A -> VoicePipeline.W B) :
  no_end (fst m) = true ->
  (forall a, snd m = Ok a -> no_end (fst (k a)) = true) ->
  no_end (fst (VoicePipeline.bind m k)) = true.
Proof.
  intros Hm Hk. rewrite bind_effects. unfold no_end in *.
  rewrite forallb_app, Hm. destruct (snd m) as [a|e]; [|reflexivity].
  now apply Hk.
Qed.

(** When [m ;; k] raises, it is enough to look at [k] where [k] raises. *)
Lemma bind_raised_no_end {A B} (m : VoicePipeline.W A)
    (k : A -> VoicePipeline.W B) (e : exn) :
  snd (VoicePipeline.bind m k) = Raise e ->
  no_end (fst m) = true ->
  (forall a, snd m = Ok a -> snd (k a) = Raise e -> no_end (fst (k a)) = true) ->
  no_end (fst (VoicePipeline.bind m k)) = true.
Proof.
  intros Hr Hm Hk. rewrite bind_effects. rewrite bind_result in Hr.
  unfold no_end in *. rewrite forallb_app, Hm.
  destruct (snd m) as [a|e']; [|reflexivity]. now apply Hk.
Qed.

Lemma no_end_existsb (effects : list VoicePipeline.effect) :
  no_end effects = true -> existsb is_end_event effects = false.
Proof.
  induction effects as [|x rest IH]; [reflexivity|].
  unfold no_end. cbn [forallb existsb]. intros H.
  apply andb_true_iff in H as [Hx Hrest]. apply negb_true_iff in Hx.
  rewrite Hx. now apply IH.
Qed.

Lemma consume_agent_stream_no_end (tts_stream : string -> gen (list Z))
    (chunks : gen string) :
  forall (text_buffer : string) (first_response_chunk first_speech_chunk : bool),
    no_end (fst (VoicePipeline.consume_agent_stream tts_stream chunks
                   text_buffer first_response_chunk first_speech_chunk))
    = true.
Proof.
  induction chunks as [| e | chunk rest IH]; intros buffer frc fsc;
    try reflexivity.
  cbn [VoicePipeline.consume_agent_stream].
  apply bind_no_end; [destruct frc; reflexivity|intros _ _].
  destruct (VoicePipeline.has_sentence_ending (append buffer chunk));
    [|apply IH].
  apply bind_no_end; [reflexivity|intros idx _].
  destruct (str_nonempty (str_take (Z.to_nat (idx + 1)) (append buffer chunk)));
    [|apply IH].
  apply bind_no_end; [destruct fsc; reflexivity|intros _ _].
  apply bind_no_end; [reflexivity|intros _ _].
  apply bind_no_end; [apply speak_no_end|intros _ _; apply IH].
Qed.

(** A turn that raises has emitted no end event. *)
Lemma failed_turn_no_end
    (generate_stream : option string -> gen string)
    (tts_stream : string -> gen (list Z)) (audio_chunk : AudioChunk)
    (effects : list VoicePipeline.effect) (e : exn) :
  VoicePipeline.agent_turn generate_stream tts_stream audio_chunk
  = (effects, Raise e) ->
  existsb is_end_event effects = false.
Proof.
  intros H. apply no_end_existsb.
  assert (Hfst : fst (VoicePipeline.agent_turn generate_stream tts_stream
                        audio_chunk) = effects) by now rewrite H.
  assert (Hsnd : snd (VoicePipeline.agent_turn generate_stream tts_stream
                        audio_chunk) = Raise e) by now rewrite H.
  clear H. subst effects. unfold VoicePipeline.agent_turn in *.
  apply (bind_raised_no_end _ _ e Hsnd); [reflexivity|]. intros _ _ H1.
  apply (bind_raised_no_end _ _ e H1); [reflexivity|]. intros _ _ H2.
  apply (bind_raised_no_end _ _ e H2); [reflexivity|]. intros _ _ H3.
  apply (bind_raised_no_end _ _ e H3);
    [apply consume_agent_stream_no_end|]. intros text_buffer _ H4.
  apply (bind_raised_no_end _ _ e H4).
  - destruct (strip_nonempty text_buffer); [|reflexivity].
    apply bind_no_end; [reflexivity|intros _ _; apply speak_no_end].
  - intros _ _ H5. rewrite bind_result in H5. cbn in H5. discriminate.
Qed.

(** C2, as stated, fails: the agent stream raises in the first of two
    queued turns. The stage returns with the exception; no end event was
    emitted, the second Segment is still queued, and the agent was never
    called for it. *)
Lemma agent_failure_leaves_turn_open :
  let run := VoicePipeline.generate_agent_response failing_agent tone_tts
               pipeline_two_turns 5 in
  snd run = Caught (ProviderError "agent")
  /\ event_types (VoicePipeline.trace (fst run))
     = [VoicePipeline.TRANSCRIPTION_TEXT; VoicePipeline.AI_RESPONSE_TEXT_START]
  /\ agent_calls (VoicePipeline.trace (fst run)) = [Some "Hello."]
  /\ Queue.items (VoicePipeline.transcription_queue (fst run))
     = [transcribed "Next."].
Proof. vm_compute. repeat split. Qed.

(** *** Sentence boundaries *)

Lemma str_contains_append (c : ascii) (a b : string) :
  str_contains c (append a b) = str_contains c a || str_contains c b.
Proof.
  induction a as [|x a IH]; [reflexivity|].
  cbn [append str_contains]. rewrite IH. now rewrite orb_assoc.
Qed.

Lemma str_append_assoc (a b c : string) :
  append (append a b) c = append a (append b c).
Proof. induction a as [|x a IH]; cbn [append]; congruence. Qed.

Lemma str_take_append (p : string) (c : ascii) (r : string) :
  str_take (S (String.length p)) (append p (String c r))
  = append p (String c EmptyString).
Proof. induction p as [|x p IH]; cbn in *; congruence. Qed.

Lemma str_drop_append (p : string) (c : ascii) (r : string) :
  str_drop (S (String.length p)) (append p (String c r)) = r.
Proof. induction p as [|x p IH]; cbn in *; congruence. Qed.

(** [rfind] finds the last occurrence: nothing equal to [c] follows it. *)
Lemma rfind_from_spec (c : ascii) (s : string) :
  forall i best : Z,
    (str_contains c s = false /\ rfind_from c s i best = best)
    \/ (exists p r, s = append p (String c r)
                    /\ str_contains c r = false
                    /\ rfind_from c s i best = i + Z.of_nat (String.length p)).
Proof.
  induction s as [|a s IH]; intros i best; [left; now split|].
  cbn [rfind_from str_contains].
  destruct (IH (i + 1) (if Ascii.eqb a c then i else best))
    as [[Hno Hr]|(p & r & Hs & Hno & Hr)].
  - destruct (Ascii.eqb a c) eqn:E.
    + right. apply Ascii.eqb_eq in E. subst a.
      exists EmptyString, s. cbn. repeat split; [exact Hno|lia].
    + left. now split.
  - right. exists (String a p), r. subst s. cbn [append String.length].
    repeat split; [exact Hno|lia].
Qed.

Lemma append_suffix (p1 : string) :
  forall (x1 p2 x2 : string),
    append p1 x1 = append p2 x2 ->
    (String.length p1 <= String.length p2)%nat ->
    exists m, x1 = append m x2.
Proof.
  induction p1 as [|a p1 IH]; intros x1 p2 x2 Heq Hlen.
  - exists p2. exact Heq.
  - destruct p2 as [|b p2]; [cbn in Hlen; lia|].
    cbn [append] in Heq. injection Heq as _ Heq.
    apply (IH x1 p2 x2 Heq). cbn in Hlen. lia.
Qed.

Lemma fold_max_spec (rest : list Z) :
  forall x : Z,
    (fold_left Z.max rest x = x \/ In (fold_left Z.max rest x) rest)
    /\ x <= fold_left Z.max rest x
    /\ (forall y, In y rest -> y <= fold_left Z.max rest x).
Proof.
  induction rest as [|z rest IH]; intros x; cbn [fold_left].
  - repeat split; [now left|lia|intros y []].
  - destruct (IH (Z.max x z)) as (Hin & Hle & Hall).
    set (m := fold_left Z.max rest (Z.max x z)) in *. repeat split.
    + destruct Hin as [Hin|Hin]; [|right; now right].
      destruct (Z.max_spec x z) as [[_ Hm]|[_ Hm]].
      * right. left. lia.
      * left. lia.
    + lia.
    + intros y [Hy|Hy]; [subst; lia|now apply Hall].
Qed.

Lemma py_max_spec (values : list Z) (m : Z) :
  VoicePipeline.py_max values = Ok m ->
  In m values /\ (forall y, In y values -> y <= m).
Proof.
  destruct values as [|x rest]; [discriminate|].
  cbn [VoicePipeline.py_max]. intros H. injection H as H.
  destruct (fold_max_spec rest x) as (Hin & Hle & Hall). rewrite H in *.
  split.
  - destruct Hin as [Hin|Hin]; [left; now symmetry|now right].
  - intros y [Hy|Hy]; [subst; exact Hle|now apply Hall].
Qed.

(** The index the driver computes is that of the rightmost sentence
    ending: the buffer is [p ++ e ++ r] with [e] an ending at that index
    and no ending in [r]. *)
Lemma last_ending_split (text_buffer : string) :
  VoicePipeline.has_sentence_ending text_buffer = true ->
  exists (p : string) (e : ascii) (r : string),
    In e VoicePipeline.sentence_endings
    /\ text_buffer = append p (String e r)
    /\ VoicePipeline.has_sentence_ending r = false
    /\ VoicePipeline.last_ending_idx_of text_buffer
       = Ok (Z.of_nat (String.length p)).
Proof.
  intros Hany. unfold VoicePipeline.has_sentence_ending in Hany.
  apply existsb_exists in Hany as (e0 & He0 & Hc0).
  unfold VoicePipeline.last_ending_idx_of.
  set (present := filter (fun ending => str_contains ending text_buffer)
                         VoicePipeline.sentence_endings).
  assert (Hpresent : In e0 present) by (apply filter_In; now split).
  destruct (VoicePipeline.py_max (map (rfind text_buffer) present))
    as [idx|err] eqn:Hmax.
  2:{ destruct present; [contradiction|discriminate]. }
  apply py_max_spec in Hmax as [Hin Hall].
  apply in_map_iff in Hin as (e & Hidx & He).
  apply filter_In in He as [He Hce].
  unfold rfind in Hidx.
  destruct (rfind_from_spec e text_buffer 0 (-1))
    as [[Hno _]|(p & r & Hs & Hnor & Hr)]; [congruence|].
  exists p, e, r. repeat split; try assumption.
  - unfold VoicePipeline.has_sentence_ending.
    destruct (existsb (fun ending => str_contains ending r)
                      VoicePipeline.sentence_endings) eqn:Hex; [|reflexivity].
    exfalso. apply existsb_exists in Hex as (e' & He' & Hc').
    destruct (str_contains e' text_buffer) eqn:Hce'.
    + assert (Hle : rfind text_buffer e' <= idx).
      { apply Hall. apply in_map. apply filter_In. now split. }
      unfold rfind in Hle.
      destruct (rfind_from_spec e' text_buffer 0 (-1))
        as [[Hno' _]|(p' & r' & Hs' & Hnor' & Hr')]; [congruence|].
      assert (Hlen : (String.length p' <= String.length p)%nat) by lia.
      rewrite Hs in Hs'.
      destruct (append_suffix p' (String e' r') p (String e r)
                  (eq_sym Hs') Hlen) as [m Hm].
      destruct m as [|a m]; cbn [append] in Hm.
      * injection Hm as _ Hm. congruence.
      * injection Hm as _ Hm. rewrite Hm in Hnor'.
        rewrite str_contains_append in Hnor'. cbn [str_contains] in Hnor'.
        rewrite Hc' in Hnor'. now rewrite !orb_true_r in Hnor'.
    + rewrite Hs, str_contains_append in Hce'. cbn [str_contains] in Hce'.
      rewrite Hc' in Hce'. now rewrite !orb_true_r in Hce'.
  - f_equal. lia.
Qed.

(** *** One chunk of the agent stream *)

Lemma bind_lift_ok {A B} (a : A) (k : A -> VoicePipeline.W B) :
  VoicePipeline.bind (VoicePipeline.lift (Ok a)) k = k a.
Proof. unfold VoicePipeline.bind, VoicePipeline.lift. now destruct (k a). Qed.

Lemma consume_chunk_without_ending
    (tts_stream : string -> gen (list Z)) (chunk : string) (rest : gen string)
    (text_buffer : string) (first_response_chunk first_speech_chunk : bool) :
  VoicePipeline.has_sentence_ending (append text_buffer chunk) = false ->
  VoicePipeline.consume_agent_stream tts_stream (Yield chunk rest) text_buffer
    first_response_chunk first_speech_chunk
  = VoicePipeline.bind
      (if first_response_chunk
       then VoicePipeline._add_event_message
              VoicePipeline.AI_RESPONSE_TEXT_START None None
       else VoicePipeline.ret tt)
      (fun _ => VoicePipeline.consume_agent_stream tts_stream rest
                  (append text_buffer chunk) false first_speech_chunk).
Proof.
  intros Hnone. cbn [VoicePipeline.consume_agent_stream]. now rewrite Hnone.
Qed.

Lemma str_append_nil_r (a : string) : append a EmptyString = a.
Proof. induction a as [|x a IH]; cbn [append]; congruence. Qed.

Lemma append_eq_cases (p1 : string) :
  forall (x1 p2 x2 : string),
    append p1 x1 = append p2 x2 ->
    (exists m, p2 = append p1 m /\ x1 = append m x2)
    \/ (exists m, p1 = append p2 m /\ x2 = append m x1).
Proof.
  induction p1 as [|a p1 IH]; intros x1 p2 x2 Heq.
  - left. exists p2. now split.
  - destruct p2 as [|b p2].
    + right. exists (String a p1). split; [reflexivity|]. now symmetry.
    + cbn [append] in Heq. injection Heq as Hab Heq. subst b.
      destruct (IH x1 p2 x2 Heq) as [(m & Hp & Hx)|(m & Hp & Hx)].
      * left. exists m. split; [cbn [append]; congruence|exact Hx].
      * right. exists m. split; [cbn [append]; congruence|exact Hx].
Qed.

Lemma ending_found (m : string) (e : ascii) (r : string) :
  In e VoicePipeline.sentence_endings ->
  VoicePipeline.has_sentence_ending (append m (String e r)) = true.
Proof.
  intros He. unfold VoicePipeline.has_sentence_ending.
  apply existsb_exists. exists e. split; [exact He|].
  rewrite str_contains_append. cbn [str_contains].
  rewrite Ascii.eqb_refl. now rewrite orb_true_r.
Qed.

(** There is one way to cut a buffer at its rightmost sentence ending. *)
Lemma rightmost_split_unique (p : string) (e : ascii) (r : string)
    (p' : string) (e' : ascii) (r' : string) :
  append p (String e r) = append p' (String e' r') ->
  In e VoicePipeline.sentence_endings ->
  In e' VoicePipeline.sentence_endings ->
  VoicePipeline.has_sentence_ending r = false ->
  VoicePipeline.has_sentence_ending r' = false ->
  p' = p /\ e' = e /\ r' = r.
Proof.
  intros Heq He He' Hr Hr'.
  destruct (append_eq_cases p (String e r) p' (String e' r') Heq)
    as [(m & Hp & Hx)|(m & Hp & Hx)].
  - destruct m as [|a m]; cbn [append] in Hx.
    + injection Hx as H1 H2. rewrite str_append_nil_r in Hp. now subst.
    + injection Hx as _ Hx. rewrite Hx in Hr.
      now rewrite (ending_found m e' r' He') in Hr.
  - destruct m as [|a m]; cbn [append] in Hx.
    + injection Hx as H1 H2. rewrite str_append_nil_r in Hp. now subst.
    + injection Hx as _ Hx. rewrite Hx in Hr'.
      now rewrite (ending_found m e r He) in Hr'.
Qed.

(** The step of the loop on a chunk that brings a sentence ending into the
    buffer: with the buffer cut as [p ++ e ++ remainder] at its rightmost
    ending [e], the driver emits the start events not yet sent, the text
    delta [p ++ e], one TTS stream for that text, and goes on with
    [remainder]. *)
Lemma consume_chunk_at_last_ending
    (tts_stream : string -> gen (list Z)) (chunk : string) (rest : gen string)
    (text_buffer : string) (first_response_chunk first_speech_chunk : bool)
    (p : string) (e : ascii) (remainder : string) :
  append text_buffer chunk = append p (String e remainder) ->
  In e VoicePipeline.sentence_endings ->
  VoicePipeline.has_sentence_ending remainder = false ->
  VoicePipeline.consume_agent_stream tts_stream (Yield chunk rest)
    text_buffer first_response_chunk first_speech_chunk
  = VoicePipeline.bind
      (if first_response_chunk
       then VoicePipeline._add_event_message
              VoicePipeline.AI_RESPONSE_TEXT_START None None
       else VoicePipeline.ret tt)
      (fun _ =>
       VoicePipeline.bind
         (if first_speech_chunk
          then VoicePipeline._add_event_message
                 VoicePipeline.AI_RESPONSE_SPEECH_START None None
          else VoicePipeline.ret tt)
         (fun _ =>
          VoicePipeline.bind
            (VoicePipeline._add_event_message
               VoicePipeline.AI_RESPONSE_TEXT_DELTA
               (Some (append p (String e EmptyString))) None)
            (fun _ =>
             VoicePipeline.bind
               (VoicePipeline.speak tts_stream
                  (append p (String e EmptyString)))
               (fun _ =>
                VoicePipeline.consume_agent_stream tts_stream rest
                  remainder false false)))).
Proof.
  intros Hcut He Hnone.
  assert (Hany : VoicePipeline.has_sentence_ending (append text_buffer chunk)
                 = true) by (rewrite Hcut; now apply ending_found).
  destruct (last_ending_split (append text_buffer chunk) Hany)
    as (p' & e' & r' & He' & Hsplit & Hnone' & Hidx).
  assert (Hsame : p' = p /\ e' = e /\ r' = remainder).
  { apply rightmost_split_unique; try assumption. now rewrite <- Hcut. }
  destruct Hsame as (-> & -> & ->).
  cbn [VoicePipeline.consume_agent_stream]. rewrite Hany, Hidx.
  rewrite bind_lift_ok.
  replace (Z.to_nat (Z.of_nat (String.length p) + 1))
    with (S (String.length p)) by lia.
  rewrite Hsplit, str_take_append, str_drop_append.
  assert (Hne : str_nonempty (append p (String e EmptyString)) = true)
    by (destruct p; reflexivity).
  rewrite Hne. destruct first_response_chunk; reflexivity.
Qed.

(** *** The speech of one sentence *)

Lemma stream_speech_yields (chunks : list (list Z)) :
  VoicePipeline.stream_speech (yields chunks)
  = (map speech_delta_event chunks, Ok tt).
Proof.
  induction chunks as [|chunk rest IH]; [reflexivity|].
  cbn [yields fold_right VoicePipeline.stream_speech].
  change (fold_right (@Yield (list Z)) Return rest) with (yields rest).
  rewrite IH. reflexivity.
Qed.

Lemma speak_yields (tts_stream : string -> gen (list Z)) (text : string)
    (chunks : list (list Z)) :
  tts_stream text = yields chunks ->
  VoicePipeline.speak tts_stream text
  = (VoicePipeline.CallTTS text :: map speech_delta_event chunks, Ok tt).
Proof.
  intros H. unfold VoicePipeline.speak. rewrite H, stream_speech_yields.
  reflexivity.
Qed.

Lemma text_deltas_speech (chunks : list (list Z)) :
  text_deltas (map speech_delta_event chunks) = [].
Proof.
  induction chunks as [|c rest IH]; [reflexivity|].
  cbn [map text_deltas flat_map] in *. unfold speech_delta_event at 1.
  cbn [VoicePipeline._create_event_message VoicePipeline.m_type app].
  exact IH.
Qed.

Lemma tts_calls_speech (chunks : list (list Z)) :
  tts_calls (map speech_delta_event chunks) = [].
Proof. induction chunks as [|c rest IH]; [reflexivity|exact IH]. Qed.

Lemma event_types_speech (chunks : list (list Z)) :
  event_types (map speech_delta_event chunks)
  = repeat VoicePipeline.AI_RESPONSE_SPEECH_DELTA (List.length chunks).
Proof.
  induction chunks as [|c rest IH]; [reflexivity|].
  cbn [map List.length repeat].
  change (event_types (speech_delta_event c :: map speech_delta_event rest))
    with (VoicePipeline.AI_RESPONSE_SPEECH_DELTA
          :: event_types (map speech_delta_event rest)).
  now rewrite IH.
Qed.

(** The scenario's turn, for a TTS that returns [chunks1] for the first
    sentence and [chunks2] for the second. *)
Lemma greeting_turn_effects (tts_stream : string -> gen (list Z))
    (chunks1 chunks2 : list (list Z)) :
  tts_stream "Hi there!" = yields chunks1 ->
  tts_stream " How are you?" = yields chunks2 ->
  VoicePipeline.agent_turn greeting_agent tts_stream (transcribed "Hello.")
  = ([VoicePipeline.Log (LogInfo "Processing transcript");
      VoicePipeline.Event
        (VoicePipeline._create_event_message VoicePipeline.TRANSCRIPTION_TEXT
           (Some "Hello.") (Some (inject_Z 1)));
      VoicePipeline.CallAgent (Some "Hello.");
      bare_event VoicePipeline.AI_RESPONSE_TEXT_START;
      bare_event VoicePipeline.AI_RESPONSE_SPEECH_START;
      text_delta_event "Hi there!";
      VoicePipeline.CallTTS "Hi there!"]
     ++ map speech_delta_event chunks1
     ++ [text_delta_event " How are you?";
         VoicePipeline.CallTTS " How are you?"]
     ++ map speech_delta_event chunks2
     ++ [bare_event VoicePipeline.AI_RESPONSE_TEXT_END;
         bare_event VoicePipeline.AI_RESPONSE_SPEECH_END],
     Ok tt).
Proof.
  intros H1 H2.
  unfold VoicePipeline.agent_turn, greeting_agent.
  cbn [transcript transcribed timestamp yields fold_right].
  rewrite (consume_chunk_without_ending tts_stream "Hi" _ "" true true eq_refl).
  cbn [append].
  rewrite (consume_chunk_without_ending tts_stream " there" _ "Hi" false true
             eq_refl).
  cbn [append].
  rewrite (consume_chunk_at_last_ending tts_stream "! How" _ "Hi there"
             false true "Hi there" "!" " How" eq_refl
             (or_intror (or_introl eq_refl)) eq_refl).
  change (append "Hi there" (String "!"%char EmptyString)) with "Hi there!".
  rewrite (speak_yields tts_stream "Hi there!" chunks1 H1).
  rewrite (consume_chunk_without_ending tts_stream " are" _ " How" false false
             eq_refl).
  cbn [append].
  rewrite (consume_chunk_at_last_ending tts_stream " you?" _ " How are"
             false false " How are you" "?" "" eq_refl
             (or_intror (or_intror (or_introl eq_refl))) eq_refl).
  change (append " How are you" (String "?"%char EmptyString))
    with " How are you?".
  rewrite (speak_yields tts_stream " How are you?" chunks2 H2).
  cbn [VoicePipeline.consume_agent_stream VoicePipeline.bind VoicePipeline.ret
       VoicePipeline.tell VoicePipeline._add_event_message app strip_nonempty].
  rewrite app_nil_r, <- !app_assoc. reflexivity.
Qed.

Lemma text_deltas_app (l1 l2 : list VoicePipeline.effect) :
  text_deltas (l1 ++ l2) = text_deltas l1 ++ text_deltas l2.
Proof. apply flat_map_app. Qed.

Lemma tts_calls_app (l1 l2 : list VoicePipeline.effect) :
  tts_calls (l1 ++ l2) = tts_calls l1 ++ tts_calls l2.
Proof. apply flat_map_app. Qed.

Lemma event_types_app (l1 l2 : list VoicePipeline.effect) :
  event_types (l1 ++ l2) = event_types l1 ++ event_types l2.
Proof. apply flat_map_app. Qed.

(** C7. On a chunk that brings a sentence ending into the rolling buffer,
    the driver cuts the buffer after its rightmost ending character (one
    of [.], [!], [?], newline): it emits the complete prefix as an
    [ai.response.text.delta], then makes one TTS stream call for that
    text, and keeps the remainder; on a chunk without an ending it only
    extends the buffer. For the chunks ["Hi"], [" there"], ["! How"],
    [" are"], [" you?"] the text deltas are ["Hi there!"] then
    [" How are you?"], each followed by its TTS call, and
    [ai.response.speech.start] is emitted once, before the first speech
    delta. *)
Theorem agent_sentence_streaming :
  (forall (tts_stream : string -> gen (list Z)) (chunk : string)
          (rest : gen string) (text_buffer : string)
          (first_response_chunk first_speech_chunk : bool)
          (p : string) (e : ascii) (remainder : string),
      append text_buffer chunk = append p (String e remainder) ->
      In e VoicePipeline.sentence_endings ->
      VoicePipeline.has_sentence_ending remainder = false ->
      VoicePipeline.consume_agent_stream tts_stream (Yield chunk rest)
        text_buffer first_response_chunk first_speech_chunk
      = VoicePipeline.bind
          (if first_response_chunk
           then VoicePipeline._add_event_message
                  VoicePipeline.AI_RESPONSE_TEXT_START None None
           else VoicePipeline.ret tt)
          (fun _ =>
           VoicePipeline.bind
             (if first_speech_chunk
              then VoicePipeline._add_event_message
                     VoicePipeline.AI_RESPONSE_SPEECH_START None None
              else VoicePipeline.ret tt)
             (fun _ =>
              VoicePipeline.bind
                (VoicePipeline._add_event_message
                   VoicePipeline.AI_RESPONSE_TEXT_DELTA
                   (Some (append p (String e EmptyString))) None)
                (fun _ =>
                 VoicePipeline.bind
                   (VoicePipeline.speak tts_stream
                      (append p (String e EmptyString)))
                   (fun _ =>
                    VoicePipeline.consume_agent_stream tts_stream rest
                      remainder false false)))))
  /\ (forall (tts_stream : string -> gen (list Z)) (chunk : string)
             (rest : gen string) (text_buffer : string)
             (first_response_chunk first_speech_chunk : bool),
         VoicePipeline.has_sentence_ending (append text_buffer chunk) = false ->
         VoicePipeline.consume_agent_stream tts_stream (Yield chunk rest)
           text_buffer first_response_chunk first_speech_chunk
         = VoicePipeline.bind
             (if first_response_chunk
              then VoicePipeline._add_event_message
                     VoicePipeline.AI_RESPONSE_TEXT_START None None
              else VoicePipeline.ret tt)
             (fun _ =>
              VoicePipeline.consume_agent_stream tts_stream rest
                (append text_buffer chunk) false first_speech_chunk))
  /\ (forall (tts_stream : string -> gen (list Z))
             (chunks1 chunks2 : list (list Z)),
         tts_stream "Hi there!" = yields chunks1 ->
         tts_stream " How are you?" = yields chunks2 ->
         let turn := VoicePipeline.agent_turn greeting_agent tts_stream
                       (transcribed "Hello.") in
         snd turn = Ok tt
         /\ text_deltas (fst turn) = ["Hi there!"; " How are you?"]
         /\ tts_calls (fst turn) = ["Hi there!"; " How are you?"]
         /\ event_types (fst turn)
            = [VoicePipeline.TRANSCRIPTION_TEXT;
               VoicePipeline.AI_RESPONSE_TEXT_START;
               VoicePipeline.AI_RESPONSE_SPEECH_START;
               VoicePipeline.AI_RESPONSE_TEXT_DELTA]
              ++ repeat VoicePipeline.AI_RESPONSE_SPEECH_DELTA
                   (List.length chunks1)
              ++ [VoicePipeline.AI_RESPONSE_TEXT_DELTA]
              ++ repeat VoicePipeline.AI_RESPONSE_SPEECH_DELTA
                   (List.length chunks2)
              ++ [VoicePipeline.AI_RESPONSE_TEXT_END;
                  VoicePipeline.AI_RESPONSE_SPEECH_END]).
Proof.
  split; [|split].
  - intros. now apply consume_chunk_at_last_ending.
  - intros. now apply consume_chunk_without_ending.
  - intros tts_stream chunks1 chunks2 H1 H2 turn. subst turn.
    rewrite (greeting_turn_effects tts_stream chunks1 chunks2 H1 H2).
    cbn [fst snd]. split; [reflexivity|].
    rewrite !text_deltas_app, !tts_calls_app, !event_types_app.
    rewrite !text_deltas_speech, !tts_calls_speech, !event_types_speech.
    repeat split.
Qed.

Lemma agent_sentence_streaming_witness :
  VoicePipeline.consume_agent_stream tone_tts (Yield "! How" Return)
    "Hi there" false true
  = VoicePipeline.bind (VoicePipeline.ret tt)
      (fun _ =>
       VoicePipeline.bind
         (VoicePipeline._add_event_message
            VoicePipeline.AI_RESPONSE_SPEECH_START None None)
         (fun _ =>
          VoicePipeline.bind
            (VoicePipeline._add_event_message
               VoicePipeline.AI_RESPONSE_TEXT_DELTA
               (Some (append "Hi there" (String "!"%char EmptyString))) None)
            (fun _ =>
             VoicePipeline.bind
               (VoicePipeline.speak tone_tts
                  (append "Hi there" (String "!"%char EmptyString)))
               (fun _ =>
                VoicePipeline.consume_agent_stream tone_tts Return
                  " How" false false))))
  /\ VoicePipeline.consume_agent_stream tone_tts (Yield " there" Return)
       "Hi" false true
     = VoicePipeline.bind (VoicePipeline.ret tt)
         (fun _ =>
          VoicePipeline.consume_agent_stream tone_tts Return
            (append "Hi" " there") false true)
  /\ (let turn := VoicePipeline.agent_turn greeting_agent tone_tts
                    (transcribed "Hello.") in
      snd turn = Ok tt
      /\ text_deltas (fst turn) = ["Hi there!"; " How are you?"]
      /\ tts_calls (fst turn) = ["Hi there!"; " How are you?"]
      /\ event_types (fst turn)
         = [VoicePipeline.TRANSCRIPTION_TEXT;
            VoicePipeline.AI_RESPONSE_TEXT_START;
            VoicePipeline.AI_RESPONSE_SPEECH_START;
            VoicePipeline.AI_RESPONSE_TEXT_DELTA]
           ++ repeat VoicePipeline.AI_RESPONSE_SPEECH_DELTA
                (List.length [[1; 2]])
           ++ [VoicePipeline.AI_RESPONSE_TEXT_DELTA]
           ++ repeat VoicePipeline.AI_RESPONSE_SPEECH_DELTA
                (List.length [[1; 2]])
           ++ [VoicePipeline.AI_RESPONSE_TEXT_END;
               VoicePipeline.AI_RESPONSE_SPEECH_END]).
Proof.
  destruct agent_sentence_streaming as (Hcut & Hgrow & Hscenario).
  split; [|split].
  - apply (Hcut tone_tts "! How" Return "Hi there" false true
             "Hi there" "!"%char " How").
    + reflexivity.
    + right. left. reflexivity.
    + reflexivity.
  - apply (Hgrow tone_tts " there" Return "Hi" false true). reflexivity.
  - apply (Hscenario tone_tts [[1; 2]] [[1; 2]]); reflexivity.
Defined.

(** * Further properties of the pipeline code *)

(** ** Queue capacity *)

Lemma queue_step_size {A} (q : Queue.t A) (op : queue_op A) :
  0 < Queue.maxsize q ->
  Queue.qsize q <= Queue.maxsize q ->
  Queue.qsize (fst (queue_step q op)) <= Queue.maxsize q.
Proof.
  intros Hpos Hsize. destruct op as [x|]; cbn [queue_step].
  - unfold VoicePipeline._add_queue_no_wait, Queue.put_nowait, Queue.full.
    destruct (Queue.maxsize q <=? 0) eqn:E0; [apply Z.leb_le in E0; lia|].
    destruct (Queue.maxsize q <=? Queue.qsize q) eqn:E; cbn [fst]; [exact Hsize|].
    apply Z.leb_gt in E. unfold Queue.qsize in *. cbn [Queue.items].
    rewrite len_app. change (len [x]) with 1. lia.
  - unfold Queue.get_nowait.
    destruct (Queue.items q) as [|y ys] eqn:Hitems; cbn [fst]; [exact Hsize|].
    unfold Queue.qsize in *. rewrite Hitems in Hsize. cbn [Queue.items].
    unfold len in *. cbn [List.length] in Hsize. lia.
Qed.

(** X1. A queue with a positive capacity that starts within it never holds
    more items than the capacity, whatever offers and takes follow. *)
Theorem queue_run_within_capacity :
  forall (A : Type) (ops : list (queue_op A)) (q : Queue.t A),
    0 < Queue.maxsize q ->
    Queue.qsize q <= Queue.maxsize q ->
    Queue.qsize (fst (queue_run q ops)) <= Queue.maxsize q
    /\ Queue.maxsize (fst (queue_run q ops)) = Queue.maxsize q.
Proof.
  intros A ops. induction ops as [|op rest IH]; intros q Hpos Hsize.
  - split; [exact Hsize|reflexivity].
  - cbn [queue_run].
    pose proof (queue_step_size q op Hpos Hsize) as Hstep.
    pose proof (queue_step_maxsize q op) as Hmax.
    destruct (queue_step q op) as [q1 o]. cbn [fst] in Hstep, Hmax.
    destruct (IH q1) as [H1 H2]; [lia|lia|].
    destruct (queue_run q1 rest) as [q2 os]. cbn [fst] in *. split; lia.
Qed.

Lemma queue_run_within_capacity_witness :
  Queue.qsize
    (fst (queue_run (pipeline_queue [1; 2; 3])
            [Offer 4; Take; Offer 5; Offer 6]))
  <= Queue.maxsize (pipeline_queue [1; 2; 3])
  /\ Queue.maxsize
       (fst (queue_run (pipeline_queue [1; 2; 3])
               [Offer 4; Take; Offer 5; Offer 6]))
     = Queue.maxsize (pipeline_queue [1; 2; 3]).
Proof.
  apply (queue_run_within_capacity Z [Offer 4; Take; Offer 5; Offer 6]
           (pipeline_queue [1; 2; 3])).
  - reflexivity.
  - vm_compute. discriminate.
Defined.

(** X2. While the items queued and the items still to be offered fit in
    the capacity together, nothing is dropped: every offered item is
    accepted, in the order offered. *)
Theorem queue_run_no_drop_with_room :
  forall (A : Type) (ops : list (queue_op A)) (q : Queue.t A),
    Queue.qsize q + len (offered ops) <= Queue.maxsize q ->
    accepted (snd (queue_run q ops)) = offered ops.
Proof.
  intros A ops. induction ops as [|op rest IH]; intros q Hroom; [reflexivity|].
  assert (Hrest : 0 <= len (offered rest)) by (unfold len; lia).
  assert (Hq : 0 <= Queue.qsize q) by (unfold Queue.qsize, len; lia).
  cbn [queue_run]. destruct op as [x|]; cbn [queue_step].
  - change (offered (Offer x :: rest)) with ([x] ++ offered rest) in *.
    rewrite len_app in Hroom. change (len [x]) with 1 in Hroom.
    unfold VoicePipeline._add_queue_no_wait, Queue.put_nowait, Queue.full.
    destruct (Queue.maxsize q <=? 0) eqn:E0; [apply Z.leb_le in E0; lia|].
    destruct (Queue.maxsize q <=? Queue.qsize q) eqn:E;
      [apply Z.leb_le in E; lia|].
    specialize (IH {| Queue.maxsize := Queue.maxsize q;
                      Queue.items := Queue.items q ++ [x] |}).
    destruct (queue_run _ rest) as [q2 os]. cbn [snd] in *.
    change (accepted (Enqueued x :: os)) with ([x] ++ accepted os).
    f_equal. apply IH. unfold Queue.qsize in *. cbn [Queue.items Queue.maxsize].
    rewrite len_app. change (len [x]) with 1. lia.
  - change (offered (Take :: rest)) with (offered rest) in *.
    unfold Queue.get_nowait.
    destruct (Queue.items q) as [|y ys] eqn:Hitems.
    + specialize (IH q Hroom). destruct (queue_run q rest) as [q2 os].
      exact IH.
    + specialize (IH {| Queue.maxsize := Queue.maxsize q; Queue.items := ys |}).
      destruct (queue_run _ rest) as [q2 os]. cbn [snd] in *.
      change (accepted (Taken y :: os)) with (accepted os).
      apply IH. unfold Queue.qsize in *. cbn [Queue.items Queue.maxsize].
      rewrite Hitems in Hroom. unfold len in *. cbn [List.length] in Hroom. lia.
Qed.

Lemma queue_run_no_drop_with_room_witness :
  accepted (snd (queue_run (pipeline_queue [1; 2; 3])
                   [Offer 4; Take; Offer 5; Offer 6]))
  = offered [Offer 4; Take; Offer 5; Offer 6].
Proof.
  apply (queue_run_no_drop_with_room Z [Offer 4; Take; Offer 5; Offer 6]
           (pipeline_queue [1; 2; 3])).
  vm_compute. discriminate.
Defined.

(** ** Ingest over a stream of messages *)

Lemma on_receive_appends
    (json_loads : string -> result json) (datetime_max : Z)
    (self : VoicePipeline.t) (data : VoicePipeline.ws_data) :
  let self' := fst (VoicePipeline.on_receive json_loads datetime_max self data) in
  VoicePipeline.config self' = VoicePipeline.config self
  /\ exists added,
       Queue.items (VoicePipeline.incoming_queue self')
       = Queue.items (VoicePipeline.incoming_queue self) ++ added
       /\ (List.length added
           <= if carries_frame (header_bytes (VoicePipeline.config self)) data
              then 1 else 0)%nat
       /\ Forall is_raw_frame added.
Proof.
  unfold VoicePipeline.on_receive, carries_frame.
  assert (Hnone : forall r : result unit,
            VoicePipeline.config (fst (self, r)) = VoicePipeline.config self
            /\ exists added,
                 Queue.items (VoicePipeline.incoming_queue (fst (self, r)))
                 = Queue.items (VoicePipeline.incoming_queue self) ++ added
                 /\ (List.length added <= 0)%nat /\ Forall is_raw_frame added).
  { intros r. split; [reflexivity|]. exists []. cbn.
    rewrite app_nil_r. repeat split; auto. }
  assert (Htext :
    let self' := fst
      match VoicePipeline.ws_text data with
      | Some text =>
          match json_loads text with
          | Raise e => (self, Raise e)
          | Ok data0 =>
              match json_getitem data0 "type" with
              | Raise e => (self, Raise e)
              | Ok type =>
                  if json_eq_str type "tts_start"
                  then (VoicePipeline.set_is_tts_playing self true, Ok tt)
                  else if json_eq_str type "tts_end"
                       then (VoicePipeline.set_is_tts_playing self false, Ok tt)
                       else (self, Ok tt)
              end
          end
      | None => (self, Ok tt)
      end in
    VoicePipeline.config self' = VoicePipeline.config self
    /\ exists added,
         Queue.items (VoicePipeline.incoming_queue self')
         = Queue.items (VoicePipeline.incoming_queue self) ++ added
         /\ (List.length added <= 0)%nat /\ Forall is_raw_frame added).
  { destruct (VoicePipeline.ws_text data) as [text|]; [|apply Hnone].
    destruct (json_loads text) as [value|e]; [|apply Hnone].
    destruct (json_getitem value "type") as [type|e]; [|apply Hnone].
    destruct (json_eq_str type "tts_start");
      [|destruct (json_eq_str type "tts_end"); [|apply Hnone]];
      (split; [reflexivity|]; exists []; cbn; rewrite app_nil_r;
       repeat split; auto). }
  assert (Hweak : forall (s : VoicePipeline.t) (b : bool),
    (VoicePipeline.config s = VoicePipeline.config self
     /\ exists added,
          Queue.items (VoicePipeline.incoming_queue s)
          = Queue.items (VoicePipeline.incoming_queue self) ++ added
          /\ (List.length added <= 0)%nat /\ Forall is_raw_frame added) ->
    VoicePipeline.config s = VoicePipeline.config self
    /\ exists added,
         Queue.items (VoicePipeline.incoming_queue s)
         = Queue.items (VoicePipeline.incoming_queue self) ++ added
         /\ (List.length added <= if b then 1 else 0)%nat
         /\ Forall is_raw_frame added).
  { intros s b (Hc & added & Hq & Hl & Hf). split; [exact Hc|].
    exists added. repeat split; auto. destruct b; lia. }
  cbv zeta in *.
  destruct (VoicePipeline.ws_bytes data) as [raw|];
    [|exact (Hweak _ false Htext)].
  destruct (VoicePipeline.is_tts_playing self);
    [exact (Hweak _ (negb (len raw <? header_bytes (VoicePipeline.config self)))
              Htext)|].
  destruct (len raw <? header_bytes (VoicePipeline.config self)); cbn [negb].
  { split; [reflexivity|]. exists []. cbn. rewrite app_nil_r.
    repeat split; auto. }
  destruct (struct_unpack_HQ (py_slice_to raw 10)) as [[flag ts_ms]|e];
    [|exact (Hweak self true (Hnone (Raise e)))].
  destruct (VoicePipeline.datetime_roundtrip datetime_max (ts_ms / 1000))
    as [ts|e]; [|exact (Hweak self true (Hnone (Raise e)))].
  unfold VoicePipeline._add_queue_no_wait, Queue.put_nowait.
  destruct (Queue.full (VoicePipeline.incoming_queue self)).
  - split; [reflexivity|]. exists []. cbn. rewrite app_nil_r.
    repeat split; auto.
  - split; [reflexivity|]. eexists. cbn. split; [reflexivity|].
    split; [cbn; lia|]. constructor; [|constructor].
    split; [reflexivity|]. eexists. reflexivity.
Qed.

Lemma count_frames_received (h : Z) (data : VoicePipeline.ws_data)
    (rest : list VoicePipeline.receive_result) :
  count_frames h (VoicePipeline.Received data :: rest)
  = ((if carries_frame h data then 1 else 0) + count_frames h rest)%nat.
Proof.
  unfold count_frames. cbn [filter].
  destruct (carries_frame h data); reflexivity.
Qed.

(** X3. Ingest only appends to q1: after any stream of messages the
    earlier contents are still at the front, at most one frame was added
    per binary message that is at least [header_bytes] long, and each
    added frame holds raw bytes and no transcript. *)
Theorem ingest_appends_at_most_one_frame_per_message :
  forall (json_loads : string -> result json) (datetime_max : Z)
         (received : list VoicePipeline.receive_result)
         (self : VoicePipeline.t),
    let self' :=
      fst (VoicePipeline.incoming_loop json_loads datetime_max self received) in
    VoicePipeline.config self' = VoicePipeline.config self
    /\ exists added,
         Queue.items (VoicePipeline.incoming_queue self')
         = Queue.items (VoicePipeline.incoming_queue self) ++ added
         /\ (List.length added
             <= count_frames (header_bytes (VoicePipeline.config self))
                             received)%nat
         /\ Forall is_raw_frame added.
Proof.
  intros json_loads dmax received.
  induction received as [|r rest IH]; intros self; cbv zeta.
  - split; [reflexivity|]. exists []. cbn. rewrite app_nil_r.
    repeat split; auto.
  - cbn [VoicePipeline.incoming_loop]. destruct r as [|data|e].
    + exact (IH self).
    + destruct (on_receive_appends json_loads dmax self data)
        as (Hc & added & Hq & Hl & Hf).
      rewrite count_frames_received.
      destruct (VoicePipeline.on_receive json_loads dmax self data)
        as [self1 [u|e]]; cbn [fst] in *.
      * destruct (IH self1) as (Hc' & added' & Hq' & Hl' & Hf').
        split; [congruence|]. exists (added ++ added').
        rewrite Hq', Hq, <- app_assoc. split; [reflexivity|].
        split; [|now apply Forall_app].
        rewrite length_app. rewrite Hc in Hl'.
        destruct (carries_frame (header_bytes (VoicePipeline.config self)) data);
          cbn [List.length]; lia.
      * split; [exact Hc|]. exists added. cbn.
        split; [exact Hq|]. split; [|exact Hf].
        destruct (carries_frame (header_bytes (VoicePipeline.config self)) data);
          cbn [List.length]; lia.
    + split; [reflexivity|]. exists []. cbn. rewrite app_nil_r.
      repeat split; auto. lia.
Qed.

Lemma on_receive_passed_over
    (json_loads : string -> result json) (datetime_max : Z)
    (self : VoicePipeline.t) (data : VoicePipeline.ws_data) :
  passed_over json_loads (VoicePipeline.Received data) = true ->
  VoicePipeline.on_receive json_loads datetime_max self data = (self, Ok tt).
Proof.
  unfold passed_over, VoicePipeline.on_receive.
  destruct (VoicePipeline.ws_bytes data); [discriminate|].
  destruct (VoicePipeline.ws_text data) as [text|]; [|reflexivity].
  destruct (json_loads text) as [value|e]; [|discriminate].
  destruct (json_getitem value "type") as [type|e]; [|discriminate].
  destruct (json_eq_str type "tts_start"); [discriminate|].
  destruct (json_eq_str type "tts_end"); [discriminate|reflexivity].
Qed.

(** X4. Timeouts, messages with neither bytes nor text, and control
    messages of an unknown type leave no mark: taking them out of the
    stream changes neither the final pipeline state (queues, TTS flag,
    log) nor how the task ends. *)
Theorem ingest_skips_passed_over_messages :
  forall (json_loads : string -> result json) (datetime_max : Z)
         (received : list VoicePipeline.receive_result)
         (self : VoicePipeline.t),
    VoicePipeline.incoming_loop json_loads datetime_max self received
    = VoicePipeline.incoming_loop json_loads datetime_max self
        (filter (fun r => negb (passed_over json_loads r)) received).
Proof.
  intros json_loads dmax received.
  induction received as [|r rest IH]; intros self; [reflexivity|].
  cbn [filter]. destruct (passed_over json_loads r) eqn:Hp; cbn [negb].
  - destruct r as [|data|e]; [exact (IH self)| |discriminate].
    cbn [VoicePipeline.incoming_loop].
    rewrite (on_receive_passed_over json_loads dmax self data Hp).
    exact (IH self).
  - destruct r as [|data|e]; [discriminate| |reflexivity].
    cbn [VoicePipeline.incoming_loop].
    destruct (VoicePipeline.on_receive json_loads dmax self data)
      as [self1 [u|e]]; [exact (IH self1)|reflexivity].
Qed.

(** X5. A text message that is valid JSON but has no ["type"] to read (an
    object without that key, or a value that is not an object) ends
    Ingest like malformed JSON does: [data["type"]] raises [KeyError] or
    [TypeError], the exception is logged, and nothing after the message is
    read. *)
Theorem ingest_control_without_type_ends_task :
  forall (json_loads : string -> result json) (datetime_max : Z)
         (self : VoicePipeline.t) (text : string) (value : json)
         (rest : list VoicePipeline.receive_result),
    json_loads text = Ok value ->
    lacks_type value = true ->
    VoicePipeline.incoming_loop json_loads datetime_max self
      (VoicePipeline.Received (text_message text) :: rest)
    = (VoicePipeline.logged self
         [LogException "Exception at process_incoming_data"
            (getitem_error value)],
       Caught (getitem_error value)).
Proof.
  intros json_loads dmax self text value rest Hload Hlacks.
  cbn [VoicePipeline.incoming_loop].
  unfold VoicePipeline.on_receive, text_message.
  cbn [VoicePipeline.ws_bytes VoicePipeline.ws_text]. rewrite Hload.
  destruct value as [| b | n | l | s | els | members];
    try reflexivity.
  cbn [lacks_type json_getitem getitem_error] in *.
  destruct (assoc_lookup "type" members); [discriminate|reflexivity].
Qed.

Lemma ingest_control_without_type_ends_task_witness :
  VoicePipeline.incoming_loop json_loads_ctl datetime_max_utc default_pipeline
    [VoicePipeline.Received (text_message (single_member_text "kind" "tts_start"));
     VoicePipeline.Received header_only_message]
  = (VoicePipeline.logged default_pipeline
       [LogException "Exception at process_incoming_data"
          (getitem_error (JObj [("kind", JStr "tts_start")]))],
     Caught (getitem_error (JObj [("kind", JStr "tts_start")]))).
Proof.
  apply (ingest_control_without_type_ends_task json_loads_ctl datetime_max_utc
           default_pipeline (single_member_text "kind" "tts_start")
           (JObj [("kind", JStr "tts_start")])
           [VoicePipeline.Received header_only_message]).
  - reflexivity.
  - reflexivity.
Defined.

(** ** The resampler *)

Lemma frombuffer_zero_bytes (n : nat) :
  VADProcessor.frombuffer_int16 (repeat x00 (2 * n)) = Ok (repeat 0 n).
Proof.
  induction n as [|n IH]; [reflexivity|].
  replace (2 * S n)%nat with (S (S (2 * n))) by lia.
  cbn [repeat VADProcessor.frombuffer_int16]. rewrite IH. reflexivity.
Qed.

Lemma fold_max_zeros (n : nat) :
  fold_left Z.max (map VADProcessor.np_abs_int16 (repeat 0 n)) 0 = 0.
Proof. induction n as [|n IH]; [reflexivity|exact IH]. Qed.

(** X6. A payload of zero bytes holding at least one sample is answered
    without the polyphase filter: the result is [L] zero samples, where
    [L] is the number of input samples divided by the ratio, rounded up. *)
Theorem audio_resampler_silence :
  forall (resample_poly : list Z -> Z -> result (list Q))
         (n : nat) (resample_ratio : Z),
    0 < resample_ratio ->
    exists L : Z,
      VADProcessor.audio_resampler resample_poly
        (repeat x00 (2 * S n)) resample_ratio
      = Ok (repeat 0 (Z.to_nat L))
      /\ resample_ratio * (L - 1) < Z.of_nat (S n) <= resample_ratio * L.
Proof.
  intros resample_poly n ratio Hratio.
  exists (- (- Z.of_nat (S n) / ratio)).
  unfold VADProcessor.audio_resampler. rewrite frombuffer_zero_bytes.
  cbn [repeat map VADProcessor.np_max].
  change (VADProcessor.np_abs_int16 0) with 0. rewrite fold_max_zeros.
  cbn [Z.eqb].
  destruct (ratio =? 0) eqn:E0; [apply Z.eqb_eq in E0; lia|].
  change (0 :: repeat 0 n) with (repeat 0 (S n)).
  unfold len. rewrite repeat_length.
  assert (Hdiv : ratio * (- (- Z.of_nat (S n) / ratio) - 1) < Z.of_nat (S n)
                 <= ratio * - (- Z.of_nat (S n) / ratio)).
  { pose proof (Z.div_mod (- Z.of_nat (S n)) ratio ltac:(lia)) as Hdm.
    pose proof (Z.mod_pos_bound (- Z.of_nat (S n)) ratio Hratio) as Hmod.
    nia. }
  destruct (- (- Z.of_nat (S n) / ratio) <? 0) eqn:E; [apply Z.ltb_lt in E; nia|].
  split; [reflexivity|exact Hdiv].
Qed.

Lemma audio_resampler_silence_witness :
  exists L : Z,
    VADProcessor.audio_resampler resample_decimate (repeat x00 (2 * 4)) 3
    = Ok (repeat 0 (Z.to_nat L))
    /\ 3 * (L - 1) < Z.of_nat 4 <= 3 * L.
Proof.
  apply (audio_resampler_silence resample_decimate 3 3). lia.
Defined.

Lemma frombuffer_odd (n : nat) :
  forall bs : list byte,
    List.length bs = S (2 * n) ->
    VADProcessor.frombuffer_int16 bs = Raise ValueError.
Proof.
  induction n as [|n IH]; intros bs Hlen.
  - destruct bs as [|b [|c rest]]; try discriminate. reflexivity.
  - destruct bs as [|b [|c rest]]; try (cbn in Hlen; lia).
    cbn [VADProcessor.frombuffer_int16]. rewrite IH; [reflexivity|].
    cbn [List.length] in Hlen. lia.
Qed.

(** X7. A payload with an odd number of bytes cannot be read as int16
    samples: [process_audio_chunk] raises [ValueError] and comes back with
    an empty buffer, whatever the buffer held. *)
Theorem process_audio_chunk_odd_payload :
  forall (resample_poly : list Z -> Z -> result (list Q))
         (get_speech_timestamps :
            list Z -> Z -> Z -> result (list VADProcessor.speech_timestamp))
         (self : VADProcessor.t) (flag : Z) (timestamp : Q)
         (transcript : option string) (raw : list byte) (n : nat),
    List.length raw = S (2 * n) ->
    VADProcessor.process_audio_chunk resample_poly get_speech_timestamps self
      {| flag := flag; timestamp := timestamp; audio := AudioBytes raw;
         transcript := transcript |}
    = (VADProcessor.set_audio_buffer self [], Raise ValueError).
Proof.
  intros resample_poly vad self flag timestamp transcript raw n Hlen.
  unfold VADProcessor.process_audio_chunk, VADProcessor._resample_audio,
    VADProcessor.audio_resampler, VADProcessor.audio_bytes_of.
  cbn [audio]. rewrite (frombuffer_odd n raw Hlen). reflexivity.
Qed.

Lemma process_audio_chunk_odd_payload_witness :
  VADProcessor.process_audio_chunk resample_decimate (vad_reports [])
    (vad_holding 5 1000)
    {| flag := 0; timestamp := inject_Z 1; audio := AudioBytes [x01; x02; x03];
       transcript := None |}
  = (VADProcessor.set_audio_buffer (vad_holding 5 1000) [], Raise ValueError).
Proof.
  apply (process_audio_chunk_odd_payload resample_decimate (vad_reports [])
           (vad_holding 5 1000) 0 (inject_Z 1) None [x01; x02; x03] 1).
  reflexivity.
Defined.

Lemma clip_astype_int16_range (x : Q) : is_int16 (VADProcessor.clip_astype_int16 x).
Proof.
  unfold VADProcessor.clip_astype_int16, is_int16.
  set (c := if Qle_bool x (-32768 # 1) then (-32768 # 1)
            else if Qle_bool (32767 # 1) x then (32767 # 1) else x).
  assert (Hc : (-32768 # 1 <= c)%Q /\ (c <= 32767 # 1)%Q).
  { subst c. destruct (Qle_bool x (-32768 # 1)) eqn:E1.
    - split; [apply Qle_refl|]. unfold Qle; cbn; lia.
    - destruct (Qle_bool (32767 # 1) x) eqn:E2.
      + split; [unfold Qle; cbn; lia|apply Qle_refl].
      + split.
        * apply Qlt_le_weak, Qnot_le_lt. intros H.
          apply Qle_bool_iff in H. congruence.
        * apply Qlt_le_weak, Qnot_le_lt. intros H.
          apply Qle_bool_iff in H. congruence. }
  destruct Hc as [Hlo Hhi].
  destruct (Qle_bool 0 c) eqn:E.
  - apply Qle_bool_iff in E.
    pose proof (Qfloor_resp_le _ _ E) as H0.
    pose proof (Qfloor_resp_le _ _ Hhi) as H1.
    change (Qfloor 0) with 0 in H0.
    change (Qfloor (32767 # 1)) with 32767 in H1. lia.
  - pose proof (Qceiling_resp_le _ _ Hlo) as H0.
    assert (Hneg : (c <= 0)%Q).
    { apply Qlt_le_weak, Qnot_le_lt. intros H.
      apply Qle_bool_iff in H. congruence. }
    pose proof (Qceiling_resp_le _ _ Hneg) as H1.
    change (Qceiling (-32768 # 1)) with (-32768) in H0.
    change (Qceiling 0) with 0 in H1. lia.
Qed.

(** X8. Whatever the polyphase filter computes, every sample the
    resampler returns fits in an int16. *)
Theorem audio_resampler_output_is_int16 :
  forall (resample_poly : list Z -> Z -> result (list Q))
         (audio_bytes : list byte) (resample_ratio : Z) (out : list Z),
    VADProcessor.audio_resampler resample_poly audio_bytes resample_ratio
    = Ok out ->
    Forall is_int16 out.
Proof.
  intros resample_poly audio_bytes ratio out H.
  unfold VADProcessor.audio_resampler in H.
  destruct (VADProcessor.frombuffer_int16 audio_bytes) as [samples|e];
    [|discriminate].
  destruct (VADProcessor.np_max (map VADProcessor.np_abs_int16 samples))
    as [peak|e]; [|discriminate].
  destruct (peak =? 0).
  - destruct (ratio =? 0); [discriminate|].
    destruct (- (- len samples / ratio) <? 0); [discriminate|].
    injection H as <-. apply Forall_forall. intros x Hx.
    apply repeat_spec in Hx. subst x. unfold is_int16. lia.
  - destruct (resample_poly samples ratio) as [resampled|e]; [|discriminate].
    injection H as <-. apply Forall_forall. intros x Hx.
    apply in_map_iff in Hx as (q & <- & _). apply clip_astype_int16_range.
Qed.

Lemma audio_resampler_output_is_int16_witness :
  Forall is_int16
    [VADProcessor.clip_astype_int16 (inject_Z (-1));
     VADProcessor.clip_astype_int16 (inject_Z 255)].
Proof.
  apply (audio_resampler_output_is_int16 resample_decimate
           [xff; xff; x00; x00; x00; x00; xff; x00] 3).
  reflexivity.
Defined.

(** ** The buffer across a call *)

Lemma py_slice_from_is_skipn {A} (l : list A) (s : Z) :
  exists k : nat, py_slice_from l s = skipn k l.
Proof.
  exists (Z.to_nat (py_index_clamp (len l) s)).
  unfold py_slice_from, py_slice.
  assert (Hn : 0 <= len l) by (unfold len; lia).
  assert (Hlo : 0 <= py_index_clamp (len l) s <= len l).
  { unfold py_index_clamp. destruct (s <? 0) eqn:E.
    - apply Z.ltb_lt in E. lia.
    - apply Z.ltb_ge in E. lia. }
  assert (Hhi : py_index_clamp (len l) (len l) = len l).
  { unfold py_index_clamp. destruct (len l <? 0) eqn:E.
    - apply Z.ltb_lt in E. lia.
    - lia. }
  rewrite Hhi. apply firstn_all2. rewrite length_skipn. unfold len in *. lia.
Qed.

(** The [except] clause of the processor is the only way a call raises:
    every raising path goes through the buffer reset. *)
Lemma processor_raise_resets_buffer
  (resample_poly : list Z -> Z -> result (list Q))
  (get_speech_timestamps :
     list Z -> Z -> Z -> result (list VADProcessor.speech_timestamp))
  (self self' : VADProcessor.t) (audio_chunk : AudioChunk) (e : exn) :
  VADProcessor.process_audio_chunk resample_poly get_speech_timestamps
    self audio_chunk = (self', Raise e) ->
  self' = VADProcessor.set_audio_buffer self [].
Proof.
  revert resample_poly get_speech_timestamps self self' audio_chunk e.
  intros resample_poly vad self self' chunk e H.
  unfold VADProcessor.process_audio_chunk in H.
  destruct (VADProcessor._resample_audio resample_poly self
              (VADProcessor.audio_bytes_of chunk)) as [audio_int16|e0];
    [|now injection H as <- _].
  cbv zeta in H.
  destruct (negb _); [discriminate|].
  destruct (VADProcessor._get_speech_timestamps vad _) as [ranges|e0];
    [|now injection H as <- _].
  destruct ranges as [|first others].
  - destruct (_ <=? _); discriminate.
  - destruct (_ <=? _); [discriminate|].
    destruct (_ <=? _); [|discriminate].
    destruct (_ =? _); discriminate.
Qed.

(** X9. A call that raises, for whatever reason (payload, resampler or VAD
    model), comes back with nothing but the buffer changed, and the
    buffer empty. *)
Theorem process_audio_chunk_raise_empties_buffer :
  forall (resample_poly : list Z -> Z -> result (list Q))
         (get_speech_timestamps :
            list Z -> Z -> Z -> result (list VADProcessor.speech_timestamp))
         (self self' : VADProcessor.t) (audio_chunk : AudioChunk) (e : exn),
    VADProcessor.process_audio_chunk resample_poly get_speech_timestamps
      self audio_chunk = (self', Raise e) ->
    self' = VADProcessor.set_audio_buffer self [].
Proof.
  intros resample_poly vad self self' chunk e H.
  exact (processor_raise_resets_buffer resample_poly vad self self' chunk e H).
Qed.

Lemma process_audio_chunk_raise_empties_buffer_witness :
  fst (VADProcessor.process_audio_chunk resample_decimate (vad_reports [])
         (vad_holding 5 1000) (silent_frame 3))
  = VADProcessor.set_audio_buffer (vad_holding 5 1000) [].
Proof.
  apply (process_audio_chunk_raise_empties_buffer resample_decimate
           (vad_reports []) (vad_holding 5 1000)
           (fst (VADProcessor.process_audio_chunk resample_decimate
                   (vad_reports []) (vad_holding 5 1000) (silent_frame 3)))
           (silent_frame 3) ValueError).
  reflexivity.
Defined.

(** X10. A call that returns keeps the samples in order and unaltered:
    the new buffer is the old buffer followed by the resampled frame,
    with some samples cut off the front. Nothing else of the processor
    changes. *)
Theorem process_audio_chunk_keeps_a_suffix :
  forall (resample_poly : list Z -> Z -> result (list Q))
         (get_speech_timestamps :
            list Z -> Z -> Z -> result (list VADProcessor.speech_timestamp))
         (self self' : VADProcessor.t) (audio_chunk : AudioChunk)
         (returned : option AudioChunk),
    VADProcessor.process_audio_chunk resample_poly get_speech_timestamps
      self audio_chunk = (self', Ok returned) ->
    exists (audio_int16 : list Z) (k : nat),
      VADProcessor._resample_audio resample_poly self
        (VADProcessor.audio_bytes_of audio_chunk) = Ok audio_int16
      /\ self' = VADProcessor.set_audio_buffer self
                   (skipn k (VADProcessor._audio_buffer self ++ audio_int16)).
Proof.
  intros resample_poly vad self self' chunk returned H.
  unfold VADProcessor.process_audio_chunk in H.
  destruct (VADProcessor._resample_audio resample_poly self
              (VADProcessor.audio_bytes_of chunk)) as [audio_int16|e0];
    [|discriminate].
  exists audio_int16. cbv zeta in H.
  set (buffer := VADProcessor._audio_buffer self ++ audio_int16) in *.
  assert (Hsame : exists k, VADProcessor.set_audio_buffer self buffer
                  = VADProcessor.set_audio_buffer self (skipn k buffer))
    by (exists 0%nat; reflexivity).
  assert (Hall : exists k, VADProcessor.set_audio_buffer self []
                 = VADProcessor.set_audio_buffer self (skipn k buffer)).
  { exists (List.length buffer). now rewrite skipn_all. }
  assert (Hfrom : forall s, exists k,
            VADProcessor.set_audio_buffer
              (VADProcessor.set_audio_buffer self buffer)
              (py_slice_from buffer s)
            = VADProcessor.set_audio_buffer self (skipn k buffer)).
  { intros s. destruct (py_slice_from_is_skipn buffer s) as [k Hk].
    exists k. now rewrite Hk. }
  destruct (negb _).
  { injection H as <- _. destruct Hsame as [k Hk]. exists k. now split. }
  destruct (VADProcessor._get_speech_timestamps vad _) as [ranges|e0];
    [|discriminate].
  destruct ranges as [|first others].
  - destruct (_ <=? _); injection H as <- _.
    + destruct (Hfrom (- VADProcessor.samples_to_keep_of (len buffer)))
        as [k Hk]. exists k. now split.
    + destruct Hsame as [k Hk]. exists k. now split.
  - destruct (_ <=? _).
    { injection H as <- _.
      destruct (Hfrom (VADProcessor.ts_end
                         (last (first :: others) first))) as [k Hk].
      exists k. now split. }
    destruct (_ <=? _).
    + destruct (_ =? _); injection H as <- _.
      * destruct Hall as [k Hk]. exists k. now split.
      * destruct (Hfrom (VADProcessor.ts_start first)) as [k Hk].
        exists k. now split.
    + injection H as <- _. destruct Hsame as [k Hk]. exists k. now split.
Qed.

Lemma process_audio_chunk_keeps_a_suffix_witness :
  exists (audio_int16 : list Z) (k : nat),
    VADProcessor._resample_audio resample_decimate (vad_holding 12680 1000)
      (VADProcessor.audio_bytes_of (silent_frame 1920)) = Ok audio_int16
    /\ short_utterance_rest
       = VADProcessor.set_audio_buffer (vad_holding 12680 1000)
           (skipn k (VADProcessor._audio_buffer (vad_holding 12680 1000)
                     ++ audio_int16)).
Proof.
  apply (process_audio_chunk_keeps_a_suffix resample_decimate
           (vad_reports [speech_range 0 5000]) (vad_holding 12680 1000)
           short_utterance_rest (silent_frame 1920)
           (Some short_utterance_segment)).
  vm_compute. reflexivity.
Defined.

(** X11. Buffer full and no speech in it: the call returns [None] and
    keeps the newest nine tenths of the samples (rounded down), so the
    buffer shrinks. *)
Theorem process_audio_chunk_slides_window :
  forall (resample_poly : list Z -> Z -> result (list Q))
         (get_speech_timestamps :
            list Z -> Z -> Z -> result (list VADProcessor.speech_timestamp))
         (self : VADProcessor.t) (audio_chunk : AudioChunk)
         (audio_int16 : list Z),
    let buffer := VADProcessor._audio_buffer self ++ audio_int16 in
    let keep := 9 * len buffer / 10 in
    VADProcessor._resample_audio resample_poly self
      (VADProcessor.audio_bytes_of audio_chunk) = Ok audio_int16 ->
    Qle_bool (VADProcessor._min_audio_samples self) (inject_Z (len buffer))
    = true ->
    get_speech_timestamps buffer (VADProcessor.audio_sample_rate self)
      (VADProcessor.speech_pad_samples_ms self) = Ok [] ->
    VADProcessor._max_audio_buffer self <= len buffer ->
    2 <= len buffer ->
    VADProcessor.process_audio_chunk resample_poly get_speech_timestamps
      self audio_chunk
    = (VADProcessor.set_audio_buffer self
         (skipn (Z.to_nat (len buffer - keep)) buffer),
       Ok None)
    /\ len (skipn (Z.to_nat (len buffer - keep)) buffer) = keep
    /\ keep < len buffer.
Proof.
  intros resample_poly vad self chunk audio_int16 buffer keep
         Hres Hmin Hvad Hfull Hlen.
  assert (Hkeep : 1 <= keep < len buffer).
  { subst keep. split.
    - apply Z.div_le_lower_bound; lia.
    - apply Z.div_lt_upper_bound; lia. }
  split; [|split; [|lia]].
  - unfold VADProcessor.process_audio_chunk. rewrite Hres. fold buffer.
    cbv zeta.
    cbn [VADProcessor._min_audio_samples VADProcessor._max_audio_buffer
         VADProcessor.set_audio_buffer].
    rewrite Hmin. cbn [negb]. unfold VADProcessor._get_speech_timestamps.
    cbn [VADProcessor._audio_buffer VADProcessor.audio_sample_rate
         VADProcessor.speech_pad_samples_ms VADProcessor.set_audio_buffer].
    rewrite Hvad.
    destruct (VADProcessor._max_audio_buffer self <=? len buffer) eqn:E;
      [|apply Z.leb_gt in E; lia].
    unfold VADProcessor.samples_to_keep_of. fold keep.
    assert (Hslice : py_slice_from buffer (- keep)
                     = skipn (Z.to_nat (len buffer - keep)) buffer).
    { unfold py_slice_from, py_slice, py_index_clamp.
      destruct (- keep <? 0) eqn:E1; [|apply Z.ltb_ge in E1; lia].
      destruct (len buffer <? 0) eqn:E2; [apply Z.ltb_lt in E2; lia|].
      rewrite Z.min_id, Z.max_r by lia.
      replace (- keep + len buffer) with (len buffer - keep) by lia.
      apply firstn_all2. rewrite length_skipn. unfold len in *. lia. }
    rewrite Hslice. reflexivity.
  - unfold len in *. rewrite length_skipn. lia.
Qed.

Lemma process_audio_chunk_slides_window_witness :
  VADProcessor.process_audio_chunk resample_decimate (vad_reports [])
    (vad_holding 319840 0) (silent_frame 1920)
  = (VADProcessor.set_audio_buffer (vad_holding 319840 0)
       (skipn (Z.to_nat (len (VADProcessor._audio_buffer (vad_holding 319840 0)
                              ++ repeat 0 (Z.to_nat 320))
                         - 9 * len (VADProcessor._audio_buffer
                                      (vad_holding 319840 0)
                                    ++ repeat 0 (Z.to_nat 320)) / 10))
          (VADProcessor._audio_buffer (vad_holding 319840 0)
           ++ repeat 0 (Z.to_nat 320))),
     Ok None)
  /\ len (skipn (Z.to_nat (len (VADProcessor._audio_buffer
                                  (vad_holding 319840 0)
                                ++ repeat 0 (Z.to_nat 320))
                           - 9 * len (VADProcessor._audio_buffer
                                        (vad_holding 319840 0)
                                      ++ repeat 0 (Z.to_nat 320)) / 10))
            (VADProcessor._audio_buffer (vad_holding 319840 0)
             ++ repeat 0 (Z.to_nat 320)))
     = 9 * len (VADProcessor._audio_buffer (vad_holding 319840 0)
                ++ repeat 0 (Z.to_nat 320)) / 10
  /\ 9 * len (VADProcessor._audio_buffer (vad_holding 319840 0)
              ++ repeat 0 (Z.to_nat 320)) / 10
     < len (VADProcessor._audio_buffer (vad_holding 319840 0)
            ++ repeat 0 (Z.to_nat 320)).
Proof.
  apply (process_audio_chunk_slides_window resample_decimate (vad_reports [])
           (vad_holding 319840 0) (silent_frame 1920)
           (repeat 0 (Z.to_nat 320))).
  - vm_compute. reflexivity.
  - vm_compute. reflexivity.
  - reflexivity.
  - vm_compute. discriminate.
  - vm_compute. discriminate.
Defined.

(** ** Transcriber *)

Lemma stream_transcript_yields (chunks : list string) :
  forall transcript : string,
    VoicePipeline.stream_transcript (yields chunks) transcript
    = (map transcript_delta_event chunks, Ok (append transcript (join chunks))).
Proof.
  induction chunks as [|c rest IH]; intros transcript.
  - cbn. now rewrite str_append_nil_r.
  - cbn [yields fold_right VoicePipeline.stream_transcript].
    change (fold_right (@Yield string) Return rest) with (yields rest).
    unfold VoicePipeline.bind, VoicePipeline._add_event_message,
      VoicePipeline.tell.
    rewrite IH. cbn [join map app]. now rewrite str_append_assoc.
Qed.

(** X12. For a Segment whose STT stream yields [chunks] and ends, the
    Transcriber emits [user.transcript.start], one text delta per chunk in
    order, then [user.transcript.end]. The start event is stamped with the
    Segment's timestamp unless that timestamp is 0, in which case it is
    stamped with the server's clock like the other events; a delta for an
    empty chunk has no content. The chunk handed on carries the chunks
    joined as its transcript, no audio, and the flag and timestamp it
    came with. *)
Theorem transcribe_turn_brackets_deltas :
  forall (stt_stream : audio_data -> option PipelineConfig -> gen string)
         (config : PipelineConfig) (audio_chunk : AudioChunk)
         (chunks : list string),
    stt_stream (audio audio_chunk) (Some config) = yields chunks ->
    VoicePipeline.transcribe_turn stt_stream config audio_chunk
    = ([VoicePipeline.Log (LogDebug "Transcribing bytes of detected speech");
        VoicePipeline.Event
          {| VoicePipeline.m_type := VoicePipeline.TRANSCRIPTION_START;
             VoicePipeline.m_timestamp :=
               if Qeq_bool (timestamp audio_chunk) 0
               then VoicePipeline.ServerNow
               else VoicePipeline.At (timestamp audio_chunk);
             VoicePipeline.m_content := None |};
        VoicePipeline.CallSTT (audio audio_chunk)]
       ++ map (fun chunk =>
                 VoicePipeline.Event
                   {| VoicePipeline.m_type :=
                        VoicePipeline.TRANSCRIPTION_TEXT_DELTA;
                      VoicePipeline.m_timestamp := VoicePipeline.ServerNow;
                      VoicePipeline.m_content :=
                        if str_nonempty chunk then Some chunk else None |})
              chunks
       ++ [VoicePipeline.Event
             {| VoicePipeline.m_type := VoicePipeline.TRANSCRIPTION_END;
                VoicePipeline.m_timestamp := VoicePipeline.ServerNow;
                VoicePipeline.m_content := None |}],
       Ok {| flag := flag audio_chunk; timestamp := timestamp audio_chunk;
             audio := AudioBytes []; transcript := Some (join chunks) |}).
Proof.
  intros stt_stream config chunk chunks Hstt.
  unfold VoicePipeline.transcribe_turn. rewrite Hstt.
  rewrite stream_transcript_yields.
  cbn [VoicePipeline.bind VoicePipeline.tell VoicePipeline._add_event_message
       VoicePipeline.ret app append].
  reflexivity.
Qed.

Lemma transcribe_turn_brackets_deltas_witness :
  VoicePipeline.transcribe_turn
    (fun a config =>
       match a with
       | AudioSamples samples =>
           STT.GroqSTT.stt_stream (STT.GroqSTT.init two_delta_client)
             samples config
       | AudioBytes _ => Throw AttributeError
       end)
    default_config detected_segment
  = ([VoicePipeline.Log (LogDebug "Transcribing bytes of detected speech");
      VoicePipeline.Event
        {| VoicePipeline.m_type := VoicePipeline.TRANSCRIPTION_START;
           VoicePipeline.m_timestamp := VoicePipeline.At (inject_Z 7);
           VoicePipeline.m_content := None |};
      VoicePipeline.CallSTT (AudioSamples [1; 2; 3]);
      VoicePipeline.Event
        {| VoicePipeline.m_type := VoicePipeline.TRANSCRIPTION_TEXT_DELTA;
           VoicePipeline.m_timestamp := VoicePipeline.ServerNow;
           VoicePipeline.m_content := Some "hello world" |};
      VoicePipeline.Event
        {| VoicePipeline.m_type := VoicePipeline.TRANSCRIPTION_END;
           VoicePipeline.m_timestamp := VoicePipeline.ServerNow;
           VoicePipeline.m_content := None |}],
     Ok {| flag := 0; timestamp := inject_Z 7;
           audio := AudioBytes []; transcript := Some "hello world" |}).
Proof.
  apply (transcribe_turn_brackets_deltas
           (fun a config =>
              match a with
              | AudioSamples samples =>
                  STT.GroqSTT.stt_stream (STT.GroqSTT.init two_delta_client)
                    samples config
              | AudioBytes _ => Throw AttributeError
              end)
           default_config detected_segment ["hello world"]).
  reflexivity.
Defined.








(** ** VADSegmenter stage *)

(** X14. When the processor raises on a frame, the VADSegmenter task
    ends: the processor is left with an empty buffer, nothing is added to
    q2, and the frames behind the failing one stay in q1, unread. *)
Theorem vad_stage_failure_ends_stage :
  forall (resample_poly : list Z -> Z -> result (list Q))
         (get_speech_timestamps :
            list Z -> Z -> Z -> result (list VADProcessor.speech_timestamp))
         (self : VoicePipeline.t) (frame : AudioChunk)
         (pending : list AudioChunk) (vad' : VADProcessor.t) (e : exn)
         (n : nat),
    Queue.items (VoicePipeline.incoming_queue self) = frame :: pending ->
    VADProcessor.process_audio_chunk resample_poly get_speech_timestamps
      (VoicePipeline.vad_processor self) frame = (vad', Raise e) ->
    let run := VoicePipeline.process_audio_chunk resample_poly
                 get_speech_timestamps self (S n) in
    snd run = Caught e
    /\ VADProcessor._audio_buffer (VoicePipeline.vad_processor (fst run)) = []
    /\ Queue.items (VoicePipeline.incoming_queue (fst run)) = pending
    /\ VoicePipeline.processed_audio_queue (fst run)
       = VoicePipeline.processed_audio_queue self.
Proof.
  intros resample_poly vad self frame pending vad' e n Hq Hcall run.
  pose proof (processor_raise_resets_buffer resample_poly vad
                (VoicePipeline.vad_processor self) vad' frame e Hcall) as Hbuf.
  subst run. cbn [VoicePipeline.process_audio_chunk].
  unfold Queue.get_nowait. rewrite Hq.
  cbn [VoicePipeline.vad_processor VoicePipeline.set_incoming_queue].
  rewrite Hcall. cbn. rewrite Hbuf. repeat split.
Qed.

Lemma vad_stage_failure_ends_stage_witness :
  let run := VoicePipeline.process_audio_chunk resample_decimate
               (vad_reports []) pipeline_two_frames 3 in
  snd run = Caught ValueError
  /\ VADProcessor._audio_buffer (VoicePipeline.vad_processor (fst run)) = []
  /\ Queue.items (VoicePipeline.incoming_queue (fst run))
     = [silent_frame 1920]
  /\ VoicePipeline.processed_audio_queue (fst run)
     = VoicePipeline.processed_audio_queue pipeline_two_frames.
Proof.
  apply (vad_stage_failure_ends_stage resample_decimate (vad_reports [])
           pipeline_two_frames (silent_frame 3) [silent_frame 1920]
           (VADProcessor.set_audio_buffer default_vad []) ValueError 2).
  - reflexivity.
  - reflexivity.
Defined.

(** ** AgentDriver: replies without a sentence ending *)

Lemma no_ending_append (a b : string) :
  VoicePipeline.has_sentence_ending (append a b) = false ->
  VoicePipeline.has_sentence_ending a = false
  /\ VoicePipeline.has_sentence_ending b = false.
Proof.
  unfold VoicePipeline.has_sentence_ending. intros H.
  split.
  - destruct (existsb (fun e => str_contains e a) _) eqn:E; [|reflexivity].
    apply existsb_exists in E as (e & He & Hc).
    assert (Hex : existsb (fun e => str_contains e (append a b))
                    VoicePipeline.sentence_endings = true).
    { apply existsb_exists. exists e. split; [exact He|].
      now rewrite str_contains_append, Hc. }
    congruence.
  - destruct (existsb (fun e => str_contains e b) _) eqn:E; [|reflexivity].
    apply existsb_exists in E as (e & He & Hc).
    assert (Hex : existsb (fun e => str_contains e (append a b))
                    VoicePipeline.sentence_endings = true).
    { apply existsb_exists. exists e. split; [exact He|].
      rewrite str_contains_append, Hc. apply orb_true_r. }
    congruence.
Qed.

Lemma consume_without_endings (tts_stream : string -> gen (list Z))
    (chunks : list string) :
  forall (text_buffer : string) (first_response_chunk first_speech_chunk : bool),
    VoicePipeline.has_sentence_ending (append text_buffer (join chunks))
    = false ->
    VoicePipeline.consume_agent_stream tts_stream (yields chunks) text_buffer
      first_response_chunk first_speech_chunk
    = ((if first_response_chunk
        then match chunks with
             | [] => []
             | _ :: _ => [bare_event VoicePipeline.AI_RESPONSE_TEXT_START]
             end
        else []),
       Ok (append text_buffer (join chunks))).
Proof.
  induction chunks as [|c rest IH]; intros buffer frc fsc Hnone.
  - cbn. rewrite str_append_nil_r. now destruct frc.
  - cbn [yields fold_right join] in *.
    change (fold_right (@Yield string) Return rest) with (yields rest).
    rewrite <- str_append_assoc in Hnone.
    destruct (no_ending_append _ _ Hnone) as [Hbc _].
    rewrite (consume_chunk_without_ending tts_stream c (yields rest) buffer
               frc fsc Hbc).
    rewrite (IH (append buffer c) false fsc Hnone).
    rewrite <- str_append_assoc. destruct frc; reflexivity.
Qed.

(** X15. When the agent's reply has no sentence ending and is not blank,
    nothing is spoken until the stream ends: the whole reply then goes out
    as one text delta and one TTS call. [ai.response.speech.start] is
    never emitted in such a turn, although speech deltas and
    [ai.response.speech.end] are. *)
Theorem agent_turn_without_sentence_ending :
  forall (generate_stream : option string -> gen string)
         (tts_stream : string -> gen (list Z)) (audio_chunk : AudioChunk)
         (first : string) (others : list string) (speech : list (list Z)),
    let reply := join (first :: others) in
    generate_stream (transcript audio_chunk) = yields (first :: others) ->
    VoicePipeline.has_sentence_ending reply = false ->
    strip_nonempty reply = true ->
    tts_stream reply = yields speech ->
    let turn := VoicePipeline.agent_turn generate_stream tts_stream
                  audio_chunk in
    turn
    = ([VoicePipeline.Log (LogInfo "Processing transcript");
        VoicePipeline.Event
          (VoicePipeline._create_event_message VoicePipeline.TRANSCRIPTION_TEXT
             (transcript audio_chunk) (Some (timestamp audio_chunk)));
        VoicePipeline.CallAgent (transcript audio_chunk);
        bare_event VoicePipeline.AI_RESPONSE_TEXT_START;
        text_delta_event reply;
        VoicePipeline.CallTTS reply]
       ++ map speech_delta_event speech
       ++ [bare_event VoicePipeline.AI_RESPONSE_TEXT_END;
           bare_event VoicePipeline.AI_RESPONSE_SPEECH_END],
       Ok tt)
    /\ existsb is_speech_start (fst turn) = false.
Proof.
  intros generate_stream tts_stream chunk first others speech reply
         Hgen Hnone Hstrip Htts turn.
  assert (Hturn : turn
    = ([VoicePipeline.Log (LogInfo "Processing transcript");
        VoicePipeline.Event
          (VoicePipeline._create_event_message VoicePipeline.TRANSCRIPTION_TEXT
             (transcript chunk) (Some (timestamp chunk)));
        VoicePipeline.CallAgent (transcript chunk);
        bare_event VoicePipeline.AI_RESPONSE_TEXT_START;
        text_delta_event reply;
        VoicePipeline.CallTTS reply]
       ++ map speech_delta_event speech
       ++ [bare_event VoicePipeline.AI_RESPONSE_TEXT_END;
           bare_event VoicePipeline.AI_RESPONSE_SPEECH_END],
       Ok tt)).
  { subst turn. unfold VoicePipeline.agent_turn. rewrite Hgen.
    rewrite (consume_without_endings tts_stream (first :: others) ""
               true true Hnone).
    change (append "" (join (first :: others))) with reply.
    cbn [VoicePipeline.bind VoicePipeline.tell VoicePipeline._add_event_message
         app].
    rewrite Hstrip. rewrite (speak_yields tts_stream reply speech Htts).
    cbn [VoicePipeline.bind VoicePipeline.tell VoicePipeline._add_event_message
         VoicePipeline.ret app].
    reflexivity. }
  split; [exact Hturn|]. rewrite Hturn. cbn [fst].
  rewrite !existsb_app. cbn.
  assert (Hs : existsb is_speech_start (map speech_delta_event speech) = false).
  { clear. induction speech as [|c rest IH]; [reflexivity|exact IH]. }
  rewrite Hs. reflexivity.
Qed.

Lemma agent_turn_without_sentence_ending_witness :
  let turn := VoicePipeline.agent_turn terse_agent tone_tts
                (transcribed "Hello.") in
  turn
  = ([VoicePipeline.Log (LogInfo "Processing transcript");
      VoicePipeline.Event
        (VoicePipeline._create_event_message VoicePipeline.TRANSCRIPTION_TEXT
           (transcript (transcribed "Hello."))
           (Some (timestamp (transcribed "Hello."))));
      VoicePipeline.CallAgent (transcript (transcribed "Hello."));
      bare_event VoicePipeline.AI_RESPONSE_TEXT_START;
      text_delta_event (join ["Sure"; " thing"]);
      VoicePipeline.CallTTS (join ["Sure"; " thing"])]
     ++ map speech_delta_event [[1; 2]]
     ++ [bare_event VoicePipeline.AI_RESPONSE_TEXT_END;
         bare_event VoicePipeline.AI_RESPONSE_SPEECH_END],
     Ok tt)
  /\ existsb is_speech_start (fst turn) = false.
Proof.
  apply (agent_turn_without_sentence_ending terse_agent tone_tts
           (transcribed "Hello.") "Sure" [" thing"] [[1; 2]]);
    reflexivity.
Defined.

(** ** AgentDriver: what becomes of the reply text *)

Lemma strip_nonempty_nonempty (s : string) :
  strip_nonempty s = true -> str_nonempty s = true.
Proof. destruct s; [discriminate|reflexivity]. Qed.

Lemma text_deltas_delta (text : string) :
  str_nonempty text = true -> text_deltas [text_delta_event text] = [text].
Proof.
  intros H. unfold text_deltas, text_delta_event. cbn [flat_map app].
  cbn [VoicePipeline._create_event_message VoicePipeline.m_type
       VoicePipeline.m_content]. now rewrite H.
Qed.

Lemma maybe_emit_spec (b : bool) (type : VoicePipeline.ResponseEventType) :
  let m := if b then VoicePipeline._add_event_message type None None
           else VoicePipeline.ret tt in
  snd m = Ok tt /\ text_deltas (fst m) = [] /\ tts_calls (fst m) = [].
Proof.
  destruct b; cbv zeta; (split; [reflexivity|]); split;
    try reflexivity; destruct type; reflexivity.
Qed.

Lemma consume_conserves_text (speech : string -> list (list Z))
    (chunks : list string) :
  forall (text_buffer : string) (first_response_chunk first_speech_chunk : bool),
    let r := VoicePipeline.consume_agent_stream
               (fun text => yields (speech text)) (yields chunks) text_buffer
               first_response_chunk first_speech_chunk in
    exists rest_buffer : string,
      snd r = Ok rest_buffer
      /\ tts_calls (fst r) = text_deltas (fst r)
      /\ append (join (text_deltas (fst r))) rest_buffer
         = append text_buffer (join chunks).
Proof.
  induction chunks as [|c rest IH]; intros buffer frc fsc; cbv zeta.
  - exists buffer. cbn. now rewrite str_append_nil_r.
  - cbn [yields fold_right join].
    change (fold_right (@Yield string) Return rest) with (yields rest).
    destruct (VoicePipeline.has_sentence_ending (append buffer c)) eqn:Hany.
    + destruct (last_ending_split (append buffer c) Hany)
        as (p & e & r & He & Hsplit & Hnone & _).
      rewrite (consume_chunk_at_last_ending (fun text => yields (speech text))
                 c (yields rest) buffer frc fsc p e r Hsplit He Hnone).
      destruct (IH r false false) as (rest_buffer & Hsnd & Hpair & Hjoin).
      destruct (maybe_emit_spec frc VoicePipeline.AI_RESPONSE_TEXT_START)
        as (Hs1 & Hd1 & Hc1).
      destruct (maybe_emit_spec fsc VoicePipeline.AI_RESPONSE_SPEECH_START)
        as (Hs2 & Hd2 & Hc2).
      set (complete := append p (String e EmptyString)) in *.
      assert (Hne : str_nonempty complete = true)
        by (subst complete; destruct p; reflexivity).
      rewrite (speak_yields (fun text => yields (speech text)) complete
                 (speech complete) eq_refl).
      exists rest_buffer.
      repeat first [ rewrite bind_result | rewrite bind_effects
                   | rewrite Hs1 | rewrite Hs2
                   | progress cbn [VoicePipeline._add_event_message
                                   VoicePipeline.tell fst snd] ].
      split; [exact Hsnd|].
      fold (text_delta_event complete).
      change (VoicePipeline.CallTTS complete
              :: map speech_delta_event (speech complete))
        with ([VoicePipeline.CallTTS complete]
              ++ map speech_delta_event (speech complete)).
      rewrite !text_deltas_app, !tts_calls_app.
      rewrite Hd1, Hd2, Hc1, Hc2, (text_deltas_delta complete Hne).
      rewrite text_deltas_speech, tts_calls_speech, Hpair.
      cbn [app tts_calls text_deltas flat_map join]. split; [reflexivity|].
      fold (text_deltas (fst (VoicePipeline.consume_agent_stream
              (fun text => yields (speech text)) (yields rest) r false false))).
      rewrite str_append_assoc, Hjoin.
      rewrite <- !str_append_assoc. f_equal. rewrite Hsplit.
      subst complete. rewrite str_append_assoc. reflexivity.
    + rewrite (consume_chunk_without_ending (fun text => yields (speech text))
                 c (yields rest) buffer frc fsc Hany).
      destruct (IH (append buffer c) false fsc)
        as (rest_buffer & Hsnd & Hpair & Hjoin).
      destruct (maybe_emit_spec frc VoicePipeline.AI_RESPONSE_TEXT_START)
        as (Hs1 & Hd1 & Hc1).
      exists rest_buffer. rewrite bind_result, Hs1. split; [exact Hsnd|].
      rewrite bind_effects, Hs1, text_deltas_app, tts_calls_app, Hd1, Hc1.
      cbn [app]. split; [exact Hpair|].
      rewrite Hjoin. now rewrite str_append_assoc.
Qed.

Lemma turn_conserves_text
  (generate_stream : option string -> gen string)
  (speech : string -> list (list Z)) (audio_chunk : AudioChunk)
  (chunks : list string) :
  generate_stream (transcript audio_chunk) = yields chunks ->
  let turn := VoicePipeline.agent_turn generate_stream
                (fun text => yields (speech text)) audio_chunk in
  snd turn = Ok tt
  /\ tts_calls (fst turn) = text_deltas (fst turn)
  /\ exists blank_tail : string,
       append (join (text_deltas (fst turn))) blank_tail = join chunks
       /\ strip_nonempty blank_tail = false.
Proof.
  revert generate_stream speech audio_chunk chunks.
  intros generate_stream speech chunk chunks Hgen turn. subst turn.
  unfold VoicePipeline.agent_turn. rewrite Hgen.
  destruct (consume_conserves_text speech chunks "" true true)
    as (rest_buffer & Hsnd & Hpair & Hjoin).
  destruct (VoicePipeline.consume_agent_stream
              (fun text => yields (speech text)) (yields chunks) "" true true)
    as [w res]. cbn [fst snd] in Hsnd, Hpair, Hjoin. subst res.
  cbn [append] in Hjoin.
  assert (Hhead : forall tail,
    text_deltas (VoicePipeline.Log (LogInfo "Processing transcript")
                 :: VoicePipeline.Event
                      (VoicePipeline._create_event_message
                         VoicePipeline.TRANSCRIPTION_TEXT (transcript chunk)
                         (Some (timestamp chunk)))
                 :: VoicePipeline.CallAgent (transcript chunk) :: tail)
    = text_deltas tail
    /\ tts_calls (VoicePipeline.Log (LogInfo "Processing transcript")
                  :: VoicePipeline.Event
                       (VoicePipeline._create_event_message
                          VoicePipeline.TRANSCRIPTION_TEXT (transcript chunk)
                          (Some (timestamp chunk)))
                  :: VoicePipeline.CallAgent (transcript chunk) :: tail)
       = tts_calls tail) by (intros tail; split; reflexivity).
  cbn [VoicePipeline.bind VoicePipeline.tell VoicePipeline._add_event_message
       VoicePipeline.ret app fst snd].
  destruct (strip_nonempty rest_buffer) eqn:Hstrip.
  - rewrite (speak_yields (fun text => yields (speech text)) rest_buffer
               (speech rest_buffer) eq_refl).
    cbn [VoicePipeline.bind VoicePipeline.tell VoicePipeline._add_event_message
         VoicePipeline.ret app fst snd].
    split; [reflexivity|].
    destruct (Hhead (w ++ VoicePipeline.Event
                 (VoicePipeline._create_event_message
                    VoicePipeline.AI_RESPONSE_TEXT_DELTA (Some rest_buffer) None)
               :: VoicePipeline.CallTTS rest_buffer
                  :: map speech_delta_event (speech rest_buffer) ++
                     [VoicePipeline.Event
                        (VoicePipeline._create_event_message
                           VoicePipeline.AI_RESPONSE_TEXT_END None None);
                      VoicePipeline.Event
                        (VoicePipeline._create_event_message
                           VoicePipeline.AI_RESPONSE_SPEECH_END None None)]))
      as [Hd Hc].
    rewrite Hd, Hc. clear Hd Hc Hhead.
    fold (text_delta_event rest_buffer).
    change (text_delta_event rest_buffer
            :: VoicePipeline.CallTTS rest_buffer
               :: map speech_delta_event (speech rest_buffer) ++
                  [VoicePipeline.Event
                     (VoicePipeline._create_event_message
                        VoicePipeline.AI_RESPONSE_TEXT_END None None);
                   VoicePipeline.Event
                     (VoicePipeline._create_event_message
                        VoicePipeline.AI_RESPONSE_SPEECH_END None None)])
      with ([text_delta_event rest_buffer]
            ++ [VoicePipeline.CallTTS rest_buffer]
            ++ map speech_delta_event (speech rest_buffer)
            ++ [bare_event VoicePipeline.AI_RESPONSE_TEXT_END;
                bare_event VoicePipeline.AI_RESPONSE_SPEECH_END]).
    rewrite !text_deltas_app, !tts_calls_app.
    rewrite text_deltas_speech, tts_calls_speech.
    rewrite (text_deltas_delta rest_buffer
               (strip_nonempty_nonempty rest_buffer Hstrip)).
    rewrite Hpair. cbn [app tts_calls text_deltas flat_map].
    split; [now rewrite !app_nil_r|].
    exists EmptyString. split; [|reflexivity].
    rewrite !app_nil_r, str_append_nil_r.
    rewrite <- Hjoin. clear.
    induction (text_deltas w) as [|d ds IH]; cbn [app join].
    + now rewrite str_append_nil_r.
    + now rewrite IH, str_append_assoc.
  - cbn [VoicePipeline.bind VoicePipeline.tell VoicePipeline._add_event_message
         VoicePipeline.ret app fst snd].
    split; [reflexivity|].
    destruct (Hhead (w ++ [] ++
                     [VoicePipeline.Event
                        (VoicePipeline._create_event_message
                           VoicePipeline.AI_RESPONSE_TEXT_END None None);
                      VoicePipeline.Event
                        (VoicePipeline._create_event_message
                           VoicePipeline.AI_RESPONSE_SPEECH_END None None)]))
      as [Hd Hc].
    cbn [app] in Hd, Hc. rewrite Hd, Hc. clear Hd Hc Hhead.
    rewrite !text_deltas_app, !tts_calls_app, Hpair.
    cbn [app tts_calls text_deltas flat_map]. rewrite !app_nil_r.
    split; [reflexivity|]. exists rest_buffer. split; [exact Hjoin|exact Hstrip].
Qed.

(** X16. With an agent stream that yields [chunks] and ends, and a TTS
    that does not fail, the turn completes; every text delta is spoken by
    exactly one TTS call, in the same order; and the text deltas put
    together are the reply itself, short of a blank tail that is neither
    sent nor spoken. No text is lost, repeated or reordered. *)
Theorem agent_turn_conserves_text :
  forall (generate_stream : option string -> gen string)
         (speech : string -> list (list Z)) (audio_chunk : AudioChunk)
         (chunks : list string),
    generate_stream (transcript audio_chunk) = yields chunks ->
    let turn := VoicePipeline.agent_turn generate_stream
                  (fun text => yields (speech text)) audio_chunk in
    snd turn = Ok tt
    /\ tts_calls (fst turn) = text_deltas (fst turn)
    /\ exists blank_tail : string,
         append (join (text_deltas (fst turn))) blank_tail = join chunks
         /\ strip_nonempty blank_tail = false.
Proof.
  intros generate_stream speech chunk chunks Hgen.
  exact (turn_conserves_text generate_stream speech chunk chunks Hgen).
Qed.

Lemma agent_turn_conserves_text_witness :
  let turn := VoicePipeline.agent_turn greeting_agent
                (fun text => yields [[1; 2]]) (transcribed "Hello.") in
  snd turn = Ok tt
  /\ tts_calls (fst turn) = text_deltas (fst turn)
  /\ exists blank_tail : string,
       append (join (text_deltas (fst turn))) blank_tail
       = join ["Hi"; " there"; "! How"; " are"; " you?"]
       /\ strip_nonempty blank_tail = false.
Proof.
  apply (agent_turn_conserves_text greeting_agent (fun _ => [[1; 2]])
           (transcribed "Hello.") ["Hi"; " there"; "! How"; " are"; " you?"]).
  reflexivity.
Defined.

(** ** The sender task *)

Lemma send_json_loop_conserves
  (send_json : list VoicePipeline.message -> VoicePipeline.message -> result unit)
  (n : nat) :
  forall (self : VoicePipeline.t) (sent : list VoicePipeline.message),
    let run := send_json_loop send_json self sent n in
    exists lost : list VoicePipeline.message,
      snd (fst run) ++ lost
      ++ Queue.items (VoicePipeline.response_queue (fst (fst run)))
      = sent ++ Queue.items (VoicePipeline.response_queue self)
      /\ match snd run with
         | LoopExit => lost = []
         | Caught e =>
             exists response,
               lost = [response]
               /\ send_json (snd (fst run)) response = Raise e
         end.
Proof.
  induction n as [|n IH]; intros self sent run; subst run.
  - exists []. split; reflexivity.
  - cbn [send_json_loop]. unfold Queue.get_nowait.
    destruct (Queue.items (VoicePipeline.response_queue self))
      as [|response rest] eqn:Hq.
    + specialize (IH self sent). cbv zeta in IH. rewrite Hq in IH. exact IH.
    + destruct (send_json sent response) as [[]|e] eqn:Hsend.
      * specialize (IH (VoicePipeline.set_response_queue self
                          {| Queue.maxsize :=
                               Queue.maxsize (VoicePipeline.response_queue self);
                             Queue.items := rest |})
                       (sent ++ [response])).
        cbv zeta in IH. destruct IH as [lost [Hcons Hend]].
        exists lost. split; [|exact Hend].
        rewrite Hcons. cbn [VoicePipeline.set_response_queue
                              VoicePipeline.response_queue Queue.items].
        rewrite <- app_assoc. reflexivity.
      * exists [response]. cbn. split; [reflexivity|].
        exists response. split; [reflexivity|exact Hsend].
Qed.

(** X17. The sender passes the queued messages to the socket in queue
    order and loses at most one: what was sent, then what was lost, then
    what is still queued is what had been sent before followed by the
    queue as it was. Nothing is lost when the loop ends on shutdown; when
    a send raises, the task ends and exactly the message of that send is
    lost (it is not put back). *)
Theorem send_json_response_conserves_messages :
  forall (send_json :
            list VoicePipeline.message -> VoicePipeline.message -> result unit)
         (self : VoicePipeline.t) (sent : list VoicePipeline.message)
         (iterations : nat),
    let run := send_json_response send_json self sent iterations in
    exists lost : list VoicePipeline.message,
      snd (fst run) ++ lost
      ++ Queue.items (VoicePipeline.response_queue (fst (fst run)))
      = sent ++ Queue.items (VoicePipeline.response_queue self)
      /\ match snd run with
         | LoopExit => lost = []
         | Caught e =>
             exists response,
               lost = [response]
               /\ send_json (snd (fst run)) response = Raise e
         end.
Proof.
  intros send_json self sent iterations run. subst run.
  unfold send_json_response.
  exact (send_json_loop_conserves send_json iterations
           (VoicePipeline.logged self
              [LogDebug "send_json_response task started"]) sent).
Qed.

Lemma send_json_loop_drains
  (send_json : list VoicePipeline.message -> VoicePipeline.message -> result unit)
  (Hsend : forall history response, send_json history response = Ok tt)
  (n : nat) :
  forall (self : VoicePipeline.t) (sent : list VoicePipeline.message),
    (List.length (Queue.items (VoicePipeline.response_queue self)) <= n)%nat ->
    let run := send_json_loop send_json self sent n in
    snd run = LoopExit
    /\ snd (fst run) = sent ++ Queue.items (VoicePipeline.response_queue self)
    /\ Queue.items (VoicePipeline.response_queue (fst (fst run))) = []
    /\ VoicePipeline.trace (fst (fst run)) = VoicePipeline.trace self.
Proof.
  induction n as [|n IH]; intros self sent Hlen run; subst run.
  - cbn [send_json_loop fst snd].
    destruct (Queue.items (VoicePipeline.response_queue self)) eqn:Hq;
      [|cbn in Hlen; lia].
    rewrite app_nil_r. repeat split.
  - cbn [send_json_loop]. unfold Queue.get_nowait.
    destruct (Queue.items (VoicePipeline.response_queue self))
      as [|response rest] eqn:Hq.
    + specialize (IH self sent). rewrite Hq in IH.
      apply IH. cbn. lia.
    + rewrite Hsend.
      specialize (IH (VoicePipeline.set_response_queue self
                        {| Queue.maxsize :=
                             Queue.maxsize (VoicePipeline.response_queue self);
                           Queue.items := rest |})
                     (sent ++ [response])).
      cbn [VoicePipeline.set_response_queue VoicePipeline.response_queue
             Queue.items VoicePipeline.trace] in IH.
      rewrite <- app_assoc in IH. apply IH. cbn in Hlen. lia.
Qed.

(** X18. On a socket whose sends succeed, as many passes as there are
    queued messages send them all, in order, and leave the queue empty;
    the task is still running (it only ends on shutdown) and has written
    nothing but its start-up line to the log. *)
Theorem send_json_response_drains_queue :
  forall (send_json :
            list VoicePipeline.message -> VoicePipeline.message -> result unit)
         (self : VoicePipeline.t) (sent : list VoicePipeline.message)
         (iterations : nat),
    (forall history response, send_json history response = Ok tt) ->
    (List.length (Queue.items (VoicePipeline.response_queue self))
     <= iterations)%nat ->
    let run := send_json_response send_json self sent iterations in
    snd run = LoopExit
    /\ snd (fst run) = sent ++ Queue.items (VoicePipeline.response_queue self)
    /\ Queue.items (VoicePipeline.response_queue (fst (fst run))) = []
    /\ VoicePipeline.trace (fst (fst run))
       = VoicePipeline.trace self
         ++ [VoicePipeline.Log (LogDebug "send_json_response task started")].
Proof.
  intros send_json self sent iterations Hsend Hlen run. subst run.
  unfold send_json_response.
  exact (send_json_loop_drains send_json Hsend iterations
           (VoicePipeline.logged self
              [LogDebug "send_json_response task started"]) sent Hlen).
Qed.

Lemma send_json_response_drains_queue_witness :
  snd (fst (send_json_response open_socket pipeline_two_events [] 2))
  = Queue.items (VoicePipeline.response_queue pipeline_two_events)
  /\ Queue.items
       (VoicePipeline.response_queue
          (fst (fst (send_json_response open_socket pipeline_two_events [] 2))))
     = [].
Proof.
  pose proof (send_json_response_drains_queue open_socket pipeline_two_events
                [] 2 (fun _ _ => eq_refl) (le_n 2)) as H.
  cbv zeta in H. destruct H as [_ [Hsent [Hqueue _]]].
  split; [exact Hsent|exact Hqueue].
Defined.

(** ** Cleanup *)

Lemma drain_queue_empties {A} (passes : nat) :
  forall queue : Queue.t A,
    (List.length (Queue.items queue) < passes)%nat ->
    drain_queue passes queue
    = {| Queue.maxsize := Queue.maxsize queue; Queue.items := [] |}.
Proof.
  induction passes as [|n IH]; intros [maxsize items] Hlen; [lia|].
  cbn [drain_queue]. unfold Queue.empty, Queue.get_nowait.
  cbn [Queue.items Queue.maxsize] in *.
  destruct items as [|x rest]; [reflexivity|].
  rewrite IH; [reflexivity|]. cbn in *. lia.
Qed.

(** X19. [_clear_queues] empties the three audio queues and keeps their
    capacity, and touches nothing else: the events still waiting in the
    response queue stay there, and so do the VAD buffer and the
    TTS-playing flag. *)
Theorem clear_queues_spares_response_queue :
  forall self : VoicePipeline.t,
    let self' := _clear_queues self in
    VoicePipeline.incoming_queue self'
    = Queue.create AudioChunk
        (Queue.maxsize (VoicePipeline.incoming_queue self))
    /\ VoicePipeline.processed_audio_queue self'
       = Queue.create AudioChunk
           (Queue.maxsize (VoicePipeline.processed_audio_queue self))
    /\ VoicePipeline.transcription_queue self'
       = Queue.create AudioChunk
           (Queue.maxsize (VoicePipeline.transcription_queue self))
    /\ VoicePipeline.response_queue self' = VoicePipeline.response_queue self
    /\ VoicePipeline.vad_processor self' = VoicePipeline.vad_processor self
    /\ VoicePipeline.is_tts_playing self' = VoicePipeline.is_tts_playing self
    /\ VoicePipeline.trace self' = VoicePipeline.trace self.
Proof.
  intros self self'. subst self'. unfold _clear_queues.
  cbn [VoicePipeline.set_incoming_queue VoicePipeline.set_processed_audio_queue
       VoicePipeline.set_transcription_queue VoicePipeline.incoming_queue
       VoicePipeline.processed_audio_queue VoicePipeline.transcription_queue
       VoicePipeline.response_queue VoicePipeline.vad_processor
       VoicePipeline.is_tts_playing VoicePipeline.trace].
  rewrite !drain_queue_empties by lia.
  unfold Queue.create. repeat split.
Qed.

(** ** The airline agent *)

Lemma yields_yielded {A} (g : gen A) :
  raised g = None -> g = yields (yielded g).
Proof.
  induction g as [|e|a rest IH]; cbn [raised yielded]; intros H.
  - reflexivity.
  - discriminate.
  - change (yields (a :: yielded rest)) with (Yield a (yields (yielded rest))).
    now rewrite <- (IH H).
Qed.

Lemma relay_never_raises (message_chunks : gen (option string)) :
  raised (AirlineAgent.relay message_chunks) = None.
Proof.
  induction message_chunks as [|e|[content|] rest IH]; cbn; try reflexivity;
    try exact IH.
  destruct (str_nonempty content); [exact IH|exact IH].
Qed.

Lemma relay_yielded (message_chunks : gen (option string)) :
  yielded (AirlineAgent.relay message_chunks)
  = kept_contents (yielded message_chunks)
    ++ match raised message_chunks with
       | None => []
       | Some _ => [AirlineAgent.apology]
       end.
Proof.
  induction message_chunks as [|e|[content|] rest IH]; cbn [AirlineAgent.relay
    yielded raised kept_contents flat_map app]; try reflexivity; try exact IH.
  destruct (str_nonempty content); cbn [yielded app]; [|exact IH].
  now rewrite IH.
Qed.

Lemma kept_contents_nonempty (message_chunks : list (option string)) :
  Forall (fun c => str_nonempty c = true) (kept_contents message_chunks).
Proof.
  induction message_chunks as [|[c|] rest IH]; cbn; [constructor| |exact IH].
  destruct (str_nonempty c) eqn:E; cbn; [constructor; assumption|exact IH].
Qed.

(** X20. [AirlineAgent.generate_stream] never raises. It passes on the
    contents that are present and not empty, in order; when the agent
    graph's stream raises, whatever the exception, it yields the apology
    once after them and ends. *)
Theorem airline_generate_stream_never_raises :
  forall (astream : option string -> gen (option string))
         (message : option string),
    let reply := AirlineAgent.generate_stream astream message in
    raised reply = None
    /\ Forall (fun c => str_nonempty c = true) (yielded reply)
    /\ yielded reply
       = kept_contents (yielded (astream message))
         ++ match raised (astream message) with
            | None => []
            | Some _ => [AirlineAgent.apology]
            end.
Proof.
  intros astream message reply. subst reply.
  unfold AirlineAgent.generate_stream.
  split; [apply relay_never_raises|].
  split; [|apply relay_yielded].
  rewrite relay_yielded. apply Forall_app. split.
  - apply kept_contents_nonempty.
  - destruct (raised (astream message)); constructor; [reflexivity|constructor].
Qed.

Lemma strip_nonempty_append (a b : string) :
  strip_nonempty (append a b) = strip_nonempty a || strip_nonempty b.
Proof.
  induction a as [|c a IH]; cbn; [reflexivity|].
  rewrite IH. now rewrite orb_assoc.
Qed.

Lemma join_snoc (chunks : list string) (last : string) :
  join (chunks ++ [last]) = append (join chunks) last.
Proof.
  induction chunks as [|c rest IH]; cbn [join app].
  - now rewrite str_append_nil_r.
  - now rewrite IH, str_append_assoc.
Qed.

(** A text that ends in a character that is not whitespace has no blank
    tail but the empty one. *)
Lemma blank_tail_empty (c : ascii) (head : string) :
  forall text tail : string,
    is_space c = false ->
    append head tail = append text (String c EmptyString) ->
    strip_nonempty tail = false ->
    tail = EmptyString.
Proof.
  induction head as [|d head IH]; intros text tail Hc Heq Hblank.
  - cbn [append] in Heq. subst tail.
    rewrite strip_nonempty_append in Hblank. cbn in Hblank.
    rewrite Hc in Hblank. cbn in Hblank.
    now rewrite orb_true_r in Hblank.
  - destruct text as [|d' text]; cbn [append] in Heq.
    + injection Heq as _ Heq. destruct head; [exact Heq|discriminate].
    + injection Heq as _ Heq. exact (IH text tail Hc Heq Hblank).
Qed.

(** X21. With the airline agent and a TTS that does not fail, the
    AgentDriver turn always completes: a failure of the agent graph does
    not reach the stage. In that case what is spoken is the contents
    received before the failure followed by the apology; otherwise it is
    the contents received, short of a blank tail. *)
Theorem airline_agent_failure_is_spoken :
  forall (astream : option string -> gen (option string))
         (speech : string -> list (list Z)) (audio_chunk : AudioChunk),
    let turn := VoicePipeline.agent_turn
                  (AirlineAgent.generate_stream astream)
                  (fun text => yields (speech text)) audio_chunk in
    let received :=
      join (kept_contents (yielded (astream (transcript audio_chunk)))) in
    snd turn = Ok tt
    /\ match raised (astream (transcript audio_chunk)) with
       | Some _ =>
           join (tts_calls (fst turn)) = append received AirlineAgent.apology
       | None =>
           exists blank_tail : string,
             append (join (tts_calls (fst turn))) blank_tail = received
             /\ strip_nonempty blank_tail = false
       end.
Proof.
  intros astream speech chunk turn received. subst turn received.
  pose proof (turn_conserves_text (AirlineAgent.generate_stream astream)
                speech chunk
                (yielded (AirlineAgent.generate_stream astream
                            (transcript chunk)))
                (yields_yielded _ (relay_never_raises _))) as H.
  cbv zeta in H. destruct H as (Hend & Hcalls & tail & Hjoin & Hblank).
  split; [exact Hend|]. rewrite Hcalls.
  unfold AirlineAgent.generate_stream in Hjoin at 2.
  rewrite relay_yielded in Hjoin.
  destruct (raised (astream (transcript chunk))) as [e|].
  - rewrite join_snoc in Hjoin.
    assert (Htail : tail = EmptyString).
    { refine (blank_tail_empty "."%char _
                (append (join (kept_contents
                                 (yielded (astream (transcript chunk)))))
                   "I apologize, but I'm experiencing technical difficulties. Please try again or contact Emirates customer service at +971-4-214-4444")
                tail eq_refl _ Hblank).
      rewrite Hjoin. rewrite str_append_assoc. reflexivity. }
    rewrite Htail, str_append_nil_r in Hjoin. exact Hjoin.
  - rewrite app_nil_r in Hjoin. exists tail. split; assumption.
Qed.

Lemma airline_agent_breaking_graph_turn :
  let turn := VoicePipeline.agent_turn
                (AirlineAgent.generate_stream breaking_graph) tone_tts
                (transcribed "Hello.") in
  snd turn = Ok tt
  /\ tts_calls (fst turn) = ["One moment."; AirlineAgent.apology].
Proof. vm_compute. split; reflexivity. Qed.

(** ** Streaming speech synthesis *)

Lemma byte_val_range (b : byte) : 0 <= VADProcessor.byte_val b < 256.
Proof.
  unfold VADProcessor.byte_val. pose proof (Byte.to_N_bounded b). lia.
Qed.

Lemma byte_of_Z_val (b : byte) :
  VADProcessor.byte_of_Z (VADProcessor.byte_val b) = b.
Proof.
  pose proof (byte_val_range b) as Hr.
  unfold VADProcessor.byte_of_Z. rewrite Z.mod_small by exact Hr.
  unfold VADProcessor.byte_val. rewrite N2Z.id, Byte.of_to_N. reflexivity.
Qed.

Lemma byte_of_Z_mod (x y : Z) :
  x mod 256 = y mod 256 -> VADProcessor.byte_of_Z x = VADProcessor.byte_of_Z y.
Proof. intros H. unfold VADProcessor.byte_of_Z. now rewrite H. Qed.

Lemma lor_shiftl_8 (a b : Z) :
  0 <= a < 256 -> 0 <= b -> Z.lor a (Z.shiftl b 8) = a + 256 * b.
Proof.
  intros Ha Hb.
  assert (Hdisjoint : Z.land a (Z.shiftl b 8) = 0).
  { apply Z.bits_inj'. intros n Hn. rewrite Z.land_spec, Z.bits_0.
    destruct (Z.ltb_spec n 8) as [Hlt|Hge].
    - rewrite Z.shiftl_spec_low by lia. apply andb_false_r.
    - destruct (Z.eq_dec a 0) as [->|Hnz]; [now rewrite Z.bits_0|].
      rewrite (Z.bits_above_log2 a n); [reflexivity|lia|].
      assert (Z.log2 a < 8) by (apply Z.log2_lt_pow2; lia). lia. }
  rewrite <- Z.lxor_lor by exact Hdisjoint.
  rewrite <- Z.add_nocarry_lxor by exact Hdisjoint.
  rewrite Z.shiftl_mul_pow2 by lia. change (2 ^ 8) with 256. lia.
Qed.

Lemma int16_bytes_roundtrip (lo hi : byte) :
  VADProcessor.int16_tobytes [VADProcessor.int16_of_bytes lo hi] = [lo; hi].
Proof.
  pose proof (byte_val_range lo) as Hlo.
  pose proof (byte_val_range hi) as Hhi.
  unfold VADProcessor.int16_tobytes, VADProcessor.int16_of_bytes.
  cbn [flat_map app]. rewrite lor_shiftl_8 by lia.
  set (u := VADProcessor.byte_val lo + 256 * VADProcessor.byte_val hi).
  assert (Hu : 0 <= u < 65536) by (subst u; lia).
  assert (Hlow : forall v, v = u \/ v = u - 65536 ->
            VADProcessor.byte_of_Z v = lo
            /\ VADProcessor.byte_of_Z (Z.shiftr (v mod 65536) 8) = hi).
  { intros v Hv. split.
    - transitivity (VADProcessor.byte_of_Z (VADProcessor.byte_val lo));
        [|apply byte_of_Z_val].
      apply byte_of_Z_mod.
      subst u. destruct Hv as [-> | ->]; Z.div_mod_to_equations; lia.
    - transitivity (VADProcessor.byte_of_Z (VADProcessor.byte_val hi));
        [|apply byte_of_Z_val].
      apply byte_of_Z_mod.
      rewrite Z.shiftr_div_pow2 by lia. change (2 ^ 8) with 256.
      replace (v mod 65536) with u
        by (destruct Hv as [-> | ->]; Z.div_mod_to_equations; lia).
      subst u. Z.div_mod_to_equations; lia. }
  destruct (u <? 32768).
  - destruct (Hlow u (or_introl eq_refl)) as [-> ->]. reflexivity.
  - destruct (Hlow (u - 65536) (or_intror eq_refl)) as [-> ->]. reflexivity.
Qed.

(** [np.frombuffer] accepts every even number of bytes, and [tobytes]
    gives them back. *)
Lemma frombuffer_tobytes (n : nat) :
  forall bs : list byte,
    List.length bs = (2 * n)%nat ->
    exists samples : list Z,
      VADProcessor.frombuffer_int16 bs = Ok samples
      /\ VADProcessor.int16_tobytes samples = bs
      /\ List.length samples = n.
Proof.
  induction n as [|n IH]; intros bs Hlen.
  - destruct bs; [|discriminate]. exists []. repeat split.
  - destruct bs as [|lo [|hi rest]]; try (cbn in Hlen; lia).
    destruct (IH rest) as (samples & Hfrom & Hto & Hn);
      [cbn in Hlen; lia|].
    exists (VADProcessor.int16_of_bytes lo hi :: samples).
    cbn [VADProcessor.frombuffer_int16]. rewrite Hfrom.
    split; [reflexivity|]. split; [|cbn; now rewrite Hn].
    change (VADProcessor.int16_of_bytes lo hi :: samples)
      with ([VADProcessor.int16_of_bytes lo hi] ++ samples).
    unfold VADProcessor.int16_tobytes in *. rewrite flat_map_app.
    fold (VADProcessor.int16_tobytes [VADProcessor.int16_of_bytes lo hi]).
    rewrite int16_bytes_roundtrip, Hto. reflexivity.
Qed.

Lemma whole_samples_firstn (received : list byte) :
  whole_samples received
  = firstn (2 * (List.length received / 2)) received.
Proof.
  unfold whole_samples. rewrite py_slice_to_firstn.
  - f_equal. unfold len.
    pose proof (Nat.div_mod_eq (List.length received) 2).
    pose proof (Nat.mod_upper_bound (List.length received) 2).
    Z.div_mod_to_equations. lia.
  - unfold len. Z.div_mod_to_equations. lia.
Qed.

Lemma padded_split (received : list byte) (j : nat) :
  (2 * j <= List.length received)%nat ->
  padded received
  = firstn (2 * j) received ++ padded (skipn (2 * j) received).
Proof.
  intros Hj. unfold padded.
  assert (Hodd : Z.odd (len received)
                 = Z.odd (len (skipn (2 * j) received))).
  { unfold len. rewrite length_skipn.
    replace (Z.of_nat (List.length received))
      with (Z.of_nat (List.length received - 2 * j) + 2 * Z.of_nat j) by lia.
    apply Z.odd_add_mul_2. }
  rewrite <- Hodd. destruct (Z.odd (len received)).
  - rewrite app_assoc, firstn_skipn. reflexivity.
  - now rewrite firstn_skipn.
Qed.

Lemma whole_samples_split (received : list byte) (j : nat) :
  (2 * j <= List.length received)%nat ->
  whole_samples received
  = firstn (2 * j) received ++ whole_samples (skipn (2 * j) received).
Proof.
  intros Hj. rewrite !whole_samples_firstn.
  rewrite <- (firstn_skipn (2 * j) received) at 1 2.
  set (front := firstn (2 * j) received).
  set (back := skipn (2 * j) received).
  assert (Hfront : List.length front = (2 * j)%nat)
    by (subst front; rewrite length_firstn; lia).
  replace (2 * (List.length (front ++ back) / 2))%nat
    with (List.length front + 2 * (List.length back / 2))%nat.
  - apply firstn_app_2.
  - rewrite length_app, Hfront.
    pose proof (Nat.div_mod_eq (2 * j + List.length back) 2).
    pose proof (Nat.mod_upper_bound (2 * j + List.length back) 2).
    pose proof (Nat.div_mod_eq (List.length back) 2).
    pose proof (Nat.mod_upper_bound (List.length back) 2).
    lia.
Qed.

Lemma emit_complete_short (buffer : list byte)
    (k : list byte -> gen (list Z)) :
  (List.length buffer <= 1)%nat ->
  OpenAITTS.emit_complete 2 buffer k = k buffer.
Proof.
  intros Hlen. cbn [OpenAITTS.emit_complete].
  destruct (Z.leb_spec 2 (len buffer)) as [H|H]; [unfold len in H; lia|].
  reflexivity.
Qed.

Lemma emit_complete_full (buffer : list byte)
    (k : list byte -> gen (list Z)) :
  (2 <= List.length buffer)%nat ->
  let j := (List.length buffer / 2)%nat in
  exists samples : list Z,
    OpenAITTS.emit_complete 2 buffer k
    = Yield samples (k (skipn (2 * j) buffer))
    /\ VADProcessor.int16_tobytes samples = firstn (2 * j) buffer
    /\ samples <> [].
Proof.
  intros Hlen j.
  pose proof (Nat.div_mod_eq (List.length buffer) 2) as Hdiv.
  pose proof (Nat.mod_upper_bound (List.length buffer) 2) as Hmod.
  fold j in Hdiv.
  assert (Hk : len buffer / 2 * 2 = Z.of_nat (2 * j)).
  { unfold len. subst j. Z.div_mod_to_equations. lia. }
  destruct (frombuffer_tobytes j (firstn (2 * j) buffer))
    as (samples & Hfrom & Hto & Hn); [rewrite length_firstn; lia|].
  exists samples. split; [|split; [exact Hto|]].
  - cbn [OpenAITTS.emit_complete].
    destruct (Z.leb_spec 2 (len buffer)) as [_|H]; [|unfold len in H; lia].
    cbv zeta. rewrite Hk.
    rewrite py_slice_to_firstn, py_slice_from_skipn by lia.
    rewrite Nat2Z.id, Hfrom.
    destruct (firstn (2 * j) buffer) as [|b front] eqn:Hfront.
    + apply (f_equal (@List.length byte)) in Hfront.
      rewrite length_firstn in Hfront.
      change (List.length (@nil byte)) with 0%nat in Hfront. lia.
    + destruct (Z.leb_spec 2 (len (skipn (2 * j) buffer))) as [H|_];
        [unfold len in H; rewrite length_skipn in H; lia|].
      reflexivity.
  - intros ->. change (List.length (@nil Z)) with 0%nat in Hn. lia.
Qed.

Lemma receive_chunks_spec
    (chunks : gen (list byte)) :
  forall buffer : list byte,
    (List.length buffer <= 1)%nat ->
    let audio := OpenAITTS.receive_chunks chunks buffer in
    let received := buffer ++ List.concat (yielded chunks) in
    raised audio = raised chunks
    /\ Forall (fun samples => samples <> []) (yielded audio)
    /\ VADProcessor.int16_tobytes (List.concat (yielded audio))
       = match raised chunks with
         | None => padded received
         | Some _ => whole_samples received
         end.
Proof.
  induction chunks as [|e|chunk rest IH]; intros buffer Hlen; cbv zeta.
  - cbn [yielded raised List.concat OpenAITTS.receive_chunks].
    rewrite app_nil_r.
    destruct buffer as [|b [|c more]]; [| |cbn in Hlen; lia].
    + repeat split. constructor.
    + destruct (frombuffer_tobytes 1 [b; x00] eq_refl)
        as (samples & Hfrom & Hto & Hn).
      cbv beta iota zeta. change (len [b] mod 2 =? 1) with true.
      cbv iota. cbn [app]. rewrite Hfrom.
      cbn [yielded raised List.concat]. rewrite app_nil_r.
      split; [reflexivity|]. split.
      * constructor; [|constructor]. intros ->. discriminate.
      * exact Hto.
  - cbn [yielded raised List.concat OpenAITTS.receive_chunks].
    rewrite app_nil_r. split; [reflexivity|]. split; [constructor|].
    rewrite whole_samples_firstn.
    destruct buffer as [|b [|c more]]; [reflexivity|reflexivity|].
    cbn in Hlen. lia.
  - cbn [yielded raised List.concat OpenAITTS.receive_chunks].
    rewrite app_assoc. set (B := buffer ++ chunk).
    destruct (Nat.le_gt_cases 2 (List.length B)) as [Hfull|Hshort].
    + destruct (emit_complete_full B (OpenAITTS.receive_chunks rest) Hfull)
        as (samples & Hemit & Hto & Hne).
      cbv zeta in Hemit. rewrite Hemit.
      set (j := (List.length B / 2)%nat) in *.
      pose proof (Nat.div_mod_eq (List.length B) 2) as Hdiv.
      pose proof (Nat.mod_upper_bound (List.length B) 2) as Hmod.
      fold j in Hdiv.
      destruct (IH (skipn (2 * j) B)) as (Hraised & Hnonempty & Hbytes);
        [rewrite length_skipn; lia|].
      cbn [yielded raised List.concat].
      split; [exact Hraised|]. split; [constructor; assumption|].
      unfold VADProcessor.int16_tobytes in *. rewrite flat_map_app.
      rewrite Hto, Hbytes.
      assert (Hle : (2 * j <= List.length (B ++ List.concat (yielded rest)))%nat)
        by (rewrite length_app; lia).
      assert (Hfirst : firstn (2 * j) (B ++ List.concat (yielded rest))
                       = firstn (2 * j) B).
      { rewrite firstn_app.
        replace (2 * j - List.length B)%nat with 0%nat by lia.
        cbn [firstn]. now rewrite app_nil_r. }
      assert (Hskip : skipn (2 * j) (B ++ List.concat (yielded rest))
                      = skipn (2 * j) B ++ List.concat (yielded rest)).
      { rewrite skipn_app.
        replace (2 * j - List.length B)%nat with 0%nat by lia.
        reflexivity. }
      destruct (raised rest).
      * rewrite (whole_samples_split _ j Hle), Hfirst, Hskip. reflexivity.
      * rewrite (padded_split _ j Hle), Hfirst, Hskip. reflexivity.
    + rewrite emit_complete_short by lia.
      apply IH. lia.
Qed.

(** X22. The streaming TTS adapter hands on the PCM bytes it receives,
    in order and unaltered, as non-empty int16 arrays, however the
    provider cuts the byte stream into chunks. It raises exactly when the
    provider's stream raises. When the stream ends normally the arrays
    hold all the bytes received, with one zero byte added if their number
    is odd; when it raises, they hold the whole samples received up to
    the last chunk, and an odd byte left over is dropped. *)
Theorem tts_stream_conserves_bytes :
  forall (iter_bytes : string -> gen (list byte)) (text : string),
    let audio := OpenAITTS.tts_stream iter_bytes text in
    let received := List.concat (yielded (iter_bytes text)) in
    raised audio = raised (iter_bytes text)
    /\ Forall (fun samples => samples <> []) (yielded audio)
    /\ VADProcessor.int16_tobytes (List.concat (yielded audio))
       = match raised (iter_bytes text) with
         | None => padded received
         | Some _ => whole_samples received
         end.
Proof.
  intros iter_bytes text audio received. subst audio received.
  unfold OpenAITTS.tts_stream.
  exact (receive_chunks_spec (iter_bytes text) [] (Nat.le_0_l 1)).
Qed.

Lemma tts_stream_in_chunks :
  OpenAITTS.tts_stream pcm_in_chunks "Hi." = yields [[513]; [1027]; [5]]
  /\ OpenAITTS.tts_stream pcm_breaking_off "Hi."
     = Yield [513] (Throw (ProviderError "stream closed")).
Proof. split; reflexivity. Qed.

(** ** The chat history of the LLM agent *)

Lemma py_slice_from_last {A} (l : list A) (n : nat) :
  (0 < n)%nat ->
  py_slice_from l (- Z.of_nat n) = skipn (List.length l - n) l.
Proof.
  intros Hn. unfold py_slice_from, py_slice, py_index_clamp, len.
  destruct (Z.ltb_spec (- Z.of_nat n) 0) as [_|H]; [|lia].
  destruct (Z.ltb_spec (Z.of_nat (List.length l)) 0) as [H|_]; [lia|].
  rewrite Z.min_id.
  replace (Z.to_nat (Z.max 0 (- Z.of_nat n + Z.of_nat (List.length l))))
    with (List.length l - n)%nat by lia.
  apply firstn_all2. rewrite length_skipn. lia.
Qed.

Lemma existsb_skipn_false {A} (f : A -> bool) (d : nat) :
  forall l : list A, existsb f l = false -> existsb f (skipn d l) = false.
Proof.
  induction d as [|d IH]; intros l H; [exact H|].
  destruct l as [|x l]; [reflexivity|].
  cbn [skipn]. apply IH. cbn in H. apply orb_false_iff in H. tauto.
Qed.

Lemma tl_skipn {A} (d : nat) (l : list A) : tl (skipn d l) = skipn d (tl l).
Proof.
  revert l. induction d as [|d IH]; intros l; [reflexivity|].
  destruct l as [|x l]; [reflexivity|].
  cbn [skipn tl]. destruct l as [|y l]; [now destruct d|].
  specialize (IH (y :: l)). cbn [tl] in IH. rewrite <- IH.
  cbn [skipn]. reflexivity.
Qed.

Lemma tl_app {A} (l1 l2 : list A) :
  l1 <> [] -> tl (l1 ++ l2) = tl l1 ++ l2.
Proof. destruct l1; [congruence|reflexivity]. Qed.

Section History.

Variable astream : list LLM.AnyMessage -> gen string.
Hypothesis astream_ends : forall messages, raised (astream messages) = None.
Variable system_prompt : string.

Lemma history_after_exchange (k : nat) (self : LLM.t) (message : string) :
  history_after system_prompt k (LLM.messages self) ->
  history_after system_prompt (S k)
    (LLM.messages (snd (LLM.generate_stream astream self (Some message)))).
Proof.
  intros (Hlen & Htail & Hhead).
  unfold LLM.generate_stream, LLM._create_messages.
  cbv zeta. rewrite astream_ends. cbn [snd LLM.messages].
  change (-40) with (- Z.of_nat 40). rewrite py_slice_from_last by lia.
  set (H := LLM.HumanMessage (strip message)).
  set (reply := LLM.AIMessage _).
  set (L := LLM.messages self ++ [H]).
  assert (HL : List.length L = S (Nat.min (2 * k + 1) 41))
    by (subst L; rewrite length_app, Hlen; cbn; lia).
  assert (Hne : LLM.messages self <> [])
    by (intros E; rewrite E in Hlen; cbn in Hlen; lia).
  assert (HtailL : existsb is_system_message (tl L) = false).
  { subst L. rewrite tl_app by exact Hne.
    rewrite existsb_app, Htail. reflexivity. }
  assert (Hsent : skipn (List.length L - 40) L <> []).
  { intros E. apply (f_equal (@List.length _)) in E.
    rewrite length_skipn in E. cbn in E. lia. }
  repeat split.
  - rewrite length_app, length_skipn, HL. cbn [List.length]. lia.
  - rewrite tl_app by exact Hsent. rewrite existsb_app, tl_skipn.
    rewrite (existsb_skipn_false _ _ _ HtailL). reflexivity.
  - intros Hk. replace (List.length L - 40)%nat with 0%nat by lia.
    cbn [skipn]. subst L.
    destruct (LLM.messages self) as [|first rest]; [congruence|].
    cbn [app hd_error]. apply Hhead. lia.
Qed.

Lemma history_after_conversation (user_messages : list string) :
  forall (k : nat) (self : LLM.t),
    history_after system_prompt k (LLM.messages self) ->
    history_after system_prompt (k + List.length user_messages)
      (LLM.messages (LLM.converse astream self user_messages)).
Proof.
  induction user_messages as [|message rest IH]; intros k self Hinv.
  - cbn. now rewrite Nat.add_0_r.
  - cbn [LLM.converse fold_left List.length].
    replace (k + S (List.length rest))%nat
      with (S k + List.length rest)%nat by lia.
    apply (IH (S k)). now apply history_after_exchange.
Qed.

Lemma history_next_request (user_messages : list string) (message : string) :
  let self := LLM.converse astream (LLM.init system_prompt) user_messages in
  let exchanges := List.length user_messages in
  exists (sent earlier : list LLM.AnyMessage),
    LLM._create_messages self (Some message)
    = Ok ({| LLM.messages := sent |}, sent)
    /\ sent = earlier ++ [LLM.HumanMessage (strip message)]
    /\ ((exchanges <= 19)%nat ->
        hd_error sent = Some (LLM.SystemMessage (strip system_prompt))
        /\ List.length sent = (2 * exchanges + 2)%nat)
    /\ ((20 <= exchanges)%nat ->
        List.length sent = 40%nat
        /\ existsb is_system_message sent = false).
Proof.
  intros self exchanges.
  assert (Hinv : history_after system_prompt exchanges (LLM.messages self)).
  { apply (history_after_conversation user_messages 0 (LLM.init system_prompt)).
    repeat split. }
  destruct Hinv as (Hlen & Htail & Hhead).
  unfold LLM._create_messages. cbv zeta.
  change (-40) with (- Z.of_nat 40). rewrite py_slice_from_last by lia.
  set (H := LLM.HumanMessage (strip message)).
  set (L := LLM.messages self ++ [H]).
  assert (HL : List.length L = S (Nat.min (2 * exchanges + 1) 41))
    by (subst L; rewrite length_app, Hlen; cbn; lia).
  assert (Hne : LLM.messages self <> [])
    by (intros E; rewrite E in Hlen; cbn in Hlen; lia).
  assert (HtailL : existsb is_system_message (tl L) = false).
  { subst L. rewrite tl_app by exact Hne.
    rewrite existsb_app, Htail. reflexivity. }
  exists (skipn (List.length L - 40) L),
         (skipn (List.length L - 40) (LLM.messages self)).
  split; [reflexivity|]. split; [|split].
  - subst L. rewrite skipn_app.
    replace (List.length (LLM.messages self ++ [H]) - 40
             - List.length (LLM.messages self))%nat with 0%nat
      by (rewrite length_app; cbn; lia).
    reflexivity.
  - intros Hk. replace (List.length L - 40)%nat with 0%nat by lia.
    cbn [skipn]. split; [|lia]. subst L.
    destruct (LLM.messages self) as [|first rest]; [congruence|].
    cbn [app hd_error]. apply Hhead. lia.
  - intros Hk. rewrite length_skipn. split; [lia|].
    replace (List.length L - 40)%nat with 2%nat by lia.
    destruct L as [|first rest]; [discriminate|].
    cbn [tl] in HtailL. change (skipn 2 (first :: rest)) with (skipn 1 rest).
    apply existsb_skipn_false. exact HtailL.
Qed.

End History.

(** X23. The chat history is cut to its last 40 messages before each
    request, and the system prompt is an ordinary first message of it:
    after [n] exchanges whose replies were streamed to the end, the next
    request ends with the new user message; up to [n = 19] it still opens
    with the system prompt and holds all [2n + 2] messages; from [n = 20]
    on it holds 40 messages and no system prompt. *)
Theorem llm_history_drops_system_prompt :
  forall (astream : list LLM.AnyMessage -> gen string)
         (system_prompt : string) (user_messages : list string)
         (message : string),
    (forall messages, raised (astream messages) = None) ->
    let self := LLM.converse astream (LLM.init system_prompt) user_messages in
    let exchanges := List.length user_messages in
    exists (sent earlier : list LLM.AnyMessage),
      LLM._create_messages self (Some message)
      = Ok ({| LLM.messages := sent |}, sent)
      /\ sent = earlier ++ [LLM.HumanMessage (strip message)]
      /\ ((exchanges <= 19)%nat ->
          hd_error sent = Some (LLM.SystemMessage (strip system_prompt))
          /\ List.length sent = (2 * exchanges + 2)%nat)
      /\ ((20 <= exchanges)%nat ->
          List.length sent = 40%nat
          /\ existsb is_system_message sent = false).
Proof.
  intros astream system_prompt user_messages message Hends.
  exact (history_next_request astream Hends system_prompt user_messages
           message).
Qed.

Lemma llm_history_drops_system_prompt_witness :
  match LLM._create_messages
          (LLM.converse curt_model (LLM.init " Be brief. ") (repeat "Hi" 20))
          (Some "And now? ") with
  | Ok (_, sent) =>
      List.length sent = 40%nat /\ existsb is_system_message sent = false
  | Raise _ => False
  end.
Proof.
  destruct (llm_history_drops_system_prompt curt_model " Be brief. "
              (repeat "Hi" 20) "And now? " (fun _ => eq_refl))
    as (sent & earlier & Hsent & _ & _ & Hlate).
  rewrite Hsent. apply Hlate. cbn. lia.
Defined.

(** ** The AgentDriver stage with the airline agent *)

Lemma airline_turn_completes
    (astream : option string -> gen (option string))
    (speech : string -> list (list Z)) (audio_chunk : AudioChunk) :
  snd (VoicePipeline.agent_turn (AirlineAgent.generate_stream astream)
         (fun text => yields (speech text)) audio_chunk) = Ok tt.
Proof.
  pose proof (turn_conserves_text (AirlineAgent.generate_stream astream)
                speech audio_chunk
                (yielded (AirlineAgent.generate_stream astream
                            (transcript audio_chunk)))
                (yields_yielded _ (relay_never_raises _))) as H.
  cbv zeta in H. exact (proj1 H).
Qed.

(** X24. With the airline agent and a TTS that does not fail, the
    AgentDriver stage runs until shutdown whatever the agent graph does:
    no pass ends the task, and each pass takes one transcript off the
    transcription queue, in order, as long as there is one. *)
Theorem airline_agent_stage_keeps_running :
  forall (astream : option string -> gen (option string))
         (speech : string -> list (list Z)) (self : VoicePipeline.t)
         (iterations : nat),
    let run := VoicePipeline.generate_agent_response
                 (AirlineAgent.generate_stream astream)
                 (fun text => yields (speech text)) self iterations in
    snd run = LoopExit
    /\ Queue.items (VoicePipeline.transcription_queue (fst run))
       = skipn iterations
           (Queue.items (VoicePipeline.transcription_queue self)).
Proof.
  intros astream speech self iterations. revert self.
  induction iterations as [|n IH]; intros self; cbv zeta.
  - split; reflexivity.
  - cbn [VoicePipeline.generate_agent_response]. unfold Queue.get_nowait.
    destruct (Queue.items (VoicePipeline.transcription_queue self))
      as [|audio_chunk rest] eqn:Hq.
    + specialize (IH self). cbv zeta in IH. rewrite Hq in IH.
      rewrite skipn_nil in IH. exact IH.
    + pose proof (airline_turn_completes astream speech audio_chunk) as Hturn.
      destruct (VoicePipeline.agent_turn (AirlineAgent.generate_stream astream)
                  (fun text => yields (speech text)) audio_chunk)
        as [effects outcome].
      cbn [snd] in Hturn. subst outcome.
      match goal with
      | |- context [VoicePipeline.generate_agent_response _ _ ?s n] =>
          specialize (IH s)
      end.
      cbv zeta in IH. rewrite perform_transcription_queue in IH.
      cbn [VoicePipeline.set_transcription_queue
             VoicePipeline.transcription_queue Queue.items] in IH.
      cbn [skipn]. exact IH.
Qed.

(** ** AgentDriver: a failing agent stream or TTS stream *)

Lemma stream_speech_outcome (chunks : gen (list Z)) :
  VoicePipeline.stream_speech chunks
  = (map speech_delta_event (yielded chunks),
     match raised chunks with None => Ok tt | Some e => Raise e end).
Proof.
  induction chunks as [|e|chunk rest IH]; [reflexivity|reflexivity|].
  cbn [VoicePipeline.stream_speech yielded raised map]. rewrite IH.
  destruct (raised rest); reflexivity.
Qed.

Lemma speak_outcome (tts_stream : string -> gen (list Z)) (text : string) :
  VoicePipeline.speak tts_stream text
  = (VoicePipeline.CallTTS text
       :: map speech_delta_event (yielded (tts_stream text)),
     match raised (tts_stream text) with None => Ok tt | Some e => Raise e end).
Proof.
  unfold VoicePipeline.speak. rewrite stream_speech_outcome.
  destruct (raised (tts_stream text)); reflexivity.
Qed.

Section TurnFailures.

Variable tts_stream : string -> gen (list Z).

Lemma speak_calls (text : string) :
  tts_calls (fst (VoicePipeline.speak tts_stream text)) = [text].
Proof.
  rewrite speak_outcome. cbn [fst].
  change (VoicePipeline.CallTTS text
          :: map speech_delta_event (yielded (tts_stream text)))
    with ([VoicePipeline.CallTTS text]
          ++ map speech_delta_event (yielded (tts_stream text))).
  rewrite tts_calls_app, tts_calls_speech. reflexivity.
Qed.

Lemma bind_streams_ended {A B} (m : VoicePipeline.W A)
    (k : A -> VoicePipeline.W B) :
  tts_streams_ended tts_stream (fst (VoicePipeline.bind m k)) ->
  tts_streams_ended tts_stream (fst m)
  /\ (forall a, snd m = Ok a -> tts_streams_ended tts_stream (fst (k a))).
Proof.
  intros H. rewrite bind_effects in H. unfold tts_streams_ended in *. split.
  - intros text Hin. apply H. rewrite tts_calls_app. apply in_or_app. now left.
  - intros a Ha text Hin. apply H. rewrite tts_calls_app, Ha.
    apply in_or_app. now right.
Qed.

(** *** A TTS stream raises *)

Lemma quiet_tts_failure_ends {A} (m : VoicePipeline.W A) :
  tts_calls (fst m) = [] -> tts_failure_ends tts_stream m.
Proof. intros H text e Hin. rewrite H in Hin. destruct Hin. Qed.

Lemma bind_tts_failure_ends {A B} (m : VoicePipeline.W A)
    (k : A -> VoicePipeline.W B) :
  tts_failure_ends tts_stream m ->
  (forall a, snd m = Ok a -> tts_failure_ends tts_stream (k a)) ->
  tts_failure_ends tts_stream (VoicePipeline.bind m k).
Proof.
  intros Hm Hk text e Hin Hraised.
  rewrite bind_effects, tts_calls_app in Hin. rewrite bind_result.
  apply in_app_or in Hin as [Hin|Hin].
  - now rewrite (Hm text e Hin Hraised).
  - destruct (snd m) as [a|e'] eqn:Hsnd; [|destruct Hin].
    exact (Hk a eq_refl text e Hin Hraised).
Qed.

Lemma speak_tts_failure_ends (text : string) :
  tts_failure_ends tts_stream (VoicePipeline.speak tts_stream text).
Proof.
  intros text' e Hin Hraised. rewrite speak_calls in Hin.
  destruct Hin as [<-|[]]. rewrite speak_outcome. cbn [snd].
  now rewrite Hraised.
Qed.

Lemma event_tts_failure_ends (type : VoicePipeline.ResponseEventType)
    (content : option string) (timestamp : option Q) :
  tts_failure_ends tts_stream
    (VoicePipeline._add_event_message type content timestamp).
Proof. now apply quiet_tts_failure_ends. Qed.

Lemma maybe_event_tts_failure_ends (b : bool)
    (type : VoicePipeline.ResponseEventType) :
  tts_failure_ends tts_stream
    (if b then VoicePipeline._add_event_message type None None
     else VoicePipeline.ret tt).
Proof. destruct b; now apply quiet_tts_failure_ends. Qed.

Lemma consume_tts_failure_ends (chunks : gen string) :
  forall (text_buffer : string) (first_response_chunk first_speech_chunk : bool),
    tts_failure_ends tts_stream
      (VoicePipeline.consume_agent_stream tts_stream chunks text_buffer
         first_response_chunk first_speech_chunk).
Proof.
  induction chunks as [|e|chunk rest IH]; intros buffer frc fsc;
    try (now apply quiet_tts_failure_ends).
  cbn [VoicePipeline.consume_agent_stream].
  apply bind_tts_failure_ends; [apply maybe_event_tts_failure_ends|intros _ _].
  destruct (VoicePipeline.has_sentence_ending (append buffer chunk));
    [|apply IH].
  apply bind_tts_failure_ends;
    [now apply quiet_tts_failure_ends|intros idx _].
  destruct (str_nonempty (str_take (Z.to_nat (idx + 1)) (append buffer chunk)));
    [|apply IH].
  apply bind_tts_failure_ends; [apply maybe_event_tts_failure_ends|intros _ _].
  apply bind_tts_failure_ends; [apply event_tts_failure_ends|intros _ _].
  apply bind_tts_failure_ends; [apply speak_tts_failure_ends|intros _ _].
  apply IH.
Qed.

Lemma turn_tts_failure_ends (generate_stream : option string -> gen string)
    (audio_chunk : AudioChunk) :
  tts_failure_ends tts_stream
    (VoicePipeline.agent_turn generate_stream tts_stream audio_chunk).
Proof.
  unfold VoicePipeline.agent_turn.
  apply bind_tts_failure_ends;
    [now apply quiet_tts_failure_ends|intros _ _].
  apply bind_tts_failure_ends; [apply event_tts_failure_ends|intros _ _].
  apply bind_tts_failure_ends;
    [now apply quiet_tts_failure_ends|intros _ _].
  apply bind_tts_failure_ends;
    [apply consume_tts_failure_ends|intros text_buffer _].
  apply bind_tts_failure_ends.
  - destruct (strip_nonempty text_buffer);
      [|now apply quiet_tts_failure_ends].
    apply bind_tts_failure_ends; [apply event_tts_failure_ends|intros _ _].
    apply speak_tts_failure_ends.
  - intros _ _.
    apply bind_tts_failure_ends; [apply event_tts_failure_ends|intros _ _].
    apply event_tts_failure_ends.
Qed.

(** *** The agent stream raises *)

Lemma completes_fails_only_by_tts {A} (m : VoicePipeline.W A) :
  (exists a, snd m = Ok a) -> fails_only_by_tts tts_stream m.
Proof. intros H _. exact H. Qed.

Lemma maybe_event_completes (b : bool)
    (type : VoicePipeline.ResponseEventType) :
  fails_only_by_tts tts_stream
    (if b then VoicePipeline._add_event_message type None None
     else VoicePipeline.ret tt).
Proof.
  apply completes_fails_only_by_tts. exists tt. destruct b; reflexivity.
Qed.

Lemma speak_fails_only_by_tts (text : string) :
  fails_only_by_tts tts_stream (VoicePipeline.speak tts_stream text).
Proof.
  intros Hended. exists tt. rewrite speak_outcome. cbn [snd].
  rewrite (Hended text); [reflexivity|]. rewrite speak_calls. now left.
Qed.

Lemma bind_agent_failure_ends {A B} (chunks : gen string)
    (m : VoicePipeline.W A) (k : A -> VoicePipeline.W B) :
  fails_only_by_tts tts_stream m ->
  (forall a, snd m = Ok a -> agent_failure_ends tts_stream chunks (k a)) ->
  agent_failure_ends tts_stream chunks (VoicePipeline.bind m k).
Proof.
  intros Hm Hk Hended e Hraised.
  apply bind_streams_ended in Hended as [Hm_ended Hk_ended].
  destruct (Hm Hm_ended) as [a Ha]. rewrite bind_result, Ha.
  exact (Hk a Ha (Hk_ended a Ha) e Hraised).
Qed.

Lemma agent_failure_passes {A B} (chunks : gen string)
    (m : VoicePipeline.W A) (k : A -> VoicePipeline.W B) :
  agent_failure_ends tts_stream chunks m ->
  agent_failure_ends tts_stream chunks (VoicePipeline.bind m k).
Proof.
  intros Hm Hended e Hraised.
  apply bind_streams_ended in Hended as [Hm_ended _].
  rewrite bind_result. now rewrite (Hm Hm_ended e Hraised).
Qed.

Lemma consume_agent_failure_ends (chunks : gen string) :
  forall (text_buffer : string) (first_response_chunk first_speech_chunk : bool),
    agent_failure_ends tts_stream chunks
      (VoicePipeline.consume_agent_stream tts_stream chunks text_buffer
         first_response_chunk first_speech_chunk).
Proof.
  induction chunks as [|e0|chunk rest IH]; intros buffer frc fsc.
  - intros _ e H. discriminate.
  - intros _ e H. injection H as <-. reflexivity.
  - change (agent_failure_ends tts_stream rest
              (VoicePipeline.consume_agent_stream tts_stream (Yield chunk rest)
                 buffer frc fsc)).
    cbn [VoicePipeline.consume_agent_stream].
    apply bind_agent_failure_ends; [apply maybe_event_completes|intros _ _].
    destruct (VoicePipeline.has_sentence_ending (append buffer chunk))
      eqn:Hany; [|apply IH].
    destruct (last_ending_split (append buffer chunk) Hany)
      as (p & ending & r & _ & _ & _ & Hidx).
    apply bind_agent_failure_ends.
    { apply completes_fails_only_by_tts. eexists. cbn [VoicePipeline.lift snd].
      exact Hidx. }
    intros idx _.
    destruct (str_nonempty (str_take (Z.to_nat (idx + 1)) (append buffer chunk)));
      [|apply IH].
    apply bind_agent_failure_ends; [apply maybe_event_completes|intros _ _].
    apply bind_agent_failure_ends.
    { apply completes_fails_only_by_tts. now exists tt. }
    intros _ _.
    apply bind_agent_failure_ends; [apply speak_fails_only_by_tts|intros _ _].
    apply IH.
Qed.

Lemma turn_agent_failure_ends (generate_stream : option string -> gen string)
    (audio_chunk : AudioChunk) :
  agent_failure_ends tts_stream (generate_stream (transcript audio_chunk))
    (VoicePipeline.agent_turn generate_stream tts_stream audio_chunk).
Proof.
  unfold VoicePipeline.agent_turn.
  apply bind_agent_failure_ends.
  { apply completes_fails_only_by_tts. now exists tt. }
  intros _ _. apply bind_agent_failure_ends.
  { apply completes_fails_only_by_tts. now exists tt. }
  intros _ _. apply bind_agent_failure_ends.
  { apply completes_fails_only_by_tts. now exists tt. }
  intros _ _. apply agent_failure_passes.
  apply consume_agent_failure_ends.
Qed.

End TurnFailures.

(** C2 (amended). When the agent stream raises, or a TTS stream that the
    turn requested raises, the exception reaches the handler around the
    AgentDriver's loop: the effects of the turn up to the failure are
    performed, the exception is logged, and the task returns. The turn
    has emitted neither [ai.response.text.end] nor
    [ai.response.speech.end], and the Segments behind it stay in the
    input queue, unprocessed. *)
Theorem agent_turn_failure_ends_stage :
  forall (generate_stream : option string -> gen string)
         (tts_stream : string -> gen (list Z))
         (self : VoicePipeline.t) (audio_chunk : AudioChunk)
         (pending : list AudioChunk) (e : exn) (n : nat),
    Queue.items (VoicePipeline.transcription_queue self)
    = audio_chunk :: pending ->
    let effects :=
      fst (VoicePipeline.agent_turn generate_stream tts_stream audio_chunk) in
    (raised (generate_stream (transcript audio_chunk)) = Some e
     /\ (forall text, In text (tts_calls effects) ->
                      raised (tts_stream text) = None))
    \/ (exists text, In text (tts_calls effects)
                     /\ raised (tts_stream text) = Some e) ->
    let run := VoicePipeline.generate_agent_response generate_stream
                 tts_stream self (S n) in
    run = (VoicePipeline.perform
             (VoicePipeline.set_transcription_queue self
                {| Queue.maxsize :=
                     Queue.maxsize (VoicePipeline.transcription_queue self);
                   Queue.items := pending |})
             (effects
              ++ [VoicePipeline.Log
                    (LogException "Exception at send_llm_response" e)]),
           Caught e)
    /\ existsb is_end_event effects = false
    /\ Queue.items (VoicePipeline.transcription_queue (fst run)) = pending.
Proof.
  intros generate_stream tts_stream self audio_chunk pending e n
         Hq effects Hfailure run.
  assert (Hraise : snd (VoicePipeline.agent_turn generate_stream tts_stream
                          audio_chunk) = Raise e).
  { destruct Hfailure as [[Hagent Hended]|[text [Hin Htts]]].
    - exact (turn_agent_failure_ends tts_stream generate_stream audio_chunk
               Hended e Hagent).
    - exact (turn_tts_failure_ends tts_stream generate_stream audio_chunk
               text e Hin Htts). }
  assert (Hturn : VoicePipeline.agent_turn generate_stream tts_stream
                    audio_chunk = (effects, Raise e)).
  { subst effects. rewrite <- Hraise. apply surjective_pairing. }
  assert (Hrun : run = (VoicePipeline.perform
             (VoicePipeline.set_transcription_queue self
                {| Queue.maxsize :=
                     Queue.maxsize (VoicePipeline.transcription_queue self);
                   Queue.items := pending |})
             (effects
              ++ [VoicePipeline.Log
                    (LogException "Exception at send_llm_response" e)]),
           Caught e)).
  { subst run. cbn [VoicePipeline.generate_agent_response].
    unfold Queue.get_nowait. rewrite Hq, Hturn. reflexivity. }
  split; [exact Hrun|]. split.
  - exact (failed_turn_no_end generate_stream tts_stream audio_chunk
             effects e Hturn).
  - rewrite Hrun. cbn [fst]. rewrite perform_transcription_queue. reflexivity.
Qed.

Lemma agent_turn_failure_ends_stage_witness :
  (let run := VoicePipeline.generate_agent_response failing_agent tone_tts
                pipeline_two_turns 5 in
   snd run = Caught (ProviderError "agent")
   /\ existsb is_end_event
        (fst (VoicePipeline.agent_turn failing_agent tone_tts
                (transcribed "Hello."))) = false
   /\ Queue.items (VoicePipeline.transcription_queue (fst run))
      = [transcribed "Next."])
  /\ (let run := VoicePipeline.generate_agent_response greeting_agent
                   failing_tts pipeline_two_turns 5 in
      snd run = Caught (ProviderError "tts")
      /\ existsb is_end_event
           (fst (VoicePipeline.agent_turn greeting_agent failing_tts
                   (transcribed "Hello."))) = false
      /\ Queue.items (VoicePipeline.transcription_queue (fst run))
         = [transcribed "Next."]).
Proof.
  split.
  - assert (Hfailure :
      (raised (failing_agent (transcript (transcribed "Hello.")))
       = Some (ProviderError "agent")
       /\ (forall text,
             In text (tts_calls
                        (fst (VoicePipeline.agent_turn failing_agent tone_tts
                                (transcribed "Hello.")))) ->
             raised (tone_tts text) = None))
      \/ (exists text,
            In text (tts_calls
                       (fst (VoicePipeline.agent_turn failing_agent tone_tts
                               (transcribed "Hello."))))
            /\ raised (tone_tts text) = Some (ProviderError "agent"))).
    { left. split; [reflexivity|]. intros text _. reflexivity. }
    destruct (agent_turn_failure_ends_stage failing_agent tone_tts
                pipeline_two_turns (transcribed "Hello.")
                [transcribed "Next."] (ProviderError "agent") 4 eq_refl
                Hfailure)
      as (Hrun & Hend & Hq).
    split; [exact (f_equal snd Hrun)|]. split; [exact Hend|exact Hq].
  - assert (Hfailure :
      (raised (greeting_agent (transcript (transcribed "Hello.")))
       = Some (ProviderError "tts")
       /\ (forall text,
             In text (tts_calls
                        (fst (VoicePipeline.agent_turn greeting_agent
                                failing_tts (transcribed "Hello.")))) ->
             raised (failing_tts text) = None))
      \/ (exists text,
            In text (tts_calls
                       (fst (VoicePipeline.agent_turn greeting_agent
                               failing_tts (transcribed "Hello."))))
            /\ raised (failing_tts text) = Some (ProviderError "tts"))).
    { right. exists "Hi there!". split; [|reflexivity].
      vm_compute. left. reflexivity. }
    destruct (agent_turn_failure_ends_stage greeting_agent failing_tts
                pipeline_two_turns (transcribed "Hello.")
                [transcribed "Next."] (ProviderError "tts") 4 eq_refl
                Hfailure)
      as (Hrun & Hend & Hq).
    split; [exact (f_equal snd Hrun)|]. split; [exact Hend|exact Hq].
Defined.

(** The same for a TTS stream that breaks off: the turn of the first
    Segment got as far as one speech delta, no end event follows it, and
    the second Segment is still queued. *)
Lemma tts_failure_leaves_turn_open :
  let run := VoicePipeline.generate_agent_response greeting_agent failing_tts
               pipeline_two_turns 5 in
  snd run = Caught (ProviderError "tts")
  /\ event_types (VoicePipeline.trace (fst run))
     = [VoicePipeline.TRANSCRIPTION_TEXT; VoicePipeline.AI_RESPONSE_TEXT_START;
        VoicePipeline.AI_RESPONSE_SPEECH_START;
        VoicePipeline.AI_RESPONSE_TEXT_DELTA;
        VoicePipeline.AI_RESPONSE_SPEECH_DELTA]
  /\ agent_calls (VoicePipeline.trace (fst run)) = [Some "Hello."]
  /\ Queue.items (VoicePipeline.transcription_queue (fst run))
     = [transcribed "Next."].
Proof. vm_compute. repeat split. Qed.

(** A Segment stamped 0 (a frame whose header holds less than 1000 ms):
    the start event of its transcription carries the server's clock. *)
Lemma transcribe_turn_start_of_epoch_segment :
  forall (stt_stream : audio_data -> option PipelineConfig -> gen string)
         (config : PipelineConfig) (audio_chunk : AudioChunk),
    timestamp audio_chunk = inject_Z 0 ->
    nth_error (fst (VoicePipeline.transcribe_turn stt_stream config
                      audio_chunk)) 1
    = Some (bare_event VoicePipeline.TRANSCRIPTION_START).
Proof.
  intros stt_stream config chunk Hzero.
  unfold VoicePipeline.transcribe_turn.
  cbn [VoicePipeline.bind VoicePipeline.tell VoicePipeline._add_event_message
       fst app nth_error].
  rewrite Hzero.
  destruct (VoicePipeline.bind _ _) as [effects outcome].
  reflexivity.
Qed.
